(** * Konenako Tutor: the document / session / upload lifecycle

    A shallow embedding of [Gemini_konenako_uusikurssi.py]: the two worker
    objects ([AIChatWorker], [PDFUploadWorker]) and the lifecycle logic of
    the main window ([SimpleTutorApp]), followed by the properties of the
    specification that were checked against them.

    Conventions of the embedding.
    - A Python [dict] keeps insertion order, and the code depends on it
      ([list(self.uploaded_files.keys())[0]]), so a dict is an association
      list in insertion order.
    - Everything outside the file (the Gemini SDK, the file system, the clock,
      [configparser], [json], [str]/[float]) is reached through the oracles
      of one [World] record; calls that can raise return a [Result].  The
      INI file is kept as what [config.get] gives for each option, not as
      text; for values of printable ASCII characters, what a written file
      reads as is computed ([strip], [before_set_ok], [interpolate]), for
      other values it is an oracle of the world.
    - A worker run is the list of what it does, in order: its blocking calls
      and the signals it emits.  [stop()] is called from another thread; the
      run observes it through [_is_running], which reads false once the
      blocking call during which the stop arrived has returned.  A read of
      the flag and the [emit] it guards count as one step.
    - The main window is a state monad over [App]; every outward call it
      makes (dialog, widget, config file, SDK, thread start) is logged
      together with the state it was made from.  An exception that nothing
      catches ends the slot it is raised in; Qt reports it and goes on.  The document selector is
      modelled as a widget with state, because setting its current item
      re-enters [handle_document_selection_change] through its signal.
    - A [ChatSession] object is its creation number, so that a new session
      can be told from an old one.
    - [print] calls, styling and layout are left out, and so is the
      processing of pending events inside [update_status]. *)

From Stdlib Require Import String Ascii List ZArith Bool Lia DecimalString Arith.
Import ListNotations.

Local Open Scope string_scope.
Local Open Scope list_scope.

Infix "+++" := String.append (at level 60, right associativity).

(* ================================================================== *)
(** ** Python values *)

(** [str(n)] for a non-negative integer. *)
Definition str_nat (n : nat) : string := NilZero.string_of_uint (Nat.to_uint n).

(** A binary floating-point number [mantissa * 2 ^ exponent].  Only stored,
    printed and parsed here; no arithmetic is done on it. *)
Record float := { mantissa : Z; exponent : Z }.

(** [bool(s)] for an [Optional[str]]: [None] and [''] are falsy. *)
Definition truthy (o : option string) : bool :=
  match o with
  | Some s => negb (s =? "")
  | None => false
  end.

Definition opt_str_eqb (a b : option string) : bool :=
  match a, b with
  | Some x, Some y => x =? y
  | None, None => true
  | _, _ => false
  end.

(** [x in l] for a list of strings. *)
Definition str_in (x : string) (l : list string) : bool :=
  existsb (String.eqb x) l.

(** [s.split(':')[0]]: the text before the first colon. *)
Fixpoint split_colon_head (s : string) : string :=
  match s with
  | EmptyString => EmptyString
  | String c s' => if Ascii.eqb c ":" then EmptyString else String c (split_colon_head s')
  end.

(** [text.find(x)] as the index in a list, used for [findText]. *)
Fixpoint index_of (x : string) (l : list string) : option nat :=
  match l with
  | [] => None
  | y :: l' => if x =? y then Some 0 else option_map S (index_of x l')
  end.

(** Insertion-ordered dictionaries with string keys. *)
Module PyDict.
Section Dict.
Context {V : Type}.

Definition t := list (string * V).

Fixpoint get (k : string) (d : t) : option V :=
  match d with
  | [] => None
  | (k', v) :: d' => if k =? k' then Some v else get k d'
  end.

(** [k in d] *)
Definition mem (k : string) (d : t) : bool :=
  match get k d with Some _ => true | None => false end.

(** [d[k] = v]: an existing key keeps its place, a new one goes last. *)
Fixpoint set (k : string) (v : V) (d : t) : t :=
  match d with
  | [] => [(k, v)]
  | (k', v') :: d' => if k =? k' then (k, v) :: d' else (k', v') :: set k v d'
  end.

(** [del d[k]] *)
Definition del (k : string) (d : t) : t :=
  filter (fun kv => negb (k =? fst kv)) d.

Definition keys (d : t) : list string := map fst d.
Definition values (d : t) : list V := map snd d.

(** [a.keys() - b.keys()], here in the order of [a]. *)
Definition keys_minus {W : Type} (a : t) (b : list (string * W)) : list string :=
  filter (fun k => negb (existsb (String.eqb k) (map fst b))) (keys a).
End Dict.
End PyDict.

Abbreviation dict V := (list (string * V)).

(* ================================================================== *)
(** ** Exceptions *)

Inductive ExnClass :=
| GoogleAPIError | PermissionDenied | Unauthenticated | NotFound
| ConnectionError | ValueError | FileNotFoundError | TimeoutError
| IndexError | TypeError | OtherException.

Record Exn := { exn_class : ExnClass; exn_msg : string }.

(** [PermissionDenied], [Unauthenticated] and [NotFound] derive from
    [GoogleAPIError]. *)
Definition is_GoogleAPIError (c : ExnClass) : bool :=
  match c with
  | GoogleAPIError | PermissionDenied | Unauthenticated | NotFound => true
  | _ => false
  end.

Inductive Result (A : Type) :=
| Ok (a : A)
| Raise (e : Exn).
Arguments Ok {A} a.
Arguments Raise {A} e.

(* ================================================================== *)
(** ** Objects of the SDK *)

(** [google.generativeai.types.File] *)
Record File := {
  name : string;            (* the remote id *)
  display_name : string;
  state_name : string;      (* [file.state.name] *)
  uri : string }.

(** A [ChatSession] object, by identity. *)
Definition ChatSession := nat.

(** The response of [send_message]; reading [.text] can raise. *)
Record Response := { text : Result string }.

Record GenerativeModel := { model_name : string; generation_temperature : float }.

(** An entry of [current_chat_history]: [{'role': r, 'parts': [...]}]. *)
Record ContentDict := { role : string; parts : list string }.

(* --- Constants --- *)
Definition DEFAULT_MODEL : string := "gemini-1.5-flash-latest".
Definition DEFAULT_LANGUAGE : string := "Finnish".
(** 0.6 as a binary64 number *)
Definition DEFAULT_TEMPERATURE : float :=
  {| mantissa := 5404319552844595; exponent := -53 |}.
Definition ROLE_AI : string := "model".
Definition ROLE_USER : string := "user".
Definition ROLE_SYSTEM : string := "system".

(* ================================================================== *)
(** ** The text layer of [configparser]

    [save_config] hands its values to a [ConfigParser] with the default
    [BasicInterpolation], which checks them when they are assigned and
    writes them as lines [option = value]; [load_config] has the lines
    parsed, and every [get] interpolates the stored value.  This is
    computed here for values of printable ASCII characters. *)

Definition printable (c : ascii) : bool :=
  let n := nat_of_ascii c in Nat.leb 32 n && Nat.leb n 126.

Fixpoint plain (s : string) : bool :=
  match s with
  | EmptyString => true
  | String c s' => printable c && plain s'
  end.

(** [str.strip()] of a plain text: the blanks at both ends go. *)
Fixpoint lstrip (s : string) : string :=
  match s with
  | EmptyString => EmptyString
  | String c s' => if Ascii.eqb c " " then lstrip s' else s
  end.

Fixpoint rstrip (s : string) : string :=
  match s with
  | EmptyString => EmptyString
  | String c s' =>
    match rstrip s' with
    | EmptyString => if Ascii.eqb c " " then EmptyString else String c EmptyString
    | r => String c r
    end
  end.

Definition strip (s : string) : string := rstrip (lstrip s).

(** [str.lower()] of a plain text, which is [optionxform]. *)
Definition lower_char (c : ascii) : ascii :=
  let n := nat_of_ascii c in
  if Nat.leb 65 n && Nat.leb n 90 then ascii_of_nat (n + 32) else c.

Fixpoint lower (s : string) : string :=
  match s with
  | EmptyString => EmptyString
  | String c s' => String (lower_char c) (lower s')
  end.

(** ['%' in s] *)
Fixpoint has_percent (s : string) : bool :=
  match s with
  | EmptyString => false
  | String c s' => Ascii.eqb c "%" || has_percent s'
  end.

(** [value.replace('%%', '')] *)
Fixpoint remove_escapes (s : string) : string :=
  match s with
  | EmptyString => EmptyString
  | String c s' =>
    if Ascii.eqb c "%" then
      match s' with
      | EmptyString => s
      | String c' s'' =>
        if Ascii.eqb c' "%" then remove_escapes s'' else String c (remove_escapes s')
      end
    else String c (remove_escapes s')
  end.

(** For the text after [%(]: the length of [name] when the text is
    [name)s...] with no [)] in [name]. *)
Fixpoint key_name (s : string) : option nat :=
  match s with
  | EmptyString => None
  | String c s' =>
    if Ascii.eqb c ")" then
      match s' with
      | EmptyString => None
      | String c' _ => if Ascii.eqb c' "s" then Some 0 else None
      end
    else option_map S (key_name s')
  end.

(** [_KEYCRE.match], for the pattern [%\(([^)]+)\)s] at a [%]: for the
    text after the [%], the length of [(name)s]; the name is not empty. *)
Definition key_match (s : string) : option nat :=
  match s with
  | EmptyString => None
  | String c s' =>
    if Ascii.eqb c "(" then
      match key_name s' with
      | Some (S n) => Some (S n + 3)
      | _ => None
      end
    else None
  end.

(** [_KEYCRE.sub('', s)]; [skip] characters of a match are still to go. *)
Fixpoint remove_keys (skip : nat) (s : string) : string :=
  match s with
  | EmptyString => EmptyString
  | String c s' =>
    match skip with
    | S n => remove_keys n s'
    | O =>
      if Ascii.eqb c "%" then
        match key_match s' with
        | Some n => remove_keys n s'
        | None => String c (remove_keys 0 s')
        end
      else String c (remove_keys 0 s')
    end
  end.

(** [BasicInterpolation.before_set] takes the value: once every [%%] and
    then every [%(name)s] is taken out, no [%] is left.  Otherwise the
    assignment raises [ValueError]. *)
Definition before_set_ok (value : string) : bool :=
  negb (has_percent (remove_keys 0 (remove_escapes value))).

(** [MAX_INTERPOLATION_DEPTH] *)
Definition MAX_INTERPOLATION_DEPTH : nat := 10.

(** [BasicInterpolation.before_get], that is [_interpolate_some], for the
    stored value [rest] of an option of the section [section]: [%%] gives
    [%], [%(name)s] gives the interpolated value of the option [name] of the
    section, anything else after a [%] is an error, and so are a missing
    option and a nesting deeper than [depth]; [None] stands for the
    [InterpolationError]. *)
Fixpoint interpolate (depth : nat) (section : dict string) (rest : string)
    {struct depth} : option string :=
  match depth with
  | O => None
  | S depth' =>
    (fix scan (skip : nat) (rest : string) {struct rest} : option string :=
       match rest with
       | EmptyString => Some EmptyString
       | String c rest' =>
         match skip with
         | S n => scan n rest'
         | O =>
           if Ascii.eqb c "%" then
             match rest' with
             | EmptyString => None
             | String c' rest'' =>
               if Ascii.eqb c' "%" then option_map (String "%") (scan 1 rest')
               else if Ascii.eqb c' "(" then
                 match key_match rest' with
                 | None => None
                 | Some n =>
                   let var := lower (substring 0 (n - 3) rest'') in
                   match PyDict.get var section with
                   | None => None
                   | Some v =>
                     match (if has_percent v then interpolate depth' section v
                            else Some v) with
                     | None => None
                     | Some x => option_map (String.append x) (scan n rest')
                     end
                   end
                 end
               else None
             end
           else option_map (String c) (scan 0 rest')
         end
       end) 0 rest
  end.

(* ================================================================== *)
(** ** The world outside the program *)

(** What [config.get(section, option, fallback=...)] does for one option
    of the file. *)
Inductive Got :=
| Absent                      (* no such section or option: the fallback *)
| Present (value : string)    (* the value, stripped and interpolated *)
| GetRaises (err : string).   (* an [InterpolationError], with its text *)

(** The INI file as [load_config] sees it. *)
Record IniFile := {
  ini_APIKey : Got;
  ini_Model : Got;
  ini_Language : Got;
  ini_Temperature : Got;
  ini_LocalPaths : Got }.

Inductive Disk :=
| NoFile                       (* [os.path.exists(CONFIG_FILE)] is false *)
| Unreadable (err : string)    (* [config.read] raises [configparser.Error] *)
| Ini (f : IniFile).

(** The values [save_config] hands to [configparser], in the order of its
    assignments. *)
Record IniValues := {
  val_APIKey : string;
  val_Model : string;
  val_Language : string;
  val_Temperature : string;
  val_LocalPaths : string }.

(** A failure of [with open(CONFIG_FILE, 'w') as configfile:
    config.write(configfile)]: the text of the exception, and what has
    become of the file.  [open] empties the file before anything is
    written, so only a failure of [open] itself leaves the file as it
    was. *)
Record WriteFailure := {
  failure_text : string;
  file_left : option Disk }.    (* [None]: as it was; [Some d]: emptied, reads as [d] *)

(** The value of [json.loads]: a dict whose values are strings, which is
    what the program takes the registry to be; any other value that has a
    length (a list, a string, a dict with other values); or a value without
    a length ([None], a number, [True], [False]), with the name of its
    type. *)
Inductive Json :=
| JsonPaths (d : dict string)
| JsonSized
| JsonUnsized (type_name : string).

Record World := {
  gemini_imported : bool;
  (* os, mimetypes *)
  os_path_exists : string -> bool;
  os_path_basename : string -> string;
  mimetypes_guess_type : string -> option string;
  (* str(float), float(str), json *)
  float_str : float -> string;
  float_parse : string -> option float;
  json_dumps : dict string -> string;
  json_loads : string -> option Json;        (* [None]: [JSONDecodeError] *)
  (* writing CONFIG_FILE: how it fails, if it does *)
  config_write_error : option WriteFailure;
  (* [str(e)] of the [InterpolationError] that [config.get] raises for an
     option and its stored value *)
  interpolation_error : string -> string -> string;
  (* what the file reads as after values that are not all printable ASCII
     were written to it *)
  reread_other : IniValues -> Disk;
  (* iteration order of a Python set of strings *)
  set_order : list string -> list string;
  (* the Gemini SDK *)
  genai_configure : string -> Result unit;
  GenerativeModel_init : string -> float -> Result unit;
  model_start_chat : GenerativeModel -> Result unit;
  genai_upload_file : string -> string -> string -> Result File;
  (* [get_file name] after [n] blocking calls of the run *)
  genai_get_file : string -> nat -> Result File;
  genai_delete_file : string -> Result unit;
  chat_send_message : ChatSession -> list string -> Result Response;
  (* time, in milliseconds, that the [n]-th blocking call takes on top of
     what it asks for *)
  latency : nat -> N }.

(* ================================================================== *)
(** ** Worker objects *)

Inductive Signal :=
| result_ready (response_text : string)
| error_occurred (message : string)
| progress_update (message : string)
| file_processed (filename : string)
| finished (references : list File).

Inductive BlockingCall :=
| time_sleep (ms : Z)
| upload_file (path display mime : string)
| get_file (file_name : string)
| delete_file (file_name : string)
| send_message (session : ChatSession) (content : list string).

Inductive WEvent :=
| Blocking (c : BlockingCall) (duration : Z)
| Emit (s : Signal).

Definition is_blocking (e : WEvent) : bool :=
  match e with Blocking _ _ => true | Emit _ => false end.

Definition calls_done (tr : list WEvent) : nat :=
  length (filter is_blocking tr).

(** The clock of a run, in milliseconds since it started. *)
Fixpoint clock (tr : list WEvent) : Z :=
  match tr with
  | [] => 0
  | Blocking _ d :: tr' => d + clock tr'
  | Emit _ :: tr' => clock tr'
  end.

(** When [stop()] is called: [Some 0] before the run starts, [Some k] while
    the run is inside its [k]-th blocking call, [None] never. *)
Definition StopPoint := option nat.

(** [self._is_running] as the run reads it after the events [tr]. *)
Definition is_running (stop : StopPoint) (tr : list WEvent) : bool :=
  match stop with
  | None => true
  | Some k => Nat.ltb (calls_done tr) k
  end.

Record AIChatWorker := {
  chat_session : option ChatSession;
  user_message_text : string;
  doc_ref : option File }.

Record PDFUploadWorker := {
  file_paths : list string;
  basenames : list string }.

Section Workers.
Variable w : World.
Variable stop : StopPoint.

Definition block (c : BlockingCall) (asked : Z) (tr : list WEvent) : list WEvent :=
  tr ++ [Blocking c (asked + Z.of_N (latency w (calls_done tr)))].

Definition emit (s : Signal) (tr : list WEvent) : list WEvent :=
  tr ++ [Emit s].

(** *** AIChatWorker.run *)

Definition chat_error_message (e : Exn) : string :=
  match exn_class e with
  | ConnectionError | ValueError => "AI Error: " +++ exn_msg e
  | c => if is_GoogleAPIError c then "AI Error: " +++ exn_msg e
         else "Unexpected Error: " +++ exn_msg e
  end.

Definition chat_except (e : Exn) (tr : list WEvent) : list WEvent :=
  if is_running stop tr then emit (error_occurred (chat_error_message e)) tr else tr.

Definition AIChatWorker_run (self : AIChatWorker) : list WEvent :=
  if negb (is_running stop []) then []
  else match chat_session self with
  | None => emit (error_occurred "AI Chat session not initialized.") []
  | Some session =>
    let message_content := [user_message_text self] in
    let tr := block (send_message session message_content) 0 [] in
    match chat_send_message w session message_content with
    | Raise e => chat_except e tr
    | Ok response =>
      if negb (is_running stop tr) then tr
      else match text response with
      | Raise e => chat_except e tr
      | Ok response_text =>
        if is_running stop tr then emit (result_ready response_text) tr else tr
      end
    end
  end.

(** *** PDFUploadWorker.run *)

(** [try: genai.delete_file(name) except: print(...)] *)
Definition try_delete (file_name : string) (tr : list WEvent) : list WEvent :=
  block (delete_file file_name) 0 tr.

Definition max_wait : Z := 120000.

Inductive PollOutcome :=
| PollBreak                   (* left the loop by [break] *)
| PollRaise (e : Exn)
| PollOutOfFuel.

(** One round of the file processing wait loop; [again] is the next
    round.  Times are in milliseconds; the waits 5, 7.5, 11.25, 15, 15,
    ... seconds are exact in this unit. *)
Definition wait_round
    (again : Z -> File -> list WEvent -> list WEvent * list File * PollOutcome)
    (filename : string) (start_time wait_time : Z)
    (uploaded_file : File) (refs : list File) (tr : list WEvent)
    : list WEvent * list File * PollOutcome :=
  if Z.ltb (clock tr - start_time) max_wait then
    if negb (is_running stop tr) then (tr, refs, PollBreak)
    else
      let n := calls_done tr in
      let tr1 := block (get_file (name uploaded_file)) 0 tr in
      match genai_get_file w (name uploaded_file) n with
      | Raise _ =>
        again wait_time uploaded_file (block (time_sleep wait_time) wait_time tr1)
      | Ok uploaded_file' =>
        let state := state_name uploaded_file' in
        if state =? "ACTIVE" then
          (emit (file_processed filename) tr1, refs ++ [uploaded_file'], PollBreak)
        else if state =? "FAILED" then
          (try_delete (name uploaded_file') tr1, refs,
           PollRaise {| exn_class := GoogleAPIError;
                        exn_msg := "File processing failed for '" +++ filename
                                   +++ "': State=" +++ state |})
        else if state =? "PROCESSING" then
          if negb (is_running stop tr1) then (tr1, refs, PollBreak)
          else
            again (Z.min (wait_time * 3 / 2) 15000) uploaded_file'
                  (block (time_sleep wait_time) wait_time tr1)
        else
          (tr1, refs,
           PollRaise {| exn_class := GoogleAPIError;
                        exn_msg := "Unexpected state for '" +++ filename
                                   +++ "': " +++ state |})
      end
  else
    (* the [else] of the [while]: the loop ran out of time *)
    (try_delete (name uploaded_file) tr, refs,
     PollRaise {| exn_class := TimeoutError;
                  exn_msg := "Timeout processing file '" +++ filename +++ "'" |}).

Fixpoint wait_loop (fuel : nat) (filename : string) (start_time wait_time : Z)
    (uploaded_file : File) (refs : list File) (tr : list WEvent)
    : list WEvent * list File * PollOutcome :=
  match fuel with
  | O => (tr, refs, PollOutOfFuel)
  | S fuel' =>
    wait_round (fun wait_time' uploaded_file' tr' =>
                  wait_loop fuel' filename start_time wait_time' uploaded_file' refs tr')
               filename start_time wait_time uploaded_file refs tr
  end.

(** Enough for every run: each round that does not leave the loop sleeps
    at least 5 s of the 120 s allowed. *)
Definition WAIT_FUEL : nat := 25.

Inductive LoopOutcome :=
| LoopEnd                     (* the [for] ended, or was left by [break] *)
| LoopRaise (e : Exn)
| LoopOutOfFuel.

Definition guess_mime (file_path : string) : string :=
  match mimetypes_guess_type w file_path with
  | Some m => if m =? "" then "application/octet-stream" else m
  | None => "application/octet-stream"
  end.

Fixpoint upload_loop (self : PDFUploadWorker) (i : nat) (paths : list string)
    (refs : list File) (tr : list WEvent)
    : list WEvent * list File * LoopOutcome :=
  match paths with
  | [] => (tr, refs, LoopEnd)
  | file_path :: rest =>
    if negb (is_running stop tr) then (tr, refs, LoopEnd)
    else match nth_error (basenames self) i with
    | None =>
      (tr, refs, LoopRaise {| exn_class := IndexError;
                              exn_msg := "list index out of range" |})
    | Some filename =>
      let tr := emit (progress_update ("Uploading " +++ filename +++ "...")) tr in
      let mime_type := guess_mime file_path in
      if negb (os_path_exists w file_path) then
        (tr, refs, LoopRaise {| exn_class := FileNotFoundError;
                                exn_msg := "File disappeared before upload: " +++ filename |})
      else
        let tr := block (upload_file file_path filename mime_type) 0 tr in
        match genai_upload_file w file_path filename mime_type with
        | Raise e => (tr, refs, LoopRaise e)
        | Ok uploaded_file =>
          if negb (is_running stop tr) then (tr, refs, LoopEnd)
          else
            let tr := emit (progress_update ("Processing " +++ filename +++ "...")) tr in
            match wait_loop WAIT_FUEL filename (clock tr) 5000 uploaded_file refs tr with
            | (tr, refs, PollOutOfFuel) => (tr, refs, LoopOutOfFuel)
            | (tr, refs, PollRaise e) => (tr, refs, LoopRaise e)
            | (tr, refs, PollBreak) =>
              if negb (is_running stop tr) then (tr, refs, LoopEnd)
              else upload_loop self (S i) rest refs tr
            end
        end
    end
  end.

Definition upload_error_message (e : Exn) : string :=
  match exn_class e with
  | FileNotFoundError | TimeoutError | ValueError => "Upload Error: " +++ exn_msg e
  | c => if is_GoogleAPIError c then "Upload Error: " +++ exn_msg e
         else "Unexpected Upload Error: " +++ exn_msg e
  end.

(** [None] only if the wait loop ran out of fuel, which
    [PDFUploadWorker_run_total] excludes. *)
Definition PDFUploadWorker_run (self : PDFUploadWorker) : option (list WEvent) :=
  if negb (is_running stop []) then Some (emit (error_occurred "Upload stopped.") [])
  else
    let tr := block (time_sleep 100) 100 [] in
    match upload_loop self 0 (file_paths self) [] tr with
    | (tr, refs, LoopOutOfFuel) => None
    | (tr, refs, LoopRaise e) => Some (emit (error_occurred (upload_error_message e)) tr)
    | (tr, refs, LoopEnd) =>
      if is_running stop tr then
        if Nat.eqb (length refs) (length (file_paths self)) then Some (emit (finished refs) tr)
        else Some (emit (finished refs) tr)
      else Some tr
    end.
End Workers.

(** What a run emitted, in order. *)
Definition signals (tr : list WEvent) : list Signal :=
  flat_map (fun e => match e with Emit s => [s] | Blocking _ _ => [] end) tr.

(** The events that follow the arrival of the stop: everything for
    [Some 0], what comes after the [k]-th blocking call for [Some k],
    nothing for [None]. *)
Fixpoint after_calls (k : nat) (tr : list WEvent) : list WEvent :=
  match k, tr with
  | O, _ => tr
  | S _, [] => []
  | S k', Blocking _ _ :: tr' => after_calls k' tr'
  | S _, Emit _ :: tr' => after_calls k tr'
  end.

Definition after_stop (stop : StopPoint) (tr : list WEvent) : list WEvent :=
  match stop with
  | None => []
  | Some k => after_calls k tr
  end.

Definition is_completion (s : Signal) : bool :=
  match s with result_ready _ | finished _ => true | _ => false end.

Definition is_failure (s : Signal) : bool :=
  match s with error_occurred _ => true | _ => false end.

(* ================================================================== *)
(** ** The main window: state *)

(** The value under the key ['files'] of [self.config]. *)
Inductive FilesEntry :=
| FilesText (s : string)
| FilesDict (d : dict string).

(** [self.config], and the [settings] dict of the settings widget: each key
    present or not. *)
Record Config := {
  cfg_api_key : option string;
  cfg_model : option string;
  cfg_language : option string;
  cfg_temperature : option float;
  cfg_files : option FilesEntry }.

Definition or_else {A : Type} (a b : option A) : option A :=
  match a with Some _ => a | None => b end.

Definition get_or {A : Type} (d : A) (o : option A) : A :=
  match o with Some x => x | None => d end.

(** [config.update(settings)] *)
Definition config_update (config settings : Config) : Config :=
  {| cfg_api_key := or_else (cfg_api_key settings) (cfg_api_key config);
     cfg_model := or_else (cfg_model settings) (cfg_model config);
     cfg_language := or_else (cfg_language settings) (cfg_language config);
     cfg_temperature := or_else (cfg_temperature settings) (cfg_temperature config);
     cfg_files := or_else (cfg_files settings) (cfg_files config) |}.

(** [chat_widget.doc_selector_combo], a non-editable [QComboBox]; the current
    index -1 of Qt is [None]. *)
Record ComboBox := {
  items : list string;
  currentIndex : option nat;
  signalsBlocked : bool }.

Definition currentText (c : ComboBox) : string :=
  match currentIndex c with
  | Some i => nth i (items c) ""
  | None => ""
  end.

Definition findText (t : string) (c : ComboBox) : option nat := index_of t (items c).

Inductive Worker :=
| ChatWorker (worker : AIChatWorker)
| UploadWorker (worker : PDFUploadWorker).

Record App := {
  config : Config;
  local_file_paths : dict string;
  uploaded_files : dict File;
  model : option GenerativeModel;
  current_chat_session : option ChatSession;
  current_chat_history : list ContentDict;
  selected_doc_basename : option string;
  is_ai_configured : bool;
  is_processing : bool;
  worker : option Worker;              (* [self.thread] and [self.worker] *)
  doc_selector_combo : ComboBox;
  disk : Disk;                         (* CONFIG_FILE *)
  sessions_created : nat               (* gives each new ChatSession its identity *)
}.

Definition set_config v a :=
  {| config := v; local_file_paths := local_file_paths a;
     uploaded_files := uploaded_files a; model := model a;
     current_chat_session := current_chat_session a;
     current_chat_history := current_chat_history a;
     selected_doc_basename := selected_doc_basename a;
     is_ai_configured := is_ai_configured a; is_processing := is_processing a;
     worker := worker a; doc_selector_combo := doc_selector_combo a; disk := disk a;
     sessions_created := sessions_created a |}.
Definition set_local_file_paths v a :=
  {| config := config a; local_file_paths := v; uploaded_files := uploaded_files a;
     model := model a; current_chat_session := current_chat_session a;
     current_chat_history := current_chat_history a;
     selected_doc_basename := selected_doc_basename a;
     is_ai_configured := is_ai_configured a; is_processing := is_processing a;
     worker := worker a; doc_selector_combo := doc_selector_combo a; disk := disk a;
     sessions_created := sessions_created a |}.
Definition set_uploaded_files v a :=
  {| config := config a; local_file_paths := local_file_paths a; uploaded_files := v;
     model := model a; current_chat_session := current_chat_session a;
     current_chat_history := current_chat_history a;
     selected_doc_basename := selected_doc_basename a;
     is_ai_configured := is_ai_configured a; is_processing := is_processing a;
     worker := worker a; doc_selector_combo := doc_selector_combo a; disk := disk a;
     sessions_created := sessions_created a |}.
Definition set_model v a :=
  {| config := config a; local_file_paths := local_file_paths a;
     uploaded_files := uploaded_files a; model := v;
     current_chat_session := current_chat_session a;
     current_chat_history := current_chat_history a;
     selected_doc_basename := selected_doc_basename a;
     is_ai_configured := is_ai_configured a; is_processing := is_processing a;
     worker := worker a; doc_selector_combo := doc_selector_combo a; disk := disk a;
     sessions_created := sessions_created a |}.
Definition set_current_chat_session v a :=
  {| config := config a; local_file_paths := local_file_paths a;
     uploaded_files := uploaded_files a; model := model a; current_chat_session := v;
     current_chat_history := current_chat_history a;
     selected_doc_basename := selected_doc_basename a;
     is_ai_configured := is_ai_configured a; is_processing := is_processing a;
     worker := worker a; doc_selector_combo := doc_selector_combo a; disk := disk a;
     sessions_created := sessions_created a |}.
Definition set_current_chat_history v a :=
  {| config := config a; local_file_paths := local_file_paths a;
     uploaded_files := uploaded_files a; model := model a;
     current_chat_session := current_chat_session a; current_chat_history := v;
     selected_doc_basename := selected_doc_basename a;
     is_ai_configured := is_ai_configured a; is_processing := is_processing a;
     worker := worker a; doc_selector_combo := doc_selector_combo a; disk := disk a;
     sessions_created := sessions_created a |}.
Definition set_selected_doc_basename v a :=
  {| config := config a; local_file_paths := local_file_paths a;
     uploaded_files := uploaded_files a; model := model a;
     current_chat_session := current_chat_session a;
     current_chat_history := current_chat_history a; selected_doc_basename := v;
     is_ai_configured := is_ai_configured a; is_processing := is_processing a;
     worker := worker a; doc_selector_combo := doc_selector_combo a; disk := disk a;
     sessions_created := sessions_created a |}.
Definition set_is_ai_configured v a :=
  {| config := config a; local_file_paths := local_file_paths a;
     uploaded_files := uploaded_files a; model := model a;
     current_chat_session := current_chat_session a;
     current_chat_history := current_chat_history a;
     selected_doc_basename := selected_doc_basename a; is_ai_configured := v;
     is_processing := is_processing a; worker := worker a;
     doc_selector_combo := doc_selector_combo a; disk := disk a;
     sessions_created := sessions_created a |}.
Definition set_is_processing v a :=
  {| config := config a; local_file_paths := local_file_paths a;
     uploaded_files := uploaded_files a; model := model a;
     current_chat_session := current_chat_session a;
     current_chat_history := current_chat_history a;
     selected_doc_basename := selected_doc_basename a;
     is_ai_configured := is_ai_configured a; is_processing := v; worker := worker a;
     doc_selector_combo := doc_selector_combo a; disk := disk a;
     sessions_created := sessions_created a |}.
Definition set_worker v a :=
  {| config := config a; local_file_paths := local_file_paths a;
     uploaded_files := uploaded_files a; model := model a;
     current_chat_session := current_chat_session a;
     current_chat_history := current_chat_history a;
     selected_doc_basename := selected_doc_basename a;
     is_ai_configured := is_ai_configured a; is_processing := is_processing a;
     worker := v; doc_selector_combo := doc_selector_combo a; disk := disk a;
     sessions_created := sessions_created a |}.
Definition set_doc_selector_combo v a :=
  {| config := config a; local_file_paths := local_file_paths a;
     uploaded_files := uploaded_files a; model := model a;
     current_chat_session := current_chat_session a;
     current_chat_history := current_chat_history a;
     selected_doc_basename := selected_doc_basename a;
     is_ai_configured := is_ai_configured a; is_processing := is_processing a;
     worker := worker a; doc_selector_combo := v; disk := disk a;
     sessions_created := sessions_created a |}.
Definition set_disk v a :=
  {| config := config a; local_file_paths := local_file_paths a;
     uploaded_files := uploaded_files a; model := model a;
     current_chat_session := current_chat_session a;
     current_chat_history := current_chat_history a;
     selected_doc_basename := selected_doc_basename a;
     is_ai_configured := is_ai_configured a; is_processing := is_processing a;
     worker := worker a; doc_selector_combo := doc_selector_combo a; disk := v;
     sessions_created := sessions_created a |}.
Definition set_sessions_created v a :=
  {| config := config a; local_file_paths := local_file_paths a;
     uploaded_files := uploaded_files a; model := model a;
     current_chat_session := current_chat_session a;
     current_chat_history := current_chat_history a;
     selected_doc_basename := selected_doc_basename a;
     is_ai_configured := is_ai_configured a; is_processing := is_processing a;
     worker := worker a; doc_selector_combo := doc_selector_combo a; disk := disk a;
     sessions_created := v |}.

(** The calls the main window makes to the outside: dialogs, widgets, the
    config file, the SDK, and the start of a worker thread. *)
Inductive Call :=
| QMessageBox_warning (title text : string)
| QMessageBox_critical (title text : string)
| QMessageBox_information (title text : string)
| show_status (message : string) (is_error processing : bool)
| set_controls_enabled (enabled : bool)
| chat_clear_chat
| chat_add_message (sender_role text : string)
| settings_update_file_list (names : list string)
| upload_button_setEnabled (enabled : bool)
| write_config (values : IniValues)
| call_configure (api_key : string)
| call_GenerativeModel (model_name : string) (temperature : float)
| call_start_chat
| call_delete_file (file_name : string)
| thread_start (worker : Worker).

(** The state of a run of the main window: the application, and the calls
    made so far, each with the application state it was made from. *)
Record St := { app : App; log : list (Call * App) }.

Definition M (A : Type) := St -> A * St.

Definition ret {A : Type} (x : A) : M A := fun s => (x, s).
Definition bind {A B : Type} (m : M A) (k : A -> M B) : M B :=
  fun s => let (x, s') := m s in k x s'.
Definition get : M App := fun s => (app s, s).
Definition modify (f : App -> App) : M unit :=
  fun s => (tt, {| app := f (app s); log := log s |}).
Definition call (c : Call) : M unit :=
  fun s => (tt, {| app := app s; log := log s ++ [(c, app s)] |}).

Notation "x <- m ;; k" := (bind m (fun x => k))
  (at level 61, m at next level, right associativity).
Notation "m ;; k" := (bind m (fun _ => k))
  (at level 61, right associativity).

(** [for x in l: ...] with a loop-carried value. *)
Fixpoint for_each {A B : Type} (l : list A) (acc : B) (body : A -> B -> M B) : M B :=
  match l with
  | [] => ret acc
  | x :: l' => acc' <- body x acc ;; for_each l' acc' body
  end.

Definition exec {A : Type} (m : M A) (s : St) : St := snd (m s).

(** [x = m()] in a slot, with nothing to catch what [m] raises: the
    exception ends the slot. *)
Definition or_leave {A : Type} (m : M (Result A)) (k : A -> M unit) : M unit :=
  r <- m ;;
  match r with
  | Ok x => k x
  | Raise _ => ret tt
  end.

Notation "x <-? m ;; k" := (or_leave m (fun x => k))
  (at level 61, m at next level, right associativity).

Definition nl : string := String (ascii_of_nat 10) EmptyString.

Definition join_lines (l : list string) : string := String.concat nl l.

Definition str_opt (o : option string) : string := get_or "None" o.

(* ================================================================== *)
(** ** The main window: operations *)

Section SimpleTutorApp.
Variable w : World.

Definition update_status (message : string) (is_error processing : bool) : M unit :=
  modify (set_is_processing processing) ;;
  call (show_status message is_error processing) ;;
  call (set_controls_enabled (negb processing)).

(** *** Config management *)

(** The [defaults] of [load_config], with the temperature already
    converted ([float(str(0.6))] is [0.6]). *)
Definition defaults (files : FilesEntry) : Config :=
  {| cfg_api_key := Some "";
     cfg_model := Some DEFAULT_MODEL;
     cfg_language := Some DEFAULT_LANGUAGE;
     cfg_temperature := Some DEFAULT_TEMPERATURE;
     cfg_files := Some files |}.

(** The [except] branch of [load_config]. *)
Definition load_config_failed (e : string) : M unit :=
  modify (set_config (defaults (FilesDict []))) ;;
  modify (set_local_file_paths []) ;;
  call (QMessageBox_warning "Config Load Error"
          ("Could not load settings from konenako_simple_config.ini. Using defaults."
           +++ nl +++ "Error: " +++ e)).

(** [config.get(..., fallback=d)] *)
Definition got_or (d : string) (g : Got) : string :=
  match g with
  | Present v => v
  | _ => d
  end.

(** The five reads of the [try] block, in order, up to the first that
    raises: the values, or the text of the exception. *)
Definition read_ini (f : IniFile) : (string * string * string * float * Json) + string :=
  match ini_APIKey f with
  | GetRaises e => inr e
  | api_key =>
    match ini_Model f with
    | GetRaises e => inr e
    | model_name =>
      match ini_Language f with
      | GetRaises e => inr e
      | language =>
        match ini_Temperature f with
        | GetRaises e => inr e
        | temperature =>
          match (match temperature with
                 | Present t => float_parse w t
                 | _ => Some DEFAULT_TEMPERATURE
                 end) with
          | None => inr "could not convert string to float"
          | Some temperature =>
            match ini_LocalPaths f with
            | GetRaises e => inr e
            | files_json =>
              (* [json.loads('{}')] is the empty dict *)
              match (match files_json with
                     | Present j => json_loads w j
                     | _ => Some (JsonPaths [])
                     end) with
              | None => inr "JSONDecodeError"
              | Some registry =>
                inl (got_or "" api_key, got_or DEFAULT_MODEL model_name,
                     got_or DEFAULT_LANGUAGE language, temperature, registry)
              end
            end
          end
        end
      end
    end
  end.

(** How [load_config] ends. *)
Inductive Loaded :=
| LoadedOk                (* it returns; the registry is a dict of paths *)
| LoadedOther             (* it returns with a registry that is not a dict
                             of path strings: the state of the program is
                             then outside this model *)
| LoadRaises (e : Exn).   (* [len(self.local_file_paths)] in the last [print]
                             raises [TypeError], outside the [try] *)

Definition load_config : M Loaded :=
  a <- get ;;
  match disk a with
  | NoFile =>
    modify (set_config (defaults (FilesText "{}"))) ;;
    modify (set_local_file_paths []) ;;
    ret LoadedOk
  | Unreadable e => load_config_failed e ;; ret LoadedOk
  | Ini f =>
    match read_ini f with
    | inr e => load_config_failed e ;; ret LoadedOk
    | inl (api_key, model_name, language, temperature, registry) =>
      modify (fun a => set_config
                {| cfg_api_key := Some api_key;
                   cfg_model := Some model_name;
                   cfg_language := Some language;
                   cfg_temperature := Some temperature;
                   cfg_files := cfg_files (config a) |} a) ;;
      match registry with
      | JsonPaths paths => modify (set_local_file_paths paths) ;; ret LoadedOk
      | JsonSized => ret LoadedOther
      | JsonUnsized type_name =>
        ret (LoadRaises {| exn_class := TypeError;
                           exn_msg := "object of type '" +++ type_name
                                      +++ "' has no len()" |})
      end
    end
  end.

(** What [save_config] hands to [configparser]. *)
Definition values_of (a : App) : IniValues :=
  {| val_APIKey := get_or "" (cfg_api_key (config a));
     val_Model := get_or DEFAULT_MODEL (cfg_model (config a));
     val_Language := get_or DEFAULT_LANGUAGE (cfg_language (config a));
     val_Temperature :=
       float_str w (get_or DEFAULT_TEMPERATURE (cfg_temperature (config a)));
     val_LocalPaths := json_dumps w (local_file_paths a) |}.

(** The first value that [configparser] refuses to take. *)
Definition rejected_value (v : IniValues) : option string :=
  find (fun value => negb (before_set_ok value))
       [val_APIKey v; val_Model v; val_Language v; val_Temperature v; val_LocalPaths v].

Definition refused (a : App) : option string := rejected_value (values_of a).

Definition all_plain (v : IniValues) : bool :=
  forallb plain
    [val_APIKey v; val_Model v; val_Language v; val_Temperature v; val_LocalPaths v].

(** The sections of the file, as the parser holds them after reading the
    lines back: the option names in lower case, the values stripped. *)
Definition settings_section (v : IniValues) : dict string :=
  [("apikey", strip (val_APIKey v)); ("model", strip (val_Model v));
   ("language", strip (val_Language v)); ("temperature", strip (val_Temperature v))].

Definition files_section (v : IniValues) : dict string :=
  [("localpaths", strip (val_LocalPaths v))].

(** [config.get] for an option of a section. *)
Definition got (section : dict string) (option_name : string) : Got :=
  match PyDict.get option_name section with
  | None => Absent
  | Some raw =>
    match interpolate MAX_INTERPOLATION_DEPTH section raw with
    | Some v => Present v
    | None => GetRaises (interpolation_error w option_name raw)
    end
  end.

(** What the file reads as once the values have been written to it. *)
Definition written (v : IniValues) : Disk :=
  if all_plain v then
    Ini {| ini_APIKey := got (settings_section v) "apikey";
           ini_Model := got (settings_section v) "model";
           ini_Language := got (settings_section v) "language";
           ini_Temperature := got (settings_section v) "temperature";
           ini_LocalPaths := got (files_section v) "localpaths" |}
  else reread_other w v.

(** The assignments to [config['Settings']] and [config['Files']] come
    before the [try]: the [ValueError] of a refused value leaves
    [save_config].  (The text of its message is not modelled.) *)
Definition save_config : M (Result bool) :=
  a <- get ;;
  match refused a with
  | Some _ =>
    ret (Raise {| exn_class := ValueError; exn_msg := "invalid interpolation syntax" |})
  | None =>
    match config_write_error w with
    | None =>
      call (write_config (values_of a)) ;;
      modify (set_disk (written (values_of a))) ;;
      ret (Ok true)
    | Some failure =>
      match file_left failure with
      | Some remains => modify (set_disk remains)
      | None => ret tt
      end ;;
      call (QMessageBox_critical "Config Save Error"
              ("Could not write settings to konenako_simple_config.ini."
               +++ nl +++ "Error: " +++ failure_text failure)) ;;
      ret (Ok false)
    end
  end.

(** *** The document selector and the chat session

    Setting the current index of the selector emits [currentTextChanged]
    unless signals are blocked, and the signal is connected to
    [handle_document_selection_change], which can start a session, which
    can set the current text again.  The two functions are therefore
    defined together, on the depth of this nesting. *)

Definition set_combo (f : ComboBox -> ComboBox) : M unit :=
  modify (fun a => set_doc_selector_combo (f (doc_selector_combo a)) a).

Definition blockSignals (b : bool) : M unit :=
  set_combo (fun c => {| items := items c; currentIndex := currentIndex c;
                         signalsBlocked := b |}).

Definition opt_nat_eqb (a b : option nat) : bool :=
  match a, b with
  | Some x, Some y => Nat.eqb x y
  | None, None => true
  | _, _ => false
  end.

(** [QComboBox.setCurrentIndex]: an index out of range clears the
    selection; the signal is emitted only when the index changes. *)
Definition setCurrentIndex (on_changed : string -> M unit) (i : nat) : M unit :=
  a <- get ;;
  let c := doc_selector_combo a in
  let i' := if Nat.ltb i (length (items c)) then Some i else None in
  if opt_nat_eqb i' (currentIndex c) then ret tt
  else
    let c' := {| items := items c; currentIndex := i';
                 signalsBlocked := signalsBlocked c |} in
    set_combo (fun _ => c') ;;
    if signalsBlocked c then ret tt else on_changed (currentText c').

(** [QComboBox.setCurrentText] of a non-editable box. *)
Definition setCurrentText (on_changed : string -> M unit) (t : string) : M unit :=
  a <- get ;;
  match findText t (doc_selector_combo a) with
  | Some i => setCurrentIndex on_changed i
  | None => ret tt
  end.

Definition a_uml : string := String (ascii_of_nat 195) (String (ascii_of_nat 164) EmptyString).
Definition o_uml : string := String (ascii_of_nat 195) (String (ascii_of_nat 182) EmptyString).

Definition _build_system_prompt (a : App) (current_doc_name : string) : string :=
  let language := get_or DEFAULT_LANGUAGE (cfg_language (config a)) in
  "You are 'Konen" +++ a_uml +++ "k" +++ o_uml
    +++ " Tutor', an AI assistant for a Machine Vision course teaching in "
    +++ language +++ "." +++ nl
  +++ "Your goal is to help the student understand the concepts presented ONLY in the provided course document: '"
    +++ current_doc_name +++ "'." +++ nl
  +++ "The document is provided via the File API and you should have access to it." +++ nl +++ nl
  +++ "Based on our chat history and the document content, guide the student:" +++ nl
  +++ "- Explain concepts clearly." +++ nl
  +++ "- Ask relevant questions." +++ nl
  +++ "- Provide exercises when appropriate." +++ nl
  +++ "- Offer constructive feedback." +++ nl
  +++ "- Maintain a supportive, conversational tone." +++ nl
  +++ "- Adapt based on the student's input." +++ nl +++ nl
  +++ "CRITICAL RULES:" +++ nl
  (* this line is not an f-string in the source *)
  +++ "- Base ALL output STRICTLY on the provided document '{current_doc_name}'. If info isn't there, say so." +++ nl
  +++ "- Use citations like '[Page X]' or '[Section Y]' when referencing the document." +++ nl
  +++ "- Decide the conversational next step (explain, ask, exercise, etc.)." +++ nl
  +++ "- Wait for the student's input after asking a question or giving an exercise.".

Definition start_thread (wk : Worker) : M unit :=
  modify (set_worker (Some wk)) ;;
  call (thread_start wk).

Definition _start_ai_chat_turn (message_for_ai : string) (is_initial_turn : bool) : M unit :=
  a <- get ;;
  match current_chat_session a with
  | None => ret tt
  | Some session =>
    if negb (is_ai_configured a) then ret tt
    else
      update_status "AI is thinking..." false true ;;
      let doc_ref :=
        match selected_doc_basename a with
        | Some b => PyDict.get b (uploaded_files a)
        | None => None
        end in
      start_thread (ChatWorker {| chat_session := Some session;
                                  user_message_text := message_for_ai;
                                  doc_ref := doc_ref |})
  end.

(** The first message of a session: the system prompt and a request for
    an introduction. *)
Definition initial_message_to_ai (system_prompt selected : string) : string :=
  system_prompt +++ nl +++ nl
  +++ "Let's begin. Please provide a brief introduction to the document '"
  +++ selected +++ "' or suggest a starting point for discussion.".

(** The part of [_try_start_chat_session] below "Start New Chat". *)
Definition start_new_chat (gm : GenerativeModel) (selected : string) : M unit :=
  update_status ("Initializing chat for " +++ selected +++ "...") false true ;;
  a <- get ;;
  let system_prompt := _build_system_prompt a selected in
  call call_start_chat ;;
  match model_start_chat w gm with
  | Ok _ =>
    modify (fun a => set_sessions_created (S (sessions_created a))
                       (set_current_chat_session (Some (sessions_created a)) a)) ;;
    _start_ai_chat_turn (initial_message_to_ai system_prompt selected) true
  | Raise e =>
    let msg := "Failed to start chat session: " +++ exn_msg e in
    call (QMessageBox_critical "Chat Error" msg) ;;
    update_status "Error starting chat." true false ;;
    modify (set_current_chat_session None)
  end.

(** [handle_document_selection_change]; [try_start] is
    [_try_start_chat_session] and [on_changed] the slot connected to the
    selector's signal, which is this function itself. *)
Definition selection_change (try_start : M unit) (on_changed : string -> M unit)
    (selected_basename : string) : M unit :=
  a <- get ;;
  if is_processing a || negb (truthy (Some selected_basename))
     || opt_str_eqb (Some selected_basename) (selected_doc_basename a)
  then ret tt
  else if negb (PyDict.mem selected_basename (uploaded_files a)) then
    call (QMessageBox_warning "File Not Uploaded"
            ("'" +++ selected_basename
             +++ "' has not been successfully uploaded to the AI. Please use 'Upload to AI' in Settings.")) ;;
    blockSignals true ;;
    a <- get ;;
    let index := findText (get_or "" (selected_doc_basename a)) (doc_selector_combo a) in
    setCurrentIndex on_changed (get_or 0 index) ;;
    blockSignals false
  else
    modify (set_selected_doc_basename (Some selected_basename)) ;;
    modify (set_current_chat_session None) ;;
    modify (set_current_chat_history []) ;;
    call chat_clear_chat ;;
    update_status ("Starting chat for document: " +++ selected_basename +++ "...")
                  false false ;;
    try_start.

(** [_try_start_chat_session] *)
Definition try_start_chat_session (on_changed : string -> M unit) : M unit :=
  a <- get ;;
  match is_ai_configured a, model a with
  | true, Some gm =>
    if negb (truthy (selected_doc_basename a)) then
      match PyDict.keys (uploaded_files a) with
      | first :: _ => setCurrentText on_changed first
      | [] => update_status "Select a document (or add/upload files)." false false
      end
    else
      let selected := str_opt (selected_doc_basename a) in
      if negb (PyDict.mem selected (uploaded_files a)) then
        update_status ("Error: '" +++ selected +++ "' not uploaded.") true false
      else match current_chat_session a with
      | Some _ => update_status ("Chatting about: " +++ selected) false false
      | None => start_new_chat gm selected
      end
  | _, _ => ret tt
  end.

Fixpoint handle_document_selection_change_ (depth : nat) (selected_basename : string)
    : M unit :=
  match depth with
  | O => ret tt
  | S depth' =>
    selection_change (_try_start_chat_session_ depth')
                     (handle_document_selection_change_ depth') selected_basename
  end
with _try_start_chat_session_ (depth : nat) : M unit :=
  match depth with
  | O => ret tt
  | S depth' => try_start_chat_session (handle_document_selection_change_ depth')
  end.

(** Three levels cover every nesting ([selection_depth_enough]). *)
Definition handle_document_selection_change : string -> M unit :=
  handle_document_selection_change_ 3.
Definition _try_start_chat_session : M unit := _try_start_chat_session_ 3.

(** [ChatWidget.update_document_list] *)
Definition update_document_list (doc_basenames : list string) : M unit :=
  a <- get ;;
  let current_selection := currentText (doc_selector_combo a) in
  blockSignals true ;;
  (* [clear()] then [addItems(...)], with signals blocked *)
  set_combo (fun c => {| items := doc_basenames;
                         currentIndex := match doc_basenames with
                                         | [] => None
                                         | _ :: _ => Some 0
                                         end;
                         signalsBlocked := signalsBlocked c |}) ;;
  a <- get ;;
  match findText current_selection (doc_selector_combo a) with
  | Some index => setCurrentIndex handle_document_selection_change index
  | None =>
    match doc_basenames with
    | _ :: _ => setCurrentIndex handle_document_selection_change 0
    | [] => ret tt
    end
  end ;;
  blockSignals false.

Definition _update_ui_state : M unit :=
  a <- get ;;
  call (settings_update_file_list (PyDict.keys (local_file_paths a))) ;;
  let uploaded_basenames := PyDict.keys (uploaded_files a) in
  update_document_list uploaded_basenames ;;
  let can_upload :=
    negb (Nat.eqb (length (local_file_paths a)) 0) && is_ai_configured a in
  call (upload_button_setEnabled can_upload) ;;
  a <- get ;;
  if truthy (selected_doc_basename a)
     && str_in (str_opt (selected_doc_basename a)) uploaded_basenames then
    if negb (currentText (doc_selector_combo a) =? str_opt (selected_doc_basename a))
    then setCurrentText handle_document_selection_change
                        (str_opt (selected_doc_basename a))
    else ret tt
  else match uploaded_basenames with
  | _ :: _ =>
    match currentIndex (doc_selector_combo a) with
    | None => setCurrentIndex handle_document_selection_change 0
    | Some _ => ret tt
    end
  | [] => ret tt
  end.

(** *** AI initialization *)

(** The three [except] clauses of [initialize_ai], then its [finally]. *)
Definition initialize_ai_failed (model_name : string) (e : Exn) : M bool :=
  let error_msg :=
    match exn_class e with
    | PermissionDenied | Unauthenticated =>
      "Authentication Error: " +++ exn_msg e +++ ". Check API Key/Project."
    | NotFound => "Model '" +++ model_name +++ "' not found."
    | _ => "AI configuration failed: " +++ exn_msg e
    end in
  call (QMessageBox_critical "AI Config Error" error_msg) ;;
  update_status error_msg true false ;;
  a <- get ;;
  (if negb (is_ai_configured a) then
     modify (set_model None) ;; modify (set_current_chat_session None)
   else ret tt) ;;
  ret false.

Definition initialize_ai : M bool :=
  if negb (gemini_imported w) then
    update_status "Google AI library not installed." true false ;; ret false
  else
    a <- get ;;
    let api_key := cfg_api_key (config a) in
    let model_name := cfg_model (config a) in
    if negb (truthy api_key) || negb (truthy model_name) then
      update_status "API Key or Model Name missing in settings." true false ;; ret false
    else
      let api_key := str_opt api_key in
      let model_name := str_opt model_name in
      update_status "Configuring AI..." false true ;;
      modify (set_is_ai_configured false) ;;
      modify (set_model None) ;;
      modify (set_current_chat_session None) ;;
      call (call_configure api_key) ;;
      match genai_configure w api_key with
      | Raise e => initialize_ai_failed model_name e
      | Ok _ =>
        let temperature := get_or DEFAULT_TEMPERATURE (cfg_temperature (config a)) in
        call (call_GenerativeModel model_name temperature) ;;
        match GenerativeModel_init w model_name temperature with
        | Raise e => initialize_ai_failed model_name e
        | Ok _ =>
          modify (set_model (Some {| model_name := model_name;
                                     generation_temperature := temperature |})) ;;
          modify (set_is_ai_configured true) ;;
          update_status ("AI Configured: '" +++ model_name +++ "'. Ready.") false false ;;
          _try_start_chat_session ;;
          ret true
        end
      end.

Definition apply_and_save_settings (settings : Config) : M unit :=
  a <- get ;;
  if is_processing a then
    call (QMessageBox_warning "Busy" "Cannot change settings while a task is running.")
  else
    let old_api_key := cfg_api_key (config a) in
    let old_model := cfg_model (config a) in
    modify (set_config (config_update (config a) settings)) ;;
    saved <-? save_config ;;
    if saved then
      update_status "Settings saved." false false ;;
      if negb (opt_str_eqb (cfg_api_key settings) old_api_key)
         || negb (opt_str_eqb (cfg_model settings) old_model) then
        update_status "API Key or Model changed, re-initializing AI..." false false ;;
        _ <- initialize_ai ;; ret tt
      else ret tt
    else update_status "Failed to save settings." true false.

(** *** File management *)

(** The body of the loop of [add_files]. *)
Definition add_file (path : string) (added : nat) : M nat :=
  if negb (os_path_exists w path) then
    call (QMessageBox_warning "File Not Found" ("Skipping missing file: " +++ path)) ;;
    ret added
  else
    let basename := os_path_basename w path in
    a <- get ;;
    if negb (PyDict.mem basename (local_file_paths a)) then
      modify (fun a => set_local_file_paths
                         (PyDict.set basename path (local_file_paths a)) a) ;;
      ret (S added)
    else
      call (QMessageBox_warning "Duplicate File"
              ("'" +++ basename +++ "' is already in the list.")) ;;
      ret added.

Definition add_files (paths : list string) : M unit :=
  a <- get ;;
  if is_processing a then call (QMessageBox_warning "Busy" "Cannot add files now.")
  else
    added <- for_each paths 0 add_file ;;
    if Nat.ltb 0 added then
      _ <-? save_config ;;
      _update_ui_state ;;
      update_status ("Added " +++ str_nat added +++ " files. Please 'Upload to AI'.")
                    false false
    else ret tt.

Definition _attempt_backend_deletion (file_api_objects : list File) : M unit :=
  match file_api_objects with
  | [] => ret tt
  | _ :: _ =>
    a <- get ;;
    if negb (is_ai_configured a) then ret tt
    else
      counts <- for_each file_api_objects (0, 0) (fun file_obj counts =>
        call (call_delete_file (name file_obj)) ;;
        match genai_delete_file w (name file_obj) with
        | Ok _ => ret (S (fst counts), snd counts)
        | Raise _ => ret (fst counts, S (snd counts))
        end) ;;
      let failed_count := snd counts in
      if Nat.ltb 0 failed_count then
        call (QMessageBox_warning "Backend Deletion Issue"
                ("Failed to delete " +++ str_nat failed_count
                 +++ " file(s) from the AI backend. They might need manual cleanup."))
      else ret tt
  end.

(** The body of the loop of [remove_files]; [r] is [removed_count] and
    [files_to_delete_backend]. *)
Definition remove_file (basename : string) (r : nat * list File) : M (nat * list File) :=
  a <- get ;;
  if PyDict.mem basename (local_file_paths a) then
    modify (fun a => set_local_file_paths (PyDict.del basename (local_file_paths a)) a) ;;
    match PyDict.get basename (uploaded_files a) with
    | Some file_obj =>
      modify (fun a => set_uploaded_files (PyDict.del basename (uploaded_files a)) a) ;;
      ret (S (fst r), snd r ++ [file_obj])
    | None => ret (S (fst r), snd r)
    end
  else ret r.

(** The part of [remove_files] under [if removed_count > 0]. *)
Definition files_removed (basenames_to_remove : list string) (removed_count : nat)
    (files_to_delete_backend : list File) : M unit :=
  a <- get ;;
  (match selected_doc_basename a with
   | Some selected =>
     if str_in selected basenames_to_remove then
       modify (set_selected_doc_basename None) ;;
       modify (set_current_chat_session None) ;;
       modify (set_current_chat_history []) ;;
       call chat_clear_chat
     else ret tt
   | None => ret tt
   end) ;;
  _ <-? save_config ;;
  _attempt_backend_deletion files_to_delete_backend ;;
  _update_ui_state ;;
  update_status ("Removed " +++ str_nat removed_count +++ " files.") false false ;;
  a <- get ;;
  match local_file_paths a, uploaded_files a with
  | [], _ => update_status "No local files loaded." false false
  | _, [] => update_status "No files uploaded to AI. Please Upload." false false
  | _, _ => ret tt
  end.

Definition remove_files (basenames_to_remove : list string) : M unit :=
  a <- get ;;
  if is_processing a then call (QMessageBox_warning "Busy" "Cannot remove files now.")
  else
    r <- for_each basenames_to_remove (0, []) remove_file ;;
    let removed_count := fst r in
    let files_to_delete_backend := snd r in
    if Nat.ltb 0 removed_count then
      files_removed basenames_to_remove removed_count files_to_delete_backend
    else ret tt.

Definition clear_all_files : M unit :=
  a <- get ;;
  if is_processing a then call (QMessageBox_warning "Busy" "Cannot clear files now.")
  else match local_file_paths a with
  | [] => ret tt
  | _ :: _ =>
    let files_to_delete_backend := PyDict.values (uploaded_files a) in
    modify (set_local_file_paths []) ;;
    modify (set_uploaded_files []) ;;
    modify (set_selected_doc_basename None) ;;
    modify (set_current_chat_session None) ;;
    modify (set_current_chat_history []) ;;
    call chat_clear_chat ;;
    _ <-? save_config ;;
    _attempt_backend_deletion files_to_delete_backend ;;
    _update_ui_state ;;
    update_status "Cleared all files." false false
  end.

(** *** File upload *)

Definition upload_files_to_ai : M unit :=
  a <- get ;;
  if is_processing a then call (QMessageBox_warning "Busy" "Already processing.")
  else if negb (is_ai_configured a) then
    call (QMessageBox_critical "Error" "AI not configured.")
  else match local_file_paths a with
  | [] => call (QMessageBox_information "No Files" "Add files to the list first.")
  | _ :: _ =>
    let files_to_upload_basenames :=
      set_order w (PyDict.keys_minus (local_file_paths a) (uploaded_files a)) in
    let paths_to_upload :=
      flat_map (fun b => match PyDict.get b (local_file_paths a) with
                         | Some p => [p]
                         | None => []
                         end) files_to_upload_basenames in
    match paths_to_upload with
    | [] => call (QMessageBox_information "Up-to-date"
                    "All local files appear to be already uploaded.")
    | _ :: _ =>
      match filter (fun p => negb (os_path_exists w p)) paths_to_upload with
      | (_ :: _) as missing_files =>
        call (QMessageBox_critical "File Not Found"
                ("Cannot upload. Missing:" +++ nl +++ join_lines missing_files))
      | [] =>
        update_status ("Starting upload for " +++ str_nat (length paths_to_upload)
                       +++ " file(s)...") false true ;;
        start_thread (UploadWorker {| file_paths := paths_to_upload;
                                      basenames := files_to_upload_basenames |})
      end
    end
  end.

Definition _handle_upload_finished (uploaded_file_objects : list File) : M unit :=
  newly_uploaded_count <- for_each uploaded_file_objects 0 (fun file_obj count =>
    let basename := display_name file_obj in
    a <- get ;;
    if truthy (Some basename) && PyDict.mem basename (local_file_paths a) then
      modify (fun a => set_uploaded_files
                         (PyDict.set basename file_obj (uploaded_files a)) a) ;;
      ret (S count)
    else
      _attempt_backend_deletion [file_obj] ;;
      ret count) ;;
  a <- get ;;
  let total_uploaded := length (uploaded_files a) in
  let total_local := length (local_file_paths a) in
  (if Nat.ltb 0 newly_uploaded_count then
     update_status ("Uploaded " +++ str_nat newly_uploaded_count
                    +++ " file(s). Total active: " +++ str_nat total_uploaded
                    +++ "/" +++ str_nat total_local +++ ".") false false
   else if Nat.eqb total_uploaded total_local && Nat.ltb 0 total_local then
     update_status ("All " +++ str_nat total_local +++ " files are active on backend.")
                   false false
   else
     update_status ("Upload finished, but issues occurred. Active: "
                    +++ str_nat total_uploaded +++ "/" +++ str_nat total_local +++ ".")
                   true false) ;;
  _update_ui_state ;;
  _try_start_chat_session.

Definition _handle_upload_error (error_message : string) : M unit :=
  call (QMessageBox_critical "Upload Error" error_message) ;;
  update_status ("Upload failed: " +++ split_colon_head error_message) true false.

(** *** Chat logic *)

Definition handle_user_message (user_text : string) : M unit :=
  a <- get ;;
  if is_processing a then
    call (QMessageBox_warning "Busy" "Please wait for the AI's response.")
  else match current_chat_session a with
  | None =>
    call (QMessageBox_warning "No Chat Active"
            "Please select an uploaded document to start chatting.")
  | Some _ =>
    call (chat_add_message ROLE_USER user_text) ;;
    modify (fun a => set_current_chat_history
                       (current_chat_history a
                        ++ [{| role := ROLE_USER; parts := [user_text] |}]) a) ;;
    _start_ai_chat_turn user_text false
  end.

Definition _handle_ai_result (ai_response_text : string) : M unit :=
  call (chat_add_message ROLE_AI ai_response_text) ;;
  modify (fun a => set_current_chat_history
                     (current_chat_history a
                      ++ [{| role := ROLE_AI; parts := [ai_response_text] |}]) a) ;;
  a <- get ;;
  update_status ("Chatting about: " +++ str_opt (selected_doc_basename a)) false false.

Definition _handle_ai_error (error_message : string) : M unit :=
  call (chat_add_message ROLE_SYSTEM ("Error: " +++ error_message)) ;;
  update_status ("AI Error: " +++ split_colon_head error_message) true false.

(** *** Thread finish *)

Definition _on_thread_finished : M unit :=
  a <- get ;;
  (match worker a with
   | Some (ChatWorker _) =>
     if negb (is_processing a) then call (set_controls_enabled true) else ret tt
   | Some (UploadWorker _) => ret tt
   | None => call (set_controls_enabled true)
   end) ;;
  modify (set_worker None).

(** *** Signals of a worker, as connected when its thread is started

    [finished], [result_ready] and [error_occurred] are also connected to
    [thread.quit], after which [_on_thread_finished] runs. *)
Definition deliver (wk : Worker) (s : Signal) : M unit :=
  match wk, s with
  | UploadWorker _, progress_update msg => update_status msg false true
  | UploadWorker _, finished refs => _handle_upload_finished refs ;; _on_thread_finished
  | UploadWorker _, error_occurred msg => _handle_upload_error msg ;; _on_thread_finished
  | ChatWorker _, result_ready response_text =>
    _handle_ai_result response_text ;; _on_thread_finished
  | ChatWorker _, error_occurred msg => _handle_ai_error msg ;; _on_thread_finished
  | _, _ => ret tt
  end.

(** The worker last started runs to its end, never stopped, and the main
    window handles its signals in the order they were emitted. *)
Definition worker_runs : M unit :=
  a <- get ;;
  match worker a with
  | None => ret tt
  | Some wk =>
    let emitted :=
      match wk with
      | ChatWorker cw => signals (AIChatWorker_run w None cw)
      | UploadWorker uw => signals (get_or [] (PDFUploadWorker_run w None uw))
      end in
    for_each emitted tt (fun s _ => deliver wk s)
  end.

(** The reply of the model reaches the main window: [result_ready] of the
    worker in flight. *)
Definition reply_arrives (response_text : string) : M unit :=
  a <- get ;;
  match worker a with
  | Some wk => deliver wk (result_ready response_text)
  | None => ret tt
  end.

(** [SimpleTutorApp.__init__], as far as the lifecycle state goes. *)
Definition init_app (d : Disk) : App :=
  {| config := {| cfg_api_key := None; cfg_model := None; cfg_language := None;
                  cfg_temperature := None; cfg_files := None |};
     local_file_paths := [];
     uploaded_files := [];
     model := None;
     current_chat_session := None;
     current_chat_history := [];
     selected_doc_basename := None;
     is_ai_configured := false;
     is_processing := false;
     worker := None;
     doc_selector_combo := {| items := []; currentIndex := None; signalsBlocked := false |};
     disk := d;
     sessions_created := 0 |}.

(** The end of [__init__]; the single-shot timer has fired.  When
    [load_config] raises, so does [__init__], and there is no main window;
    when it leaves a registry that is not a dict of paths, the model stops. *)
Definition startup : M unit :=
  loaded <- load_config ;;
  match loaded with
  | LoadedOk =>
    _update_ui_state ;;
    _update_ui_state ;;                 (* [show_chat_view] *)
    a <- get ;;
    if truthy (cfg_api_key (config a)) then _ <- initialize_ai ;; ret tt
    else update_status "AI not configured. Please add API Key in Settings." true false
  | LoadedOther | LoadRaises _ => ret tt
  end.

(** *** The commands of the presentation boundary that change the file maps,
    and the completion of an upload *)
Inductive Operation :=
| op_add_files (paths : list string)
| op_remove_files (names : list string)
| op_clear_all_files
| op_upload_finished (references : list File).

Definition perform (op : Operation) : M unit :=
  match op with
  | op_add_files paths => add_files paths
  | op_remove_files names => remove_files names
  | op_clear_all_files => clear_all_files
  | op_upload_finished refs => _handle_upload_finished refs
  end.
End SimpleTutorApp.

Arguments values_of : simpl never.
Arguments refused : simpl never.
Arguments written : simpl never.

(** The states after each operation of a sequence, each operation in a world
    of its own. *)
Fixpoint run_operations (ops : list (World * Operation)) (s : St) : list St :=
  match ops with
  | [] => []
  | (w, op) :: ops' =>
    let s' := exec (perform w op) s in
    s' :: run_operations ops' s'
  end.

(** [uploaded_files.keys() <= local_file_paths.keys()] *)
Definition files_consistent (a : App) : Prop :=
  forall k, PyDict.mem k (uploaded_files a) = true ->
            PyDict.mem k (local_file_paths a) = true.

Definition start (a : App) : St := {| app := a; log := [] |}.

Definition is_delete_call (c : Call) : bool :=
  match c with call_delete_file _ => true | _ => false end.

Definition is_thread_start (c : Call) : bool :=
  match c with thread_start _ => true | _ => false end.

Definition is_write_config (c : Call) : bool :=
  match c with write_config _ => true | _ => false end.

Definition is_ui_refresh (c : Call) : bool :=
  match c with settings_update_file_list _ => true | _ => false end.

Definition calls (s : St) : list Call := map fst (log s).

(* ================================================================== *)
(** ** A concrete world, for running the model *)

(** [posixpath.basename]: the text after the last slash. *)
Fixpoint after_last_slash (s : string) : option string :=
  match s with
  | EmptyString => None
  | String c s' =>
    match after_last_slash s' with
    | Some r => Some r
    | None => if Ascii.eqb c "/" then Some s' else None
    end
  end.

Definition posix_basename (p : string) : string := get_or p (after_last_slash p).

(** Stand-ins for [str]/[float] and [json]: a float is written as its
    mantissa and exponent; a dict of strings is written as [json.dumps]
    writes it when no character needs escaping, [{"k": "v", "k2": "v2"}],
    and only such texts are read back as a dict. *)
Definition str_Z (z : Z) : string := NilZero.string_of_int (Z.to_int z).
Definition parse_Z (s : string) : option Z := option_map Z.of_int (NilZero.int_of_string s).

Fixpoint split_at (sep : ascii) (s : string) : option (string * string) :=
  match s with
  | EmptyString => None
  | String c s' =>
    if Ascii.eqb c sep then Some (EmptyString, s')
    else match split_at sep s' with
         | Some (l, r) => Some (String c l, r)
         | None => None
         end
  end.

Definition lab_float_str (f : float) : string :=
  str_Z (mantissa f) +++ "p" +++ str_Z (exponent f).

Definition lab_float_parse (s : string) : option float :=
  match split_at "p" s with
  | Some (m, e) =>
    match parse_Z m, parse_Z e with
    | Some m, Some e => Some {| mantissa := m; exponent := e |}
    | _, _ => None
    end
  | None => None
  end.

Definition newline : ascii := ascii_of_nat 10.
Definition quote_char : ascii := ascii_of_nat 34.
Definition quoted (s : string) : string :=
  String quote_char (s +++ String quote_char EmptyString).

Definition lab_json_dumps (d : dict string) : string :=
  "{" +++ String.concat ", " (map (fun kv => quoted (fst kv) +++ ": " +++ quoted (snd kv)) d)
  +++ "}".

(** [s] without the prefix [p]. *)
Fixpoint after_prefix (p s : string) : option string :=
  match p, s with
  | EmptyString, _ => Some s
  | String a p', String b s' => if Ascii.eqb a b then after_prefix p' s' else None
  | String _ _, EmptyString => None
  end.

(** A quoted text and what follows it. *)
Definition lab_json_string (s : string) : option (string * string) :=
  match s with
  | String c s' => if Ascii.eqb c quote_char then split_at quote_char s' else None
  | EmptyString => None
  end.

(** The entries of an object, after the opening brace or a comma. *)
Fixpoint lab_json_entries (n : nat) (s : string) : option (dict string) :=
  match n with
  | O => None
  | S n' =>
    match lab_json_string s with
    | None => None
    | Some (k, rest) =>
      match after_prefix ": " rest with
      | None => None
      | Some rest =>
        match lab_json_string rest with
        | None => None
        | Some (v, rest) =>
          if rest =? "}" then Some [(k, v)]
          else match after_prefix ", " rest with
               | None => None
               | Some rest => option_map (cons (k, v)) (lab_json_entries n' rest)
               end
        end
      end
    end
  end.

Definition lab_json_loads (s : string) : option Json :=
  if s =? "{}" then Some (JsonPaths [])
  else if s =? "null" then Some (JsonUnsized "NoneType")
  else if s =? "[]" then Some JsonSized
  else match after_prefix "{" s with
       | Some rest => option_map JsonPaths (lab_json_entries (String.length s) rest)
       | None => None
       end.

Definition lab_paths : list string :=
  ["/docs/L1.pdf"; "/docs/A.pdf"; "/docs/B.pdf"; "/docs/C.pdf"; "/old/L1.pdf"].

(** Every file is accepted; [B.pdf] stays in [PROCESSING] for ever, every
    other file is [ACTIVE] at the first poll.  Calls take no extra time. *)
Definition lab_file (display state : string) : File :=
  {| name := "files/" +++ display; display_name := display;
     state_name := state; uri := "https://files.example/" +++ display |}.

Definition lab : World :=
  {| gemini_imported := true;
     os_path_exists := fun p => str_in p lab_paths;
     os_path_basename := posix_basename;
     mimetypes_guess_type := fun _ => Some "application/pdf";
     float_str := lab_float_str;
     float_parse := lab_float_parse;
     json_dumps := lab_json_dumps;
     json_loads := lab_json_loads;
     config_write_error := None;
     interpolation_error := fun option_name raw =>
       "Bad value substitution: option '" +++ option_name +++ "'";
     reread_other := fun _ => Unreadable "File contains parsing errors";
     set_order := fun l => l;
     genai_configure := fun _ => Ok tt;
     GenerativeModel_init := fun _ _ => Ok tt;
     model_start_chat := fun _ => Ok tt;
     genai_upload_file := fun _ display _ => Ok (lab_file display "PROCESSING");
     genai_get_file := fun file_name _ =>
       let display := substring 6 (String.length file_name - 6) file_name in
       if display =? "B.pdf" then Ok (lab_file display "PROCESSING")
       else Ok (lab_file display "ACTIVE");
     genai_delete_file := fun _ => Ok tt;
     chat_send_message := fun _ content =>
       Ok {| text := Ok ("Reply to: " +++ String.concat " " content) |};
     latency := fun _ => 0%N |}.

(** The same world, except that the backend refuses every deletion. *)
Definition lab_no_delete : World :=
  {| gemini_imported := gemini_imported lab;
     os_path_exists := os_path_exists lab;
     os_path_basename := os_path_basename lab;
     mimetypes_guess_type := mimetypes_guess_type lab;
     float_str := float_str lab;
     float_parse := float_parse lab;
     json_dumps := json_dumps lab;
     json_loads := json_loads lab;
     config_write_error := config_write_error lab;
     interpolation_error := interpolation_error lab;
     reread_other := reread_other lab;
     set_order := set_order lab;
     genai_configure := genai_configure lab;
     GenerativeModel_init := GenerativeModel_init lab;
     model_start_chat := model_start_chat lab;
     genai_upload_file := genai_upload_file lab;
     genai_get_file := genai_get_file lab;
     genai_delete_file := fun _ =>
       Raise {| exn_class := PermissionDenied; exn_msg := "403 permission denied" |};
     chat_send_message := chat_send_message lab;
     latency := latency lab |}.

(** A saved configuration with a key and a model, nothing else. *)
Definition lab_disk : Disk :=
  Ini {| ini_APIKey := Present "key-1"; ini_Model := Present "gemini-1.5-flash-latest";
         ini_Language := Absent; ini_Temperature := Absent; ini_LocalPaths := Absent |}.

(** The main window after start-up in [lab]: configured, no files. *)
Definition lab_ready : St := exec (startup lab) (start (init_app lab_disk)).

(** The scenario of the specification, run in [lab]: a file is added,
    uploaded, selected; the introductory turn is answered; the user asks a
    question and it is answered. *)
Definition lab_added : St := exec (add_files lab ["/docs/L1.pdf"]) lab_ready.
Definition lab_uploading : St := exec (upload_files_to_ai lab) lab_added.
Definition lab_uploaded : St := exec (worker_runs lab) lab_uploading.
Definition lab_starting : St :=
  exec (handle_document_selection_change lab "L1.pdf") lab_uploaded.
Definition lab_chatting : St := exec (worker_runs lab) lab_starting.
Definition lab_asking : St :=
  exec (handle_user_message "What is edge detection?") lab_chatting.
Definition lab_answered : St := exec (worker_runs lab) lab_asking.

(** The outcome of the chat scenario from a state [s]: document [b] is
    selected, the introductory turn is answered with [reply1], the user
    sends [user_text], and the answer [reply2] arrives. *)
Definition chat_scenario_outcome (w : World) (b reply1 user_text reply2 : string)
    (s : St) : Prop :=
  let session := sessions_created (app s) in
  let doc := PyDict.get b (uploaded_files (app s)) in
  let s1 := exec (handle_document_selection_change w b) s in
  let s2 := exec (reply_arrives w reply1) s1 in
  let s3 := exec (handle_user_message user_text) s2 in
  let s4 := exec (reply_arrives w reply2) s3 in
  (* the session starts and the introductory turn is sent *)
  (current_chat_session (app s1) = Some session
   /\ selected_doc_basename (app s1) = Some b
   /\ current_chat_history (app s1) = []
   /\ is_processing (app s1) = true
   /\ worker (app s1)
      = Some (ChatWorker
                {| chat_session := Some session;
                   user_message_text :=
                     initial_message_to_ai (_build_system_prompt (app s) b) b;
                   doc_ref := doc |}))
  (* its answer is the only entry of the history *)
  /\ (current_chat_history (app s2) = [{| role := ROLE_AI; parts := [reply1] |}]
      /\ is_processing (app s2) = false)
  (* the user's message is recorded and sent *)
  /\ (current_chat_history (app s3)
      = [{| role := ROLE_AI; parts := [reply1] |};
         {| role := ROLE_USER; parts := [user_text] |}]
      /\ is_processing (app s3) = true
      /\ worker (app s3)
         = Some (ChatWorker {| chat_session := Some session;
                               user_message_text := user_text;
                               doc_ref := doc |}))
  (* the answer arrives: three entries, idle, same session *)
  /\ (current_chat_history (app s4)
      = [{| role := ROLE_AI; parts := [reply1] |};
         {| role := ROLE_USER; parts := [user_text] |};
         {| role := ROLE_AI; parts := [reply2] |}]
      /\ is_processing (app s4) = false
      /\ current_chat_session (app s4) = Some session
      /\ selected_doc_basename (app s4) = Some b).

(** The scenario as the specification counts it: two entries after the
    introductory turn, four after the user's first turn, then idle. *)
Definition spec_scenario_lengths (after_intro after_answer : St) : Prop :=
  length (current_chat_history (app after_intro)) = 2
  /\ length (current_chat_history (app after_answer)) = 4
  /\ is_processing (app after_answer) = false.

(** The settings widget applied with the model field cleared. *)
Definition lab_model_cleared : St :=
  exec (apply_and_save_settings lab
          {| cfg_api_key := Some "key-1"; cfg_model := Some "";
             cfg_language := Some "Finnish";
             cfg_temperature := Some DEFAULT_TEMPERATURE;
             cfg_files := None |})
       lab_ready.

(** The reading of the round trip in the specification for the model
    field: a model that is empty or omitted comes back as the default. *)
Definition spec_empty_model_defaulted (w : World) (s : St) : Prop :=
  truthy (cfg_model (config (app s))) = false ->
  cfg_model (config (app (exec (save_config w ;; load_config w) s))) = Some DEFAULT_MODEL.

(** A text that the file gives back as it is: printable ASCII characters,
    no [%], no blank at either end. *)
Definition clean (s : string) : bool :=
  plain s && negb (has_percent s) && (strip s =? s).

Definition all_clean (v : IniValues) : bool :=
  forallb clean
    [val_APIKey v; val_Model v; val_Language v; val_Temperature v; val_LocalPaths v].

(** The state [s] with the model name [m] in its settings. *)
Definition with_model (m : string) (s : St) : St :=
  {| app := set_config
              {| cfg_api_key := cfg_api_key (config (app s));
                 cfg_model := Some m;
                 cfg_language := cfg_language (config (app s));
                 cfg_temperature := cfg_temperature (config (app s));
                 cfg_files := cfg_files (config (app s)) |} (app s);
     log := log s |}.

(** The model name after [save_config] and [load_config]; [None] when
    [save_config] raises. *)
Definition saved_and_loaded (w : World) (s : St) : option (option string) :=
  match fst (save_config w s) with
  | Ok _ => Some (cfg_model (config (app (exec (save_config w ;; load_config w) s))))
  | Raise _ => None
  end.

(** Some call satisfying [f] has been made. *)
Definition called (f : Call -> bool) (s : St) : Prop := existsb f (calls s) = true.

(** The map of uploaded files is [u]. *)
Definition uploaded_is (u : dict File) (s : St) : Prop := uploaded_files (app s) = u.

(** All of the application state except the two file maps. *)
Definition but_files (a : App) : App := set_local_file_paths [] (set_uploaded_files [] a).

(** The local file map is [l]. *)
Definition local_is (l : dict string) (s : St) : Prop := local_file_paths (app s) = l.

(** The local file map after the loop of [add_files]. *)
Fixpoint added_paths (w : World) (paths : list string) (local : dict string)
    : dict string :=
  match paths with
  | [] => local
  | path :: rest =>
    if os_path_exists w path && negb (PyDict.mem (os_path_basename w path) local)
    then added_paths w rest (PyDict.set (os_path_basename w path) path local)
    else added_paths w rest local
  end.

(** No document selected, no session, empty history. *)
Definition chat_reset (a : App) : Prop :=
  selected_doc_basename a = None
  /\ current_chat_session a = None
  /\ current_chat_history a = [].

(** Every call to [genai.delete_file] in the log was made from a state in
    which the chat was already reset. *)
Definition deletes_after_reset (s : St) : Prop :=
  Forall (fun e => is_delete_call (fst e) = true -> chat_reset (snd e)) (log s).

Definition reset_state (s : St) : Prop := chat_reset (app s) /\ deletes_after_reset s.

(** Sessions are numbered in the order of their creation: no session, or
    one created when [n0] sessions had been created already. *)
Definition session_fresh (n0 : nat) (s : St) : Prop :=
  n0 <= sessions_created (app s)
  /\ forall n, current_chat_session (app s) = Some n -> n0 <= n.

(** The call [c] was made, from a state satisfying [Q]. *)
Definition logged (c : Call) (Q : App -> Prop) (s : St) : Prop :=
  exists a, In (c, a) (log s) /\ Q a.

(** The settings widget applied with the API key cleared. *)
Definition lab_key_cleared : Config :=
  {| cfg_api_key := Some ""; cfg_model := Some "gemini-1.5-flash-latest";
     cfg_language := Some "Finnish";
     cfg_temperature := Some DEFAULT_TEMPERATURE;
     cfg_files := None |}.

(** The settings widget applied with another API key. *)
Definition lab_key_changed : Config :=
  {| cfg_api_key := Some "key-2"; cfg_model := Some "gemini-1.5-flash-latest";
     cfg_language := Some "Finnish";
     cfg_temperature := Some DEFAULT_TEMPERATURE;
     cfg_files := None |}.

(** The reading of the settings rule in the specification: applying, while
    idle, settings whose key or model differs from the current ones leaves
    no session. *)
Definition spec_settings_change_invalidates (w : World) (settings : Config) (s : St)
    : Prop :=
  is_processing (app s) = false ->
  opt_str_eqb (cfg_api_key settings) (cfg_api_key (config (app s))) = false
  \/ opt_str_eqb (cfg_model settings) (cfg_model (config (app s))) = false ->
  current_chat_session (app (exec (apply_and_save_settings w settings) s)) = None.

(** All of the application state except the selector widget. *)
Definition but_combo (a : App) : App :=
  set_doc_selector_combo {| items := []; currentIndex := None; signalsBlocked := false |} a.

Definition consistent (s : St) : Prop := files_consistent (app s).

(** The upload batch of three files used in the examples. *)
Definition batch_ABC : PDFUploadWorker :=
  {| file_paths := ["/docs/A.pdf"; "/docs/B.pdf"; "/docs/C.pdf"];
     basenames := ["A.pdf"; "B.pdf"; "C.pdf"] |}.

(** The blocking calls of a run, in order. *)
Definition blocking_calls (tr : list WEvent) : list BlockingCall :=
  flat_map (fun e => match e with Blocking c _ => [c] | Emit _ => [] end) tr.

Definition is_upload_call (c : BlockingCall) : bool :=
  match c with upload_file _ _ _ => true | _ => false end.

Definition is_delete_file_call (c : BlockingCall) : bool :=
  match c with delete_file _ => true | _ => false end.

Definition completes (e : WEvent) : bool :=
  match e with Emit s => is_completion s | Blocking _ _ => false end.

(** No completion signal ([finished], [result_ready]) among the events. *)
Definition no_completion (tr : list WEvent) : Prop :=
  Forall (fun e => completes e = false) tr.

(** [m] keeps [P] true. *)
Definition preserves {A : Type} (P : St -> Prop) (m : M A) : Prop :=
  forall s, P s -> P (exec m s).

(** [P] is kept by every elementary step of the operations that manage the
    selection, the session and the widgets: any outward call, and the
    assignments these operations make. *)
Record stable (P : St -> Prop) : Prop := {
  stable_call : forall c, preserves P (call c);
  stable_is_processing : forall v, preserves P (modify (set_is_processing v));
  stable_combo : forall f, preserves P (set_combo f);
  stable_worker : forall v, preserves P (modify (set_worker v));
  stable_selected : forall v, preserves P (modify (set_selected_doc_basename v));
  stable_history_reset : preserves P (modify (set_current_chat_history []));
  stable_session_none : preserves P (modify (set_current_chat_session None));
  stable_session_new :
    preserves P (modify (fun a => set_sessions_created (S (sessions_created a))
                                    (set_current_chat_session (Some (sessions_created a)) a)));
  stable_disk : forall d, preserves P (modify (set_disk d));
  stable_model : forall v, preserves P (modify (set_model v));
  stable_is_ai_configured : forall v, preserves P (modify (set_is_ai_configured v)) }.

(* ================================================================== *)
(** ** Further definitions: measures, events and worlds *)

(** ** Measures of a worker run *)

Definition is_get_file_call (c : BlockingCall) : bool :=
  match c with get_file _ => true | _ => false end.

(** The number of times a run asked the backend for the state of a file. *)
Definition polls (tr : list WEvent) : nat :=
  length (filter is_get_file_call (blocking_calls tr)).

(** The signals that report progress, and those after which the thread
    quits. *)
Definition is_progress (s : Signal) : bool :=
  match s with progress_update _ | file_processed _ => true | _ => false end.

Definition is_terminal (s : Signal) : bool := is_completion s || is_failure s.

(** Every signal among the events reports progress. *)
Definition progress_only (tr : list WEvent) : Prop :=
  Forall (fun e => match e with Emit s => is_progress s = true | Blocking _ _ => True end) tr.

(** The [genai.upload_file] calls for the first [n] files of a batch. *)
Definition upload_calls_of (w : World) (self : PDFUploadWorker) (n : nat)
    : list BlockingCall :=
  map (fun pb => upload_file (fst pb) (snd pb) (guess_mime w (fst pb)))
      (firstn n (combine (file_paths self) (basenames self))).

(** A batch of two files that both become active, and its run in [lab]. *)
Definition batch_AC : PDFUploadWorker :=
  {| file_paths := ["/docs/A.pdf"; "/docs/C.pdf"]; basenames := ["A.pdf"; "C.pdf"] |}.

Definition lab_run_AC : list WEvent := get_or [] (PDFUploadWorker_run lab None batch_AC).

(** The [genai.upload_file] calls of a run, in order. *)
Definition uploads (tr : list WEvent) : list BlockingCall :=
  filter is_upload_call (blocking_calls tr).

(** ** A run after the stop *)

(** The events up to the arrival of the stop: the whole run for [None],
    nothing for [Some 0], the events up to the [k]-th blocking call for
    [Some k]. *)
Fixpoint until_calls (k : nat) (tr : list WEvent) : list WEvent :=
  match k, tr with
  | O, _ => []
  | S _, [] => []
  | S k', Blocking c d :: tr' => Blocking c d :: until_calls k' tr'
  | S _, Emit s :: tr' => Emit s :: until_calls k tr'
  end.

Definition before_stop (stop : StopPoint) (tr : list WEvent) : list WEvent :=
  match stop with
  | None => tr
  | Some k => until_calls k tr
  end.

(** An event that reports nothing and submits no file: a blocking call
    other than [genai.upload_file]. *)
Definition is_idle_event (e : WEvent) : bool :=
  match e with
  | Blocking c _ => negb (is_upload_call c)
  | Emit _ => false
  end.

Definition silent (tr : list WEvent) : Prop :=
  Forall (fun e => is_idle_event e = true) tr.

(** Silent, except for a last [file_processed]. *)
Definition settles (tr : list WEvent) : Prop :=
  exists quiet last,
    tr = quiet ++ last /\ silent quiet
    /\ (last = [] \/ exists filename, last = [Emit (file_processed filename)]).

(** Silent, except for a last [file_processed] or [error_occurred]. *)
Definition winds_down (tr : list WEvent) : Prop :=
  exists quiet last,
    tr = quiet ++ last /\ silent quiet
    /\ (last = []
        \/ (exists filename, last = [Emit (file_processed filename)])
        \/ (exists message, last = [Emit (error_occurred message)])).

(** The reading of the cancellation rule in the specification: whatever a
    run of the upload worker emits after [stop()] was called is not a
    completion, and it is a failure only for work that was committed, that
    is, when the upload of a file had been requested by the time the stop
    arrived. *)
Definition spec_stop_silences_upload (w : World) (stop : StopPoint)
    (self : PDFUploadWorker) : Prop :=
  forall tr, PDFUploadWorker_run w stop self = Some tr ->
  forall s, In s (signals (after_stop stop tr)) ->
            is_completion s = false
            /\ (is_failure s = true -> uploads (before_stop stop tr) <> []).

(** A batch of one file that never leaves [PROCESSING] in [lab]. *)
Definition batch_B : PDFUploadWorker :=
  {| file_paths := ["/docs/B.pdf"]; basenames := ["B.pdf"] |}.

(** ** States and worlds for the properties of the main window *)

(** The state after a call that changes nothing. *)
Definition after_call (c : Call) (s : St) : St :=
  {| app := app s; log := log s ++ [(c, app s)] |}.

(** [lab] with a config file that cannot be written. *)
Definition lab_read_only : World :=
  {| gemini_imported := gemini_imported lab;
     os_path_exists := os_path_exists lab;
     os_path_basename := os_path_basename lab;
     mimetypes_guess_type := mimetypes_guess_type lab;
     float_str := float_str lab;
     float_parse := float_parse lab;
     json_dumps := json_dumps lab;
     json_loads := json_loads lab;
     config_write_error :=
       Some {| failure_text := "[Errno 13] Permission denied"; file_left := None |};
     interpolation_error := interpolation_error lab;
     reread_other := reread_other lab;
     set_order := set_order lab;
     genai_configure := genai_configure lab;
     GenerativeModel_init := GenerativeModel_init lab;
     model_start_chat := model_start_chat lab;
     genai_upload_file := genai_upload_file lab;
     genai_get_file := genai_get_file lab;
     genai_delete_file := genai_delete_file lab;
     chat_send_message := chat_send_message lab;
     latency := latency lab |}.

(** A config file of no lines. *)
Definition empty_file : Disk :=
  Ini {| ini_APIKey := Absent; ini_Model := Absent; ini_Language := Absent;
         ini_Temperature := Absent; ini_LocalPaths := Absent |}.

(** [lab] with a disk that is full: the config file can be opened, but
    nothing can be written to it. *)
Definition lab_disk_full : World :=
  {| gemini_imported := gemini_imported lab;
     os_path_exists := os_path_exists lab;
     os_path_basename := os_path_basename lab;
     mimetypes_guess_type := mimetypes_guess_type lab;
     float_str := float_str lab;
     float_parse := float_parse lab;
     json_dumps := json_dumps lab;
     json_loads := json_loads lab;
     config_write_error :=
       Some {| failure_text := "[Errno 28] No space left on device";
               file_left := Some empty_file |};
     interpolation_error := interpolation_error lab;
     reread_other := reread_other lab;
     set_order := set_order lab;
     genai_configure := genai_configure lab;
     GenerativeModel_init := GenerativeModel_init lab;
     model_start_chat := model_start_chat lab;
     genai_upload_file := genai_upload_file lab;
     genai_get_file := genai_get_file lab;
     genai_delete_file := genai_delete_file lab;
     chat_send_message := chat_send_message lab;
     latency := latency lab |}.

(** The settings widget applied with a key that has a stray [%]. *)
Definition lab_key_percent : Config :=
  {| cfg_api_key := Some "50%"; cfg_model := Some "gemini-1.5-flash-latest";
     cfg_language := Some "Finnish";
     cfg_temperature := Some DEFAULT_TEMPERATURE;
     cfg_files := None |}.

(** ** What [add_files] answers *)

(** The first listed path that exists and has the basename [k]. *)
Definition first_path (w : World) (paths : list string) (k : string) : option string :=
  find (fun p => os_path_exists w p && (os_path_basename w p =? k)) paths.

Definition is_any_warning (c : Call) : bool :=
  match c with QMessageBox_warning _ _ => true | _ => false end.

(** The warning dialogs with a given title. *)
Definition is_warning (title : string) (c : Call) : bool :=
  match c with QMessageBox_warning t _ => t =? title | _ => false end.

Definition count_calls (f : Call -> bool) (s : St) : nat := length (filter f (calls s)).

(** The dialogs of the loop of [add_files]. *)
Fixpoint add_warnings (w : World) (paths : list string) (local : dict string)
    : list Call :=
  match paths with
  | [] => []
  | path :: rest =>
    if negb (os_path_exists w path) then
      QMessageBox_warning "File Not Found" ("Skipping missing file: " +++ path)
      :: add_warnings w rest local
    else if PyDict.mem (os_path_basename w path) local then
      QMessageBox_warning "Duplicate File"
        ("'" +++ os_path_basename w path +++ "' is already in the list.")
      :: add_warnings w rest local
    else add_warnings w rest (PyDict.set (os_path_basename w path) path local)
  end.

(** Two files of the same name in one call, after a missing one. *)
Definition lab_two_of_a_name : list string :=
  ["/docs/missing.pdf"; "/docs/L1.pdf"; "/old/L1.pdf"; "/docs/A.pdf"].

(** A file whose name has a [%], as an encoded blank leaves one. *)
Definition lab_percent : World :=
  {| gemini_imported := gemini_imported lab;
     os_path_exists := fun p => (p =? "/docs/Lecture%201.pdf") || os_path_exists lab p;
     os_path_basename := os_path_basename lab;
     mimetypes_guess_type := mimetypes_guess_type lab;
     float_str := float_str lab;
     float_parse := float_parse lab;
     json_dumps := json_dumps lab;
     json_loads := json_loads lab;
     config_write_error := config_write_error lab;
     interpolation_error := interpolation_error lab;
     reread_other := reread_other lab;
     set_order := set_order lab;
     genai_configure := genai_configure lab;
     GenerativeModel_init := GenerativeModel_init lab;
     model_start_chat := model_start_chat lab;
     genai_upload_file := genai_upload_file lab;
     genai_get_file := genai_get_file lab;
     genai_delete_file := genai_delete_file lab;
     chat_send_message := chat_send_message lab;
     latency := latency lab |}.

(** The deletion of [f] on the backend raises. *)
Definition deletion_fails (w : World) (f : File) : bool :=
  match genai_delete_file w (name f) with Ok _ => false | Raise _ => true end.

(** The calls of [_attempt_backend_deletion] for the files [l] when the AI
    is configured: one deletion per file, in order, then a warning if some
    deletion failed. *)
Definition deletion_calls (w : World) (l : list File) : list Call :=
  map (fun f => call_delete_file (name f)) l
  ++ match filter (deletion_fails w) l with
     | [] => []
     | (_ :: _) as failed =>
       [QMessageBox_warning "Backend Deletion Issue"
          ("Failed to delete " +++ str_nat (length failed)
           +++ " file(s) from the AI backend. They might need manual cleanup.")]
     end.

(** [load_config] can use what is on the disk: there is no file, or the
    file parses, none of its options raises when it is read, and its
    temperature and its path registry can be decoded. *)
Definition config_readable (w : World) (d : Disk) : bool :=
  match d with
  | NoFile => true
  | Unreadable _ => false
  | Ini f => match read_ini w f with inl _ => true | inr _ => false end
  end.

(** The registry that [load_config] decodes from the disk. *)
Definition registry_of (w : World) (d : Disk) : Json :=
  match d with
  | Ini f =>
    match read_ini w f with
    | inl (_, _, _, _, registry) => registry
    | inr _ => JsonPaths []
    end
  | _ => JsonPaths []
  end.

(** One of the options of the file raises when it is read. *)
Definition some_option_raises (f : IniFile) : bool :=
  existsb (fun g => match g with GetRaises _ => true | _ => false end)
          [ini_APIKey f; ini_Model f; ini_Language f; ini_Temperature f; ini_LocalPaths f].

(** A config file whose temperature is not a number. *)
Definition lab_disk_bad_temperature : Disk :=
  Ini {| ini_APIKey := Present "key-1"; ini_Model := Present "gemini-1.5-flash-latest";
         ini_Language := Present "English"; ini_Temperature := Present "warm";
         ini_LocalPaths := Absent |}.

(** The settings widget applied with another language only. *)
Definition lab_language_changed : Config :=
  {| cfg_api_key := Some "key-1"; cfg_model := Some "gemini-1.5-flash-latest";
     cfg_language := Some "English";
     cfg_temperature := Some DEFAULT_TEMPERATURE;
     cfg_files := None |}.

(** [lab] with a backend that rejects the API key. *)
Definition lab_bad_key : World :=
  {| gemini_imported := gemini_imported lab;
     os_path_exists := os_path_exists lab;
     os_path_basename := os_path_basename lab;
     mimetypes_guess_type := mimetypes_guess_type lab;
     float_str := float_str lab;
     float_parse := float_parse lab;
     json_dumps := json_dumps lab;
     json_loads := json_loads lab;
     config_write_error := config_write_error lab;
     interpolation_error := interpolation_error lab;
     reread_other := reread_other lab;
     set_order := set_order lab;
     genai_configure := fun _ =>
       Raise {| exn_class := Unauthenticated; exn_msg := "401 API key not valid" |};
     GenerativeModel_init := GenerativeModel_init lab;
     model_start_chat := model_start_chat lab;
     genai_upload_file := genai_upload_file lab;
     genai_get_file := genai_get_file lab;
     genai_delete_file := genai_delete_file lab;
     chat_send_message := chat_send_message lab;
     latency := latency lab |}.

(** What [initialize_ai] leaves of the application when the configuration
    of the SDK or the creation of the model fails. *)
Definition unconfigured (a : App) : App :=
  set_current_chat_session None
    (set_model None (set_is_ai_configured false (set_is_processing false a))).

(** What a chat turn gets back in world [w]: the text of the response, or
    the exception of [send_message] or of reading [.text]. *)
Definition turn_reply (w : World) (session : ChatSession) (user_text : string)
    : Result string :=
  match chat_send_message w session [user_text] with
  | Ok response => text response
  | Raise e => Raise e
  end.

(** [lab] with a backend that fails every chat turn. *)
Definition lab_offline : World :=
  {| gemini_imported := gemini_imported lab;
     os_path_exists := os_path_exists lab;
     os_path_basename := os_path_basename lab;
     mimetypes_guess_type := mimetypes_guess_type lab;
     float_str := float_str lab;
     float_parse := float_parse lab;
     json_dumps := json_dumps lab;
     json_loads := json_loads lab;
     config_write_error := config_write_error lab;
     interpolation_error := interpolation_error lab;
     reread_other := reread_other lab;
     set_order := set_order lab;
     genai_configure := genai_configure lab;
     GenerativeModel_init := GenerativeModel_init lab;
     model_start_chat := model_start_chat lab;
     genai_upload_file := genai_upload_file lab;
     genai_get_file := genai_get_file lab;
     genai_delete_file := genai_delete_file lab;
     chat_send_message := fun _ _ =>
       Raise {| exn_class := ConnectionError; exn_msg := "network unreachable" |};
     latency := latency lab |}.


(** ** Everything that can happen to the main window

    The commands of the two views, a change of the document selector, and
    the arrival of a signal of the worker in flight. *)
Inductive Event :=
| ev_add_files (paths : list string)
| ev_remove_files (names : list string)
| ev_clear_all_files
| ev_upload_files_to_ai
| ev_apply_settings (settings : Config)
| ev_selection_changed (selected_basename : string)
| ev_user_message (user_text : string)
| ev_signal (sg : Signal).

Definition handle (w : World) (e : Event) : M unit :=
  match e with
  | ev_add_files paths => add_files w paths
  | ev_remove_files names => remove_files w names
  | ev_clear_all_files => clear_all_files w
  | ev_upload_files_to_ai => upload_files_to_ai w
  | ev_apply_settings settings => apply_and_save_settings w settings
  | ev_selection_changed b => handle_document_selection_change w b
  | ev_user_message user_text => handle_user_message user_text
  | ev_signal sg =>
    a <- get ;;
    match worker a with
    | Some wk => deliver w wk sg
    | None => ret tt
    end
  end.

(** The states after each event of a sequence, each event in a world of
    its own. *)
Fixpoint run_events (evs : list (World * Event)) (s : St) : list St :=
  match evs with
  | [] => []
  | (w, e) :: evs' =>
    let s' := exec (handle w e) s in
    s' :: run_events evs' s'
  end.

(** The selected document is an uploaded one, and a session has a selected
    document. *)
Definition selection_uploaded (a : App) : Prop :=
  forall b, selected_doc_basename a = Some b -> PyDict.mem b (uploaded_files a) = true.

Definition session_has_document (a : App) : Prop :=
  current_chat_session a <> None -> selected_doc_basename a <> None.

Definition selection_ok (s : St) : Prop :=
  selection_uploaded (app s) /\ session_has_document (app s).

Definition lifecycle (s : St) : Prop :=
  files_consistent (app s) /\ selection_uploaded (app s) /\ session_has_document (app s).


(** [uploaded_files] after the loop of [_handle_upload_finished]: a
    reference is recorded under its display name if that name is not empty
    and is in the local list. *)
Definition is_requested (local : dict string) (file_obj : File) : bool :=
  truthy (Some (display_name file_obj)) && PyDict.mem (display_name file_obj) local.

Fixpoint recorded (local : dict string) (refs : list File) (uploaded : dict File)
    : dict File :=
  match refs with
  | [] => uploaded
  | file_obj :: rest =>
    if is_requested local file_obj
    then recorded local rest (PyDict.set (display_name file_obj) file_obj uploaded)
    else recorded local rest uploaded
  end.

(** The body of the loop of [_handle_upload_finished]. *)
Definition record_reference (w : World) (file_obj : File) (count : nat) : M nat :=
  let basename := display_name file_obj in
  a <- get ;;
  if truthy (Some basename) && PyDict.mem basename (local_file_paths a) then
    modify (fun a => set_uploaded_files
                       (PyDict.set basename file_obj (uploaded_files a)) a) ;;
    ret (S count)
  else
    _attempt_backend_deletion w [file_obj] ;;
    ret count.

(** [_handle_upload_finished] after its loop. *)
Definition upload_finished_rest (w : World) (newly_uploaded_count : nat) : M unit :=
  a <- get ;;
  let total_uploaded := length (uploaded_files a) in
  let total_local := length (local_file_paths a) in
  (if Nat.ltb 0 newly_uploaded_count then
     update_status ("Uploaded " +++ str_nat newly_uploaded_count
                    +++ " file(s). Total active: " +++ str_nat total_uploaded
                    +++ "/" +++ str_nat total_local +++ ".") false false
   else if Nat.eqb total_uploaded total_local && Nat.ltb 0 total_local then
     update_status ("All " +++ str_nat total_local +++ " files are active on backend.")
                   false false
   else
     update_status ("Upload finished, but issues occurred. Active: "
                    +++ str_nat total_uploaded +++ "/" +++ str_nat total_local +++ ".")
                   true false) ;;
  _update_ui_state w ;;
  _try_start_chat_session w.


(** ** The chat display: [ChatWidget.add_message] *)

(** [s.replace(old, new)] for a pattern [old] of one character. *)
Fixpoint replace_char (old : ascii) (new : string) (s : string) : string :=
  match s with
  | EmptyString => EmptyString
  | String c s' =>
    if Ascii.eqb c old then new +++ replace_char old new s'
    else String c (replace_char old new s')
  end.

(** [text.replace('&', '&amp;').replace('<', '&lt;').replace('>', '&gt;')
    .replace('\n', '<br>')] *)
Definition escape_html (text : string) : string :=
  replace_char newline "<br>"
    (replace_char ">" "&gt;"
       (replace_char "<" "&lt;"
          (replace_char "&" "&amp;" text))).

Definition AI_MSG_COLOR : string := "#263238".
Definition USER_MSG_COLOR : string := "#00695C".
Definition SYSTEM_MSG_COLOR : string := "#546E7A".

Definition bytes (l : list nat) : string :=
  fold_right (fun n s => String (ascii_of_nat n) s) EmptyString l.

Definition dquote : string := bytes [34].
(** The pictograms of the prefixes, in UTF-8: robot face, bust in
    silhouette, information source with its variation selector. *)
Definition robot_face : string := bytes [240; 159; 164; 150].
Definition bust : string := bytes [240; 159; 145; 164].
Definition information : string := bytes [226; 132; 185; 239; 184; 143].

(** The HTML that [add_message] appends to the chat display. *)
Definition formatted_message (sender_role text : string) : string :=
  let text_escaped := escape_html text in
  let '(prefix, color, text_escaped) :=
    if sender_role =? ROLE_AI then (robot_face +++ " AI Tutor:", AI_MSG_COLOR, text_escaped)
    else if sender_role =? ROLE_USER then (bust +++ " You:", USER_MSG_COLOR, text_escaped)
    else if sender_role =? ROLE_SYSTEM then
      (information +++ " System:", SYSTEM_MSG_COLOR, "<i>" +++ text_escaped +++ "</i>")
    else (sender_role +++ ":", "#000000", text_escaped) in
  "<div style=" +++ dquote +++ "margin-bottom: 8px;" +++ dquote +++ "><b style="
    +++ dquote +++ "color:" +++ color +++ ";" +++ dquote +++ ">" +++ prefix
    +++ "</b><br><span style=" +++ dquote +++ "color:" +++ color +++ ";" +++ dquote +++ ">"
    +++ text_escaped +++ "</span></div>".

(** What the four replacements make of one character. *)
Definition escape_char (c : ascii) : string :=
  if Ascii.eqb c "&" then "&amp;"
  else if Ascii.eqb c "<" then "&lt;"
  else if Ascii.eqb c ">" then "&gt;"
  else if Ascii.eqb c newline then "<br>"
  else String c EmptyString.

Fixpoint escape_each (s : string) : string :=
  match s with
  | EmptyString => EmptyString
  | String c s' => escape_char c +++ escape_each s'
  end.

(** [s] starts with the characters [a], [b], [c]. *)
Definition is3 (a b c x y z : ascii) : bool :=
  Ascii.eqb x a && Ascii.eqb y b && Ascii.eqb z c.

(** Reading escaped text back. *)
Fixpoint unescape_html (s : string) : string :=
  match s with
  | EmptyString => EmptyString
  | String c s' =>
    if Ascii.eqb c "&" then
      match s' with
      | String x (String y (String z r)) =>
        if is3 "l" "t" ";" x y z then String "<" (unescape_html r)
        else if is3 "g" "t" ";" x y z then String ">" (unescape_html r)
        else
          match r with
          | String u r' =>
            if is3 "a" "m" "p" x y z && Ascii.eqb u ";" then String "&" (unescape_html r')
            else String c (unescape_html s')
          | EmptyString => String c (unescape_html s')
          end
      | _ => String c (unescape_html s')
      end
    else if Ascii.eqb c "<" then
      match s' with
      | String x (String y (String z r)) =>
        if is3 "b" "r" ">" x y z then String newline (unescape_html r)
        else String c (unescape_html s')
      | _ => String c (unescape_html s')
      end
    else String c (unescape_html s')
  end.

(** Every [<] of the text starts a line break [<br>], and no [>] stands
    anywhere else. *)
Fixpoint only_line_breaks (s : string) : bool :=
  match s with
  | EmptyString => true
  | String c s' =>
    if Ascii.eqb c "<" then
      match s' with
      | String x (String y (String z r)) =>
        if is3 "b" "r" ">" x y z then only_line_breaks r else false
      | _ => false
      end
    else if Ascii.eqb c ">" then false
    else only_line_breaks s'
  end.

(* ================================================================== *)
(** * Properties *)

(** ** Dictionaries *)

Lemma get_set {V : Type} (k k' : string) (v : V) (d : dict V) :
  PyDict.get k' (PyDict.set k v d) = if (k' =? k)%string then Some v else PyDict.get k' d.
Proof.
  induction d as [|[k0 v0] d IH]; simpl.
  - reflexivity.
  - destruct (String.eqb_spec k k0) as [->|Hne]; simpl.
    + destruct (k' =? k0)%string; reflexivity.
    + rewrite IH. destruct (String.eqb_spec k' k0) as [->|Hne'].
      * destruct (String.eqb_spec k0 k); [congruence | reflexivity].
      * reflexivity.
Qed.

Lemma get_del {V : Type} (k k' : string) (d : dict V) :
  PyDict.get k' (PyDict.del k d) = if (k =? k')%string then None else PyDict.get k' d.
Proof.
  unfold PyDict.del.
  induction d as [|[k0 v0] d IH]; simpl.
  - destruct (k =? k')%string; reflexivity.
  - destruct (String.eqb_spec k k0) as [->|Hne]; simpl.
    + rewrite IH. destruct (String.eqb_spec k0 k') as [->|Hne'].
      * reflexivity.
      * destruct (String.eqb_spec k' k0); [congruence | reflexivity].
    + rewrite IH. destruct (String.eqb_spec k' k0) as [->|Hne'].
      * destruct (String.eqb_spec k k0); [congruence | reflexivity].
      * reflexivity.
Qed.

Lemma mem_set {V : Type} (k k' : string) (v : V) (d : dict V) :
  PyDict.mem k' (PyDict.set k v d) = (k' =? k)%string || PyDict.mem k' d.
Proof.
  unfold PyDict.mem. rewrite get_set. destruct (k' =? k)%string; reflexivity.
Qed.

Lemma mem_del {V : Type} (k k' : string) (d : dict V) :
  PyDict.mem k' (PyDict.del k d) = negb (k =? k')%string && PyDict.mem k' d.
Proof.
  unfold PyDict.mem. rewrite get_del. destruct (k =? k')%string; reflexivity.
Qed.

Lemma mem_get_None {V : Type} (k : string) (d : dict V) :
  PyDict.get k d = None -> PyDict.mem k d = false.
Proof. unfold PyDict.mem. intros ->. reflexivity. Qed.

(** ** Sequencing *)

Lemma exec_bind {A B : Type} (m : M A) (k : A -> M B) (s : St) :
  exec (bind m k) s = exec (k (fst (m s))) (snd (m s)).
Proof. unfold exec, bind. destruct (m s). reflexivity. Qed.

Lemma preserves_ret {A : Type} (P : St -> Prop) (x : A) : preserves P (ret x).
Proof. intros s H. exact H. Qed.

Lemma preserves_get (P : St -> Prop) : preserves P get.
Proof. intros s H. exact H. Qed.

Lemma preserves_bind {A B : Type} (P : St -> Prop) (m : M A) (k : A -> M B) :
  preserves P m -> (forall x, preserves P (k x)) -> preserves P (bind m k).
Proof.
  intros Hm Hk s Hs. rewrite exec_bind. apply Hk. apply Hm. exact Hs.
Qed.

Lemma preserves_for_each {A B : Type} (P : St -> Prop) (l : list A)
    (body : A -> B -> M B) :
  (forall x acc, preserves P (body x acc)) ->
  forall acc, preserves P (for_each l acc body).
Proof.
  intros Hbody. induction l as [|x l IH]; intros acc; simpl.
  - apply preserves_ret.
  - apply preserves_bind; [apply Hbody | intros acc'; apply IH].
Qed.

(** ** Operations that keep every stable property *)

Create HintDb keep.
#[local] Hint Resolve stable_call stable_is_processing stable_combo stable_worker
  stable_selected stable_history_reset stable_session_none stable_session_new
  stable_disk stable_model stable_is_ai_configured : keep.

Ltac keep_step :=
  first
    [ solve [auto with keep nocore]
    | match goal with
      | H : preserves _ ?m |- preserves _ ?m => exact H
      | H : forall b, preserves _ (_ b) |- preserves _ _ => apply H
      | |- preserves _ (if ?c then _ else _) => destruct c
      | |- preserves _ (match ?x with _ => _ end) => destruct x
      end
    | apply preserves_ret
    | apply preserves_get
    | (apply preserves_bind; [ | intro ])
    | (apply preserves_for_each; intros) ].

Ltac keep := cbv zeta; repeat (keep_step; cbv zeta).

Section Stable.
Variable P : St -> Prop.
Hypothesis HP : stable P.

Lemma keep_update_status (message : string) (is_error processing : bool) :
  preserves P (update_status message is_error processing).
Proof. unfold update_status. keep. Qed.
Hint Resolve keep_update_status : keep.

Lemma keep_save_config (w : World) : preserves P (save_config w).
Proof. unfold save_config. keep. Qed.
Hint Resolve keep_save_config : keep.

Lemma keep_blockSignals (b : bool) : preserves P (blockSignals b).
Proof. unfold blockSignals. keep. Qed.
Hint Resolve keep_blockSignals : keep.

Lemma keep_setCurrentIndex (h : string -> M unit) (i : nat) :
  (forall t, preserves P (h t)) -> preserves P (setCurrentIndex h i).
Proof. intros Hh. unfold setCurrentIndex. keep. Qed.

Lemma keep_setCurrentText (h : string -> M unit) (t : string) :
  (forall t, preserves P (h t)) -> preserves P (setCurrentText h t).
Proof. intros Hh. unfold setCurrentText. keep. Qed.

Lemma keep_start_thread (wk : Worker) : preserves P (start_thread wk).
Proof. unfold start_thread. keep. Qed.
Hint Resolve keep_start_thread : keep.

Lemma keep__start_ai_chat_turn (message : string) (initial : bool) :
  preserves P (_start_ai_chat_turn message initial).
Proof. unfold _start_ai_chat_turn. keep. Qed.
Hint Resolve keep__start_ai_chat_turn : keep.

Lemma keep_start_new_chat (w : World) (gm : GenerativeModel) (selected : string) :
  preserves P (start_new_chat w gm selected).
Proof. unfold start_new_chat. keep. Qed.
Hint Resolve keep_start_new_chat : keep.

Lemma keep_selection (w : World) (depth : nat) :
  (forall b, preserves P (handle_document_selection_change_ w depth b))
  /\ preserves P (_try_start_chat_session_ w depth).
Proof.
  induction depth as [|depth [IHh IHt]]; split; intros; simpl.
  - apply preserves_ret.
  - apply preserves_ret.
  - unfold selection_change. keep.
  - unfold try_start_chat_session. keep.
Qed.

Lemma keep_handle_document_selection_change (w : World) (b : string) :
  preserves P (handle_document_selection_change w b).
Proof. apply keep_selection. Qed.
Hint Resolve keep_handle_document_selection_change : keep.

Lemma keep__try_start_chat_session (w : World) :
  preserves P (_try_start_chat_session w).
Proof. apply keep_selection. Qed.
Hint Resolve keep__try_start_chat_session : keep.

Lemma keep_update_document_list (w : World) (names : list string) :
  preserves P (update_document_list w names).
Proof.
  unfold update_document_list. keep.
Qed.
Hint Resolve keep_update_document_list : keep.

Lemma keep__update_ui_state (w : World) : preserves P (_update_ui_state w).
Proof.
  unfold _update_ui_state. keep.
Qed.
Hint Resolve keep__update_ui_state : keep.

Lemma keep__attempt_backend_deletion (w : World) (l : list File) :
  preserves P (_attempt_backend_deletion w l).
Proof. unfold _attempt_backend_deletion. keep. Qed.
Hint Resolve keep__attempt_backend_deletion : keep.

Lemma keep_initialize_ai_failed (model_name : string) (e : Exn) :
  preserves P (initialize_ai_failed model_name e).
Proof. unfold initialize_ai_failed. keep. Qed.
Hint Resolve keep_initialize_ai_failed : keep.

Lemma keep_initialize_ai (w : World) : preserves P (initialize_ai w).
Proof. unfold initialize_ai. keep. Qed.
End Stable.

#[local] Hint Resolve keep_update_status keep_save_config keep_blockSignals
  keep_start_thread keep__start_ai_chat_turn keep_start_new_chat
  keep_handle_document_selection_change keep__try_start_chat_session
  keep_update_document_list keep__update_ui_state keep__attempt_backend_deletion
  keep_initialize_ai_failed keep_initialize_ai : keep.

Lemma stable_consistent : stable consistent.
Proof. constructor; intros; intros s H; exact H. Qed.
#[local] Hint Resolve stable_consistent : keep.

(** ** The file maps under add, remove, clear and upload completion *)

(** Runs the rest of an operation from a state already known to be
    consistent. *)
Ltac keep_rest :=
  cbv beta;
  match goal with
  | |- consistent (exec ?m ?s') =>
    cut (preserves consistent m); [ let Hm := fresh in intro Hm; apply Hm | keep ]
  end.

Ltac dcbn := cbn -[PyDict.mem PyDict.get PyDict.set PyDict.del] in *.

Lemma keep_add_files (w : World) (paths : list string) :
  preserves consistent (add_files w paths).
Proof.
  unfold add_files, add_file. keep.
  intros s H k Hk. dcbn. rewrite mem_set.
  rewrite (H k Hk). apply orb_true_r.
Qed.

Lemma keep_remove_files (w : World) (names : list string) :
  preserves consistent (remove_files w names).
Proof.
  unfold remove_files.
  apply preserves_bind; [apply preserves_get | intro a].
  destruct (is_processing a); [keep |].
  apply preserves_bind; [ | intro r; unfold files_removed; keep ].
  apply preserves_for_each. intros basename r s H. unfold remove_file.
  rewrite exec_bind. cbn [get fst snd].
  destruct (PyDict.mem basename (local_file_paths (app s))) eqn:Hlocal;
    [ | exact H ].
  rewrite exec_bind.
  destruct (PyDict.get basename (uploaded_files (app s))) eqn:Hup.
  - intros k Hk. dcbn. rewrite mem_del in Hk. rewrite mem_del.
    apply andb_true_iff in Hk. destruct Hk as [Hne Hk].
    rewrite Hne. apply (H k Hk).
  - intros k Hk. dcbn. rewrite mem_del.
    rewrite (H k Hk), andb_true_r.
    destruct (String.eqb_spec basename k) as [->|]; [ | reflexivity ].
    apply mem_get_None in Hup. congruence.
Qed.

Lemma keep_clear_all_files (w : World) : preserves consistent (clear_all_files w).
Proof.
  unfold clear_all_files.
  apply preserves_bind; [apply preserves_get | intro a].
  destruct (is_processing a); [keep |].
  destruct (local_file_paths a); [keep |].
  cbv zeta. intros s H.
  do 2 rewrite exec_bind.
  keep_rest.
  intros k Hk. discriminate Hk.
Qed.

Lemma keep__handle_upload_finished (w : World) (refs : list File) :
  preserves consistent (_handle_upload_finished w refs).
Proof.
  unfold _handle_upload_finished.
  apply preserves_bind; [ | intro n; keep ].
  apply preserves_for_each. intros file_obj count s H.
  cbv zeta. rewrite exec_bind. cbn [get fst snd].
  destruct (truthy (Some (display_name file_obj))
            && PyDict.mem (display_name file_obj) (local_file_paths (app s))) eqn:Hc.
  - apply andb_true_iff in Hc. destruct Hc as [_ Hlocal].
    intros k Hk. dcbn. rewrite mem_set in Hk.
    destruct (String.eqb_spec k (display_name file_obj)) as [Heq|Hne].
    + rewrite Heq. exact Hlocal.
    + apply (H k Hk).
  - keep_rest. exact H.
Qed.

Lemma keep_perform (w : World) (op : Operation) : preserves consistent (perform w op).
Proof.
  destruct op; simpl.
  - apply keep_add_files.
  - apply keep_remove_files.
  - apply keep_clear_all_files.
  - apply keep__handle_upload_finished.
Qed.

(** C1. Along every sequence of [add_files], [remove_files],
    [clear_all_files] and upload completions ([_handle_upload_finished]),
    each in any world and with any arguments, the keys of [uploaded_files]
    are among the keys of [local_file_paths] after every operation,
    provided they were at the start. *)
Theorem uploaded_within_local (ops : list (World * Operation)) (s : St) :
  files_consistent (app s) ->
  Forall (fun s' => files_consistent (app s')) (run_operations ops s).
Proof.
  revert s. induction ops as [|[w op] ops IH]; intros s H; simpl.
  - constructor.
  - pose proof (keep_perform w op s H) as H'.
    constructor; [exact H' | apply IH; exact H'].
Qed.

Lemma uploaded_within_local_witness :
  files_consistent (app lab_ready)
  /\ Forall (fun s' => files_consistent (app s'))
       (run_operations
          [(lab, op_add_files ["/docs/L1.pdf"; "/docs/A.pdf"]);
           (lab, op_upload_finished [lab_file "L1.pdf" "ACTIVE"; lab_file "X.pdf" "ACTIVE"]);
           (lab_no_delete, op_remove_files ["L1.pdf"]);
           (lab, op_clear_all_files)]
          lab_ready).
Proof.
  assert (H : files_consistent (app lab_ready)).
  { intros k Hk. vm_compute in Hk. discriminate Hk. }
  split; [exact H | apply uploaded_within_local; exact H].
Defined.

(** ** The nesting of selection changes *)

Lemma try_start_when_selected (h1 h2 : string -> M unit) (w : World) (s : St) :
  truthy (selected_doc_basename (app s)) = true ->
  try_start_chat_session w h1 s = try_start_chat_session w h2 s.
Proof.
  intros H. unfold try_start_chat_session, bind, get.
  destruct (is_ai_configured (app s)); [ | reflexivity ].
  destruct (model (app s)); [ | reflexivity ].
  rewrite H. reflexivity.
Qed.

Lemma setCurrentIndex_blocked (h1 h2 : string -> M unit) (i : nat) (s : St) :
  signalsBlocked (doc_selector_combo (app s)) = true ->
  setCurrentIndex h1 i s = setCurrentIndex h2 i s.
Proof.
  intros H. unfold setCurrentIndex, bind, get.
  destruct (opt_nat_eqb _ _); [reflexivity |].
  cbn. rewrite H. reflexivity.
Qed.

Lemma bind_run {A B : Type} (m : M A) (k : A -> M B) (s : St) :
  bind m k s = k (fst (m s)) (snd (m s)).
Proof. unfold bind. destruct (m s). reflexivity. Qed.

(** Runs the binds at the head of both sides of an equation. *)
Ltac run := repeat (rewrite bind_run; cbv beta).

Lemma selection_change_ext (t1 t2 : M unit) (h1 h2 : string -> M unit)
    (b : string) (s : St) :
  (forall s', truthy (selected_doc_basename (app s')) = true -> t1 s' = t2 s') ->
  selection_change t1 h1 b s = selection_change t2 h2 b s.
Proof.
  intros Ht. unfold selection_change, update_status. run.
  cbn [get fst snd].
  destruct (is_processing (app s) || negb (truthy (Some b))
            || opt_str_eqb (Some b) (selected_doc_basename (app s))) eqn:Hc;
    [reflexivity |].
  destruct (negb (PyDict.mem b (uploaded_files (app s)))).
  - run. rewrite (setCurrentIndex_blocked h1 h2); reflexivity.
  - run. apply Ht. cbn.
    apply orb_false_iff in Hc. destruct Hc as [Hc _].
    apply orb_false_iff in Hc. destruct Hc as [_ Hc].
    apply negb_false_iff in Hc. exact Hc.
Qed.

Lemma setCurrentIndex_ext (h1 h2 : string -> M unit) (i : nat) (s : St) :
  (forall b s', h1 b s' = h2 b s') ->
  setCurrentIndex h1 i s = setCurrentIndex h2 i s.
Proof.
  intros H. unfold setCurrentIndex. run.
  destruct (opt_nat_eqb _ _); [reflexivity |].
  run. destruct (signalsBlocked _); [reflexivity | apply H].
Qed.

Lemma try_start_ext (w : World) (h1 h2 : string -> M unit) (s : St) :
  (forall b s', h1 b s' = h2 b s') ->
  try_start_chat_session w h1 s = try_start_chat_session w h2 s.
Proof.
  intros H. unfold try_start_chat_session, setCurrentText. run.
  destruct (is_ai_configured _); [ | reflexivity ].
  destruct (model _); [ | reflexivity ].
  destruct (negb _); [ | reflexivity ].
  destruct (PyDict.keys _); [reflexivity |].
  run. destruct (findText _ _); [ | reflexivity ].
  apply setCurrentIndex_ext, H.
Qed.

Lemma selection_change_depth (w : World) (n : nat) (b : string) (s : St) :
  handle_document_selection_change_ w (2 + n) b s
  = handle_document_selection_change_ w 2 b s.
Proof.
  cbn [handle_document_selection_change_ Nat.add].
  apply selection_change_ext. intros s' H.
  cbn [_try_start_chat_session_]. apply try_start_when_selected, H.
Qed.

(** The depth 3 chosen for [handle_document_selection_change] and
    [_try_start_chat_session] is never exhausted: any larger depth gives the
    same run. *)
Lemma selection_depth_enough (w : World) (n : nat) :
  (forall b s, handle_document_selection_change_ w (3 + n) b s
               = handle_document_selection_change w b s)
  /\ (forall s, _try_start_chat_session_ w (3 + n) s = _try_start_chat_session w s).
Proof.
  split.
  - intros b s. unfold handle_document_selection_change.
    rewrite (selection_change_depth w (1 + n)).
    symmetry. apply (selection_change_depth w 1).
  - intros s. unfold _try_start_chat_session.
    cbn [_try_start_chat_session_ Nat.add].
    apply try_start_ext. intros b s'.
    apply (selection_change_depth w n).
Qed.

(** ** The upload worker always returns *)

Lemma clock_app (tr tr' : list WEvent) : clock (tr ++ tr') = (clock tr + clock tr')%Z.
Proof.
  induction tr as [|[c d|sg] tr IH]; simpl; try rewrite IH; lia.
Qed.

Lemma clock_block (w : World) (c : BlockingCall) (asked : Z) (tr : list WEvent) :
  (clock tr + asked <= clock (block w c asked tr))%Z.
Proof. unfold block. rewrite clock_app. simpl. lia. Qed.

Lemma clock_emit (sg : Signal) (tr : list WEvent) : clock (emit sg tr) = clock tr.
Proof. unfold emit. rewrite clock_app. simpl. lia. Qed.

Lemma wait_loop_returns (w : World) (stop : StopPoint) (fuel : nat) :
  forall filename start_time wait_time uploaded_file refs tr,
    (5000 <= wait_time)%Z ->
    (max_wait - (clock tr - start_time) <= 5000 * Z.of_nat fuel)%Z ->
    snd (wait_loop w stop (S fuel) filename start_time wait_time uploaded_file refs tr)
    <> PollOutOfFuel.
Proof.
  induction fuel as [|fuel IH]; intros filename start_time wait_time uploaded_file refs tr
    Hwait Hleft.
  - unfold wait_loop, wait_round.
    destruct (Z.ltb_spec (clock tr - start_time) max_wait) as [Hlt|Hge];
      [exfalso; lia | discriminate].
  - assert (Hnext : forall c,
      (max_wait - (clock (block w (time_sleep wait_time) wait_time (block w c 0 tr))
                   - start_time) <= 5000 * Z.of_nat fuel)%Z).
    { intros c.
      pose proof (clock_block w c 0 tr).
      pose proof (clock_block w (time_sleep wait_time) wait_time (block w c 0 tr)).
      lia. }
    cbn [wait_loop]. unfold wait_round at 1.
    cbv zeta.
    destruct (Z.ltb (clock tr - start_time) max_wait); [ | discriminate ].
    destruct (negb (is_running stop tr)); [discriminate |].
    destruct (genai_get_file w (name uploaded_file) (calls_done tr)) as [f|e].
    + destruct (state_name f =? "ACTIVE")%string; [discriminate |].
      destruct (state_name f =? "FAILED")%string; [discriminate |].
      destruct (state_name f =? "PROCESSING")%string; [ | discriminate ].
      destruct (negb (is_running stop _)); [discriminate |].
      apply IH; [ | apply Hnext ].
      assert (7500 <= wait_time * 3 / 2)%Z
        by (apply Z.div_le_lower_bound; lia).
      lia.
    + apply IH; [exact Hwait | apply Hnext].
Qed.

Lemma upload_loop_returns (w : World) (stop : StopPoint) (self : PDFUploadWorker)
    (paths : list string) :
  forall i refs tr, snd (upload_loop w stop self i paths refs tr) <> LoopOutOfFuel.
Proof.
  induction paths as [|file_path rest IH]; intros i refs tr; cbn [upload_loop].
  - discriminate.
  - cbv zeta.
    destruct (negb (is_running stop tr)); [discriminate |].
    destruct (nth_error (basenames self) i) as [filename|]; [ | discriminate ].
    destruct (negb (os_path_exists w file_path)); [discriminate |].
    destruct (genai_upload_file w file_path filename (guess_mime w file_path))
      as [uploaded_file|e]; [ | discriminate ].
    destruct (negb (is_running stop _)); [discriminate |].
    match goal with
    | |- context [wait_loop w stop WAIT_FUEL ?f ?st ?wt ?uf ?rf ?t] =>
      pose proof (wait_loop_returns w stop 24 f st wt uf rf t) as Hret;
      change (S 24) with WAIT_FUEL in Hret;
      destruct (wait_loop w stop WAIT_FUEL f st wt uf rf t) as [[tr' refs'] o]
    end.
    cbn [snd] in Hret.
    destruct o.
    + destruct (negb (is_running stop tr')); [discriminate | apply IH].
    + discriminate.
    + exfalso. apply Hret; [lia | unfold max_wait; lia | reflexivity].
Qed.

(** The run of the upload worker ends, whatever the world does: the wait
    for one file is bounded by its 120 s. *)
Lemma PDFUploadWorker_run_total (w : World) (stop : StopPoint) (self : PDFUploadWorker) :
  exists tr, PDFUploadWorker_run w stop self = Some tr.
Proof.
  unfold PDFUploadWorker_run.
  destruct (negb (is_running stop [])); [eexists; reflexivity |].
  cbv zeta.
  pose proof (upload_loop_returns w stop self (file_paths self) 0 []
                (block w (time_sleep 100) 100 [])) as Hret.
  destruct (upload_loop w stop self 0 (file_paths self) []
              (block w (time_sleep 100) 100 [])) as [[tr refs] o].
  cbn [snd] in Hret.
  destruct o.
  - destruct (is_running stop tr); [ | eexists; reflexivity ].
    destruct (Nat.eqb _ _); eexists; reflexivity.
  - eexists; reflexivity.
  - exfalso. apply Hret. reflexivity.
Qed.

(** ** What the workers emit, and when *)

Lemma no_completion_block (w : World) (c : BlockingCall) (asked : Z) (tr : list WEvent) :
  no_completion tr -> no_completion (block w c asked tr).
Proof.
  intros H. unfold block. apply Forall_app. split; [exact H |].
  constructor; [reflexivity | constructor].
Qed.

Lemma no_completion_emit (sg : Signal) (tr : list WEvent) :
  is_completion sg = false -> no_completion tr -> no_completion (emit sg tr).
Proof.
  intros Hs H. unfold emit. apply Forall_app. split; [exact H |].
  constructor; [exact Hs | constructor].
Qed.

Create HintDb quiet.
#[local] Hint Resolve no_completion_block no_completion_emit : quiet.

Lemma wait_loop_no_completion (w : World) (stop : StopPoint) (fuel : nat) :
  forall filename start_time wait_time uploaded_file refs tr,
    no_completion tr ->
    no_completion
      (fst (fst (wait_loop w stop fuel filename start_time wait_time uploaded_file refs tr))).
Proof.
  induction fuel as [|fuel IH]; intros filename start_time wait_time uploaded_file refs tr H.
  - exact H.
  - cbn [wait_loop]. unfold wait_round at 1, try_delete. cbv zeta.
    destruct (Z.ltb _ _); [ | cbn [fst]; auto with quiet ].
    destruct (negb (is_running stop tr)); [exact H |].
    destruct (genai_get_file w _ _) as [f|e]; [ | apply IH; auto with quiet ].
    destruct (state_name f =? "ACTIVE")%string; [cbn [fst]; auto with quiet |].
    destruct (state_name f =? "FAILED")%string; [cbn [fst]; auto with quiet |].
    destruct (state_name f =? "PROCESSING")%string; [ | cbn [fst]; auto with quiet ].
    destruct (negb (is_running stop _)); [cbn [fst]; auto with quiet |].
    apply IH; auto with quiet.
Qed.

Lemma upload_loop_no_completion (w : World) (stop : StopPoint) (self : PDFUploadWorker)
    (paths : list string) :
  forall i refs tr,
    no_completion tr ->
    no_completion (fst (fst (upload_loop w stop self i paths refs tr))).
Proof.
  induction paths as [|file_path rest IH]; intros i refs tr H; cbn [upload_loop].
  - exact H.
  - cbv zeta.
    destruct (negb (is_running stop tr)); [exact H |].
    destruct (nth_error (basenames self) i) as [filename|]; [ | exact H ].
    destruct (negb (os_path_exists w file_path)); [cbn [fst]; auto with quiet |].
    destruct (genai_upload_file w file_path filename (guess_mime w file_path))
      as [uploaded_file|e]; [ | cbn [fst]; auto with quiet ].
    destruct (negb (is_running stop _)); [cbn [fst]; auto with quiet |].
    match goal with
    | |- context [wait_loop w stop WAIT_FUEL ?f ?st ?wt ?uf ?rf ?t] =>
      assert (Hq : no_completion t) by auto 6 with quiet;
      pose proof (wait_loop_no_completion w stop WAIT_FUEL f st wt uf rf t Hq) as Hw;
      destruct (wait_loop w stop WAIT_FUEL f st wt uf rf t) as [[tr' refs'] o]
    end.
    cbn [fst] in Hw.
    destruct o; cbn [fst]; try exact Hw.
    destruct (negb (is_running stop tr')); [exact Hw | apply IH; exact Hw].
Qed.

Lemma after_calls_short (k : nat) (tr : list WEvent) :
  calls_done tr < k -> after_calls k tr = [].
Proof.
  revert k. induction tr as [|[c d|sg] tr IH]; intros k Hk.
  - destruct k; [inversion Hk | reflexivity].
  - destruct k; [inversion Hk |]. simpl. apply IH.
    unfold calls_done in *. simpl in Hk. lia.
  - destruct k; [inversion Hk |]. simpl. apply IH. exact Hk.
Qed.

Lemma after_calls_incl (k : nat) (tr : list WEvent) :
  incl (after_calls k tr) tr.
Proof.
  revert k. induction tr as [|[c d|sg] tr IH]; intros k.
  - destruct k; apply incl_refl.
  - destruct k; [apply incl_refl |]. simpl. apply incl_tl, IH.
  - destruct k; [apply incl_refl |]. simpl. apply incl_tl, IH.
Qed.

Lemma calls_done_emit (sg : Signal) (tr : list WEvent) :
  calls_done (emit sg tr) = calls_done tr.
Proof.
  unfold calls_done, emit. rewrite filter_app, length_app. simpl. lia.
Qed.

(** Nothing that is emitted while [_is_running] still reads true comes
    after the stop. *)
Lemma after_stop_emit_running (stop : StopPoint) (sg : Signal) (tr : list WEvent) :
  is_running stop tr = true -> after_stop stop (emit sg tr) = [].
Proof.
  destruct stop as [k|]; [ | reflexivity ].
  simpl. intros H. apply Nat.ltb_lt in H.
  apply after_calls_short. rewrite calls_done_emit. exact H.
Qed.

Lemma no_completion_after_stop (stop : StopPoint) (tr : list WEvent) :
  no_completion tr -> no_completion (after_stop stop tr).
Proof.
  intros H. destruct stop as [k|]; [ | constructor ].
  simpl. unfold no_completion in *. rewrite Forall_forall in *.
  intros e He. apply H. apply (after_calls_incl k tr e He).
Qed.

Lemma chat_run_silent_after_stop (w : World) (stop : StopPoint) (self : AIChatWorker) :
  signals (after_stop stop (AIChatWorker_run w stop self)) = [].
Proof.
  destruct stop as [k|]; [ | reflexivity ].
  unfold AIChatWorker_run, chat_except.
  destruct k as [|[|k]]; [reflexivity | | ];
    cbn -[chat_error_message];
    destruct (chat_session self) as [session|]; try reflexivity;
    destruct (chat_send_message w session [user_message_text self]) as [response|e];
    try reflexivity;
    destruct (text response); reflexivity.
Qed.

Lemma upload_run_no_completion_after_stop (w : World) (stop : StopPoint)
    (self : PDFUploadWorker) :
  exists tr, PDFUploadWorker_run w stop self = Some tr
             /\ no_completion (after_stop stop tr).
Proof.
  unfold PDFUploadWorker_run.
  destruct (negb (is_running stop [])).
  { eexists. split; [reflexivity |].
    apply no_completion_after_stop, no_completion_emit; [reflexivity | constructor]. }
  cbv zeta.
  assert (H0 : no_completion (block w (time_sleep 100) 100 []))
    by (apply no_completion_block; constructor).
  pose proof (upload_loop_returns w stop self (file_paths self) 0 []
                (block w (time_sleep 100) 100 [])) as Hret.
  pose proof (upload_loop_no_completion w stop self (file_paths self) 0 [] _ H0) as Hq.
  destruct (upload_loop w stop self 0 (file_paths self) []
              (block w (time_sleep 100) 100 [])) as [[tr refs] o].
  cbn [fst snd] in Hret, Hq.
  destruct o.
  - destruct (is_running stop tr) eqn:Hrun.
    + assert (Hfin : no_completion (after_stop stop (emit (finished refs) tr))).
      { rewrite (after_stop_emit_running stop _ tr Hrun). constructor. }
      destruct (Nat.eqb _ _); eexists; (split; [reflexivity | exact Hfin]).
    + eexists. split; [reflexivity | apply no_completion_after_stop, Hq].
  - eexists. split; [reflexivity |].
    apply no_completion_after_stop, no_completion_emit; [reflexivity | exact Hq].
  - exfalso. apply Hret. reflexivity.
Qed.

(** C2. The batch [A.pdf], [B.pdf], [C.pdf] in a world where A and C become
    ACTIVE at the first poll and B stays in PROCESSING: the run polls B for
    its 120 s, deletes B's remote file, and then ends with [error_occurred];
    it never emits [finished], so the reference of A, which is ACTIVE, is not
    delivered, and C is not uploaded at all. *)
Theorem upload_aborts_on_timeout :
  exists tr,
    PDFUploadWorker_run lab None batch_ABC = Some tr
    /\ signals tr
       = [progress_update "Uploading A.pdf..."; progress_update "Processing A.pdf...";
          file_processed "A.pdf";
          progress_update "Uploading B.pdf..."; progress_update "Processing B.pdf...";
          error_occurred "Upload Error: Timeout processing file 'B.pdf'"]
    /\ filter is_upload_call (blocking_calls tr)
       = [upload_file "/docs/A.pdf" "A.pdf" "application/pdf";
          upload_file "/docs/B.pdf" "B.pdf" "application/pdf"]
    /\ filter is_delete_file_call (blocking_calls tr) = [delete_file "files/B.pdf"]
    /\ clock tr = 128850%Z.
Proof.
  eexists. split; [vm_compute; reflexivity |].
  repeat split; vm_compute; reflexivity.
Qed.

(** ** Rejections *)

(** C7. While a background task is in flight, [handle_user_message] only
    shows the busy warning: the application state, and with it
    [current_chat_history], is unchanged, and no worker is started. *)
Theorem busy_turn_rejected (user_text : string) (s : St) :
  is_processing (app s) = true ->
  exec (handle_user_message user_text) s
  = {| app := app s;
       log := log s ++ [(QMessageBox_warning "Busy" "Please wait for the AI's response.",
                         app s)] |}.
Proof.
  intros H. unfold exec, handle_user_message. run. cbn [get fst snd].
  rewrite H. reflexivity.
Qed.

Lemma busy_turn_rejected_witness :
  is_processing (app lab_starting) = true
  /\ exec (handle_user_message "Hello?") lab_starting
     = {| app := app lab_starting;
          log := log lab_starting
                 ++ [(QMessageBox_warning "Busy" "Please wait for the AI's response.",
                      app lab_starting)] |}.
Proof.
  assert (H : is_processing (app lab_starting) = true) by (vm_compute; reflexivity).
  split; [exact H | exact (busy_turn_rejected "Hello?" lab_starting H)].
Defined.

(** C8. Selecting a basename that is not in [uploaded_files] changes nothing
    but the selector widget: [selected_doc_basename],
    [current_chat_session], [current_chat_history] and every other field of
    the application are as before, and no worker is started. *)
Theorem unknown_selection_rejected (w : World) (b : string) (s : St) :
  PyDict.mem b (uploaded_files (app s)) = false ->
  let s' := exec (handle_document_selection_change w b) s in
  but_combo (app s') = but_combo (app s)
  /\ selected_doc_basename (app s') = selected_doc_basename (app s)
  /\ current_chat_session (app s') = current_chat_session (app s)
  /\ current_chat_history (app s') = current_chat_history (app s)
  /\ filter is_thread_start (calls s') = filter is_thread_start (calls s).
Proof.
  intros H. cbv zeta.
  unfold exec, handle_document_selection_change.
  cbn [handle_document_selection_change_]. unfold selection_change. run.
  cbn [get fst snd]. rewrite H. cbn [negb].
  destruct (is_processing (app s) || negb (truthy (Some b))
            || opt_str_eqb (Some b) (selected_doc_basename (app s))).
  - repeat split; reflexivity.
  - run. unfold setCurrentIndex. run.
    cbn -[findText index_of opt_nat_eqb Nat.ltb].
    destruct (opt_nat_eqb _ _).
    + cbn. unfold calls. cbn. rewrite map_app, filter_app. cbn.
      rewrite app_nil_r. repeat split; reflexivity.
    + cbn. unfold calls. cbn. rewrite map_app, filter_app. cbn.
      rewrite app_nil_r. repeat split; reflexivity.
Qed.

Lemma unknown_selection_rejected_witness :
  PyDict.mem "Z.pdf" (uploaded_files (app lab_chatting)) = false
  /\ (let s' := exec (handle_document_selection_change lab "Z.pdf") lab_chatting in
      but_combo (app s') = but_combo (app lab_chatting)
      /\ selected_doc_basename (app s') = selected_doc_basename (app lab_chatting)
      /\ current_chat_session (app s') = current_chat_session (app lab_chatting)
      /\ current_chat_history (app s') = current_chat_history (app lab_chatting)
      /\ filter is_thread_start (calls s') = filter is_thread_start (calls lab_chatting)).
Proof.
  assert (H : PyDict.mem "Z.pdf" (uploaded_files (app lab_chatting)) = false)
    by (vm_compute; reflexivity).
  split; [exact H | exact (unknown_selection_rejected lab "Z.pdf" lab_chatting H)].
Defined.

(** ** The chat scenario *)

(** Symbolic execution: runs the binds and simplifies, leaving the tests
    on the state to be rewritten with what is known. *)
Ltac sym :=
  unfold bind, get, modify, call, ret;
  cbn -[String.append truthy opt_str_eqb PyDict.mem PyDict.get PyDict.set PyDict.del
        PyDict.keys _build_system_prompt initial_message_to_ai str_nat].

(** Selecting an uploaded document in an idle, configured state. *)
Lemma selection_starts_session (w : World) (gm : GenerativeModel) (b : string) (s : St) :
  is_processing (app s) = false ->
  is_ai_configured (app s) = true ->
  model (app s) = Some gm ->
  model_start_chat w gm = Ok tt ->
  truthy (Some b) = true ->
  opt_str_eqb (Some b) (selected_doc_basename (app s)) = false ->
  PyDict.mem b (uploaded_files (app s)) = true ->
  let s1 := exec (handle_document_selection_change w b) s in
  current_chat_session (app s1) = Some (sessions_created (app s))
  /\ selected_doc_basename (app s1) = Some b
  /\ current_chat_history (app s1) = []
  /\ is_processing (app s1) = true
  /\ worker (app s1)
     = Some (ChatWorker
               {| chat_session := Some (sessions_created (app s));
                  user_message_text :=
                    initial_message_to_ai (_build_system_prompt (app s) b) b;
                  doc_ref := PyDict.get b (uploaded_files (app s)) |})
  /\ is_ai_configured (app s1) = true
  /\ uploaded_files (app s1) = uploaded_files (app s).
Proof.
  intros Hidle Hconf Hmodel Hstart Hb Hsel Hup. cbv zeta.
  unfold exec, handle_document_selection_change.
  cbn [handle_document_selection_change_ _try_start_chat_session_].
  unfold selection_change, try_start_chat_session, start_new_chat,
    _start_ai_chat_turn, update_status, start_thread.
  sym.
  repeat (progress (rewrite ?Hidle, ?Hb, ?Hsel, ?Hup, ?Hconf, ?Hmodel, ?Hstart; sym)).
  repeat split; reflexivity.
Qed.

(** The answer of a chat worker in flight is appended, and the main window
    is idle again. *)
Lemma reply_appended (w : World) (cw : AIChatWorker) (reply : string) (s : St) :
  worker (app s) = Some (ChatWorker cw) ->
  let s' := exec (reply_arrives w reply) s in
  current_chat_history (app s')
  = current_chat_history (app s) ++ [{| role := ROLE_AI; parts := [reply] |}]
  /\ is_processing (app s') = false
  /\ current_chat_session (app s') = current_chat_session (app s)
  /\ selected_doc_basename (app s') = selected_doc_basename (app s)
  /\ is_ai_configured (app s') = is_ai_configured (app s)
  /\ uploaded_files (app s') = uploaded_files (app s).
Proof.
  intros Hw. cbv zeta.
  unfold exec, reply_arrives, deliver, _handle_ai_result, _on_thread_finished,
    update_status.
  sym. repeat (progress (rewrite ?Hw; sym)).
  repeat split; reflexivity.
Qed.

(** A user message in an idle state with a live session. *)
Lemma user_message_sent (session : ChatSession) (user_text : string) (s : St) :
  is_processing (app s) = false ->
  current_chat_session (app s) = Some session ->
  is_ai_configured (app s) = true ->
  let s' := exec (handle_user_message user_text) s in
  current_chat_history (app s')
  = current_chat_history (app s) ++ [{| role := ROLE_USER; parts := [user_text] |}]
  /\ is_processing (app s') = true
  /\ worker (app s')
     = Some (ChatWorker
               {| chat_session := Some session;
                  user_message_text := user_text;
                  doc_ref := match selected_doc_basename (app s) with
                             | Some b => PyDict.get b (uploaded_files (app s))
                             | None => None
                             end |})
  /\ current_chat_session (app s') = Some session
  /\ selected_doc_basename (app s') = selected_doc_basename (app s).
Proof.
  intros Hidle Hsession Hconf. cbv zeta.
  unfold exec, handle_user_message, _start_ai_chat_turn, update_status, start_thread.
  sym. repeat (progress (rewrite ?Hidle, ?Hsession, ?Hconf; sym)).
  repeat split; reflexivity.
Qed.

(** C6, as the code has it.  In an idle, configured state, selecting an
    uploaded document that is not the current selection starts a session
    (when [start_chat] succeeds) and sends the introductory turn; the
    introductory message itself is not recorded, so once its answer has
    arrived the history has one entry, the Model reply.  After the user's
    message and its answer the history has three entries, and the main
    window is idle with the same session. *)
Theorem chat_scenario_history (w : World) (gm : GenerativeModel)
    (b reply1 user_text reply2 : string) (s : St) :
  is_processing (app s) = false ->
  is_ai_configured (app s) = true ->
  model (app s) = Some gm ->
  model_start_chat w gm = Ok tt ->
  truthy (Some b) = true ->
  opt_str_eqb (Some b) (selected_doc_basename (app s)) = false ->
  PyDict.mem b (uploaded_files (app s)) = true ->
  chat_scenario_outcome w b reply1 user_text reply2 s.
Proof.
  intros Hidle Hconf Hmodel Hstart Hb Hsel Hup. unfold chat_scenario_outcome.
  cbv zeta.
  destruct (selection_starts_session w gm b s Hidle Hconf Hmodel Hstart Hb Hsel Hup)
    as (H1s & H1d & H1h & H1p & H1w & H1c & H1u).
  set (s1 := exec (handle_document_selection_change w b) s) in *.
  destruct (reply_appended w _ reply1 s1 H1w) as (H2h & H2p & H2s & H2d & H2c & H2u).
  set (s2 := exec (reply_arrives w reply1) s1) in *.
  rewrite H1h in H2h. rewrite H1s in H2s. rewrite H1c in H2c.
  destruct (user_message_sent _ user_text s2 H2p H2s H2c) as (H3h & H3p & H3w & H3s & H3d).
  set (s3 := exec (handle_user_message user_text) s2) in *.
  rewrite H2h in H3h. rewrite H2d, H1d, H2u, H1u in H3w.
  destruct (reply_appended w _ reply2 s3 H3w) as (H4h & H4p & H4s & H4d & _ & _).
  set (s4 := exec (reply_arrives w reply2) s3) in *.
  rewrite H3h in H4h. rewrite H3s in H4s. rewrite H3d, H2d, H1d in H4d.
  repeat split; assumption.
Qed.

Lemma chat_scenario_history_witness :
  chat_scenario_outcome lab "L1.pdf" "Welcome to lecture 1." "What is edge detection?"
    "A way to find boundaries." lab_uploaded.
Proof.
  apply (chat_scenario_history lab
           {| model_name := "gemini-1.5-flash-latest";
              generation_temperature := DEFAULT_TEMPERATURE |});
    vm_compute; reflexivity.
Defined.

(** C6 as stated fails: in the scenario run in [lab] the history has one
    entry after the introductory turn and three after the user's turn. *)
Lemma scenario_history_is_one_then_three :
  ~ spec_scenario_lengths lab_chatting lab_answered.
Proof.
  intros [H _]. vm_compute in H. discriminate H.
Qed.

(** ** Saving and loading the configuration *)

Lemma no_percent_remove_escapes (s : string) :
  has_percent s = false -> remove_escapes s = s.
Proof.
  induction s as [|c s IH]; [reflexivity |].
  cbn [has_percent remove_escapes]. intros H. apply orb_false_iff in H. destruct H as [Hc Hs].
  rewrite Hc, (IH Hs). reflexivity.
Qed.

Lemma no_percent_remove_keys (s : string) :
  has_percent s = false -> remove_keys 0 s = s.
Proof.
  induction s as [|c s IH]; [reflexivity |].
  cbn [has_percent remove_keys]. intros H. apply orb_false_iff in H. destruct H as [Hc Hs].
  rewrite Hc, (IH Hs). reflexivity.
Qed.

Lemma no_percent_before_set_ok (s : string) :
  has_percent s = false -> before_set_ok s = true.
Proof.
  intros H. unfold before_set_ok.
  rewrite (no_percent_remove_escapes s H), (no_percent_remove_keys s H), H. reflexivity.
Qed.

Lemma no_percent_interpolate (depth : nat) (section : dict string) (s : string) :
  has_percent s = false -> interpolate (S depth) section s = Some s.
Proof.
  cbn [interpolate].
  induction s as [|c s IH]; [reflexivity |].
  cbn [has_percent]. intros H. apply orb_false_iff in H. destruct H as [Hc Hs].
  rewrite Hc. rewrite (IH Hs). reflexivity.
Qed.

(** A text that the file gives back as it is: printable ASCII characters,
    no [%], no blank at either end. *)
Lemma clean_text (w : World) (section : dict string) (option_name s : string) :
  clean s = true ->
  before_set_ok s = true
  /\ (PyDict.get option_name section = Some (strip s) -> got w section option_name = Present s).
Proof.
  unfold clean. intros H.
  apply andb_true_iff in H. destruct H as [H Hstrip].
  apply andb_true_iff in H. destruct H as [_ Hpercent].
  apply negb_true_iff in Hpercent. apply String.eqb_eq in Hstrip.
  split; [apply no_percent_before_set_ok, Hpercent |].
  intros Hget. unfold got. rewrite Hget, Hstrip.
  unfold MAX_INTERPOLATION_DEPTH. rewrite (no_percent_interpolate _ _ _ Hpercent).
  reflexivity.
Qed.

Lemma clean_plain (s : string) : clean s = true -> plain s = true.
Proof.
  unfold clean. intros H.
  apply andb_true_iff in H. destruct H as [H _].
  apply andb_true_iff in H. destruct H as [H _]. exact H.
Qed.

Lemma all_clean_accepted (v : IniValues) :
  all_clean v = true ->
  rejected_value v = None
  /\ forall w, written w v
               = Ini {| ini_APIKey := Present (val_APIKey v);
                        ini_Model := Present (val_Model v);
                        ini_Language := Present (val_Language v);
                        ini_Temperature := Present (val_Temperature v);
                        ini_LocalPaths := Present (val_LocalPaths v) |}.
Proof.
  unfold all_clean. cbn [forallb]. intros H.
  apply andb_true_iff in H. destruct H as [H1 H].
  apply andb_true_iff in H. destruct H as [H2 H].
  apply andb_true_iff in H. destruct H as [H3 H].
  apply andb_true_iff in H. destruct H as [H4 H].
  apply andb_true_iff in H. destruct H as [H5 _].
  split.
  - unfold rejected_value. cbn [find].
    rewrite (proj1 (clean_text lab [] "" _ H1)), (proj1 (clean_text lab [] "" _ H2)),
            (proj1 (clean_text lab [] "" _ H3)), (proj1 (clean_text lab [] "" _ H4)),
            (proj1 (clean_text lab [] "" _ H5)).
    reflexivity.
  - intros w. unfold written, all_plain. cbn [forallb].
    rewrite (clean_plain _ H1), (clean_plain _ H2), (clean_plain _ H3),
            (clean_plain _ H4), (clean_plain _ H5).
    cbn [andb].
    rewrite (proj2 (clean_text w (settings_section v) "apikey" _ H1) eq_refl),
            (proj2 (clean_text w (settings_section v) "model" _ H2) eq_refl),
            (proj2 (clean_text w (settings_section v) "language" _ H3) eq_refl),
            (proj2 (clean_text w (settings_section v) "temperature" _ H4) eq_refl),
            (proj2 (clean_text w (files_section v) "localpaths" _ H5) eq_refl).
    reflexivity.
Qed.

Lemma save_config_ok (w : World) (s : St) :
  refused w (app s) = None ->
  config_write_error w = None ->
  save_config w s
  = (Ok true, {| app := set_disk (written w (values_of w (app s))) (app s);
                 log := log s ++ [(write_config (values_of w (app s)), app s)] |}).
Proof. intros Hset H. unfold save_config, bind, get. rewrite Hset, H. reflexivity. Qed.

Lemma save_config_refused (w : World) (s : St) (value : string) :
  refused w (app s) = Some value ->
  exists e, save_config w s = (Raise e, s) /\ exn_class e = ValueError.
Proof.
  intros Hset. unfold save_config, bind, get. rewrite Hset.
  eexists. split; reflexivity.
Qed.




(** Outside the clean values the round trip changes a field or fails, here
    in [lab] for the model name: [%%] comes back as [%], a reference
    [%(language)s] as the language, blanks at the ends are gone, a lone [%]
    makes [save_config] raise before it writes anything, and a reference to
    an option that does not exist makes [load_config] fall back to the
    defaults for every field. *)
Example round_trip_of_other_texts :
  saved_and_loaded lab (with_model "a%%b" lab_ready) = Some (Some "a%b")
  /\ saved_and_loaded lab (with_model "%(language)s" lab_ready) = Some (Some "Finnish")
  /\ saved_and_loaded lab (with_model " gemini-pro " lab_ready) = Some (Some "gemini-pro")
  /\ saved_and_loaded lab (with_model "100%" lab_ready) = None
  /\ calls (exec (save_config lab) (with_model "100%" lab_ready)) = calls lab_ready
  /\ saved_and_loaded lab (with_model "%(project)s" lab_ready) = Some (Some DEFAULT_MODEL)
  /\ cfg_api_key (config (app (exec (save_config lab ;; load_config lab)
                                    (with_model "%(project)s" lab_ready)))) = Some "".
Proof. do 6 (split; [vm_compute; reflexivity |]). vm_compute. reflexivity. Qed.

(** ** Adding files *)

Lemma preserves_elim {A : Type} (P : St -> Prop) (m : M A) (s : St) :
  preserves P m -> P s -> P (exec m s).
Proof. intros H. apply H. Qed.

Lemma stable_called (f : Call -> bool) : stable (called f).
Proof.
  constructor; intros; intros s H; try exact H.
  unfold called, calls, exec, call in *. cbn [snd log].
  rewrite map_app, existsb_app, H. reflexivity.
Qed.

Lemma stable_local_is (l : dict string) : stable (local_is l).
Proof. constructor; intros; intros s H; exact H. Qed.

#[local] Hint Resolve stable_called stable_local_is : keep.

Lemma length_set_new {V : Type} (k : string) (v : V) (d : dict V) :
  PyDict.mem k d = false -> length (PyDict.set k v d) = S (length d).
Proof.
  unfold PyDict.mem. induction d as [|[k0 v0] d IH]; simpl; intros H.
  - reflexivity.
  - destruct (k =? k0)%string; [discriminate H |].
    simpl. rewrite IH; [reflexivity | exact H].
Qed.

Lemma added_paths_keeps (w : World) (paths : list string) :
  forall local k p,
    PyDict.get k local = Some p -> PyDict.get k (added_paths w paths local) = Some p.
Proof.
  induction paths as [|path rest IH]; intros local k p H; simpl.
  - exact H.
  - destruct (os_path_exists w path && negb (PyDict.mem (os_path_basename w path) local))
      eqn:Hc; [ | apply IH, H ].
    apply IH. rewrite get_set.
    destruct (String.eqb_spec k (os_path_basename w path)) as [Heq|Hne]; [ | exact H ].
    apply andb_true_iff in Hc. destruct Hc as [_ Hc].
    apply negb_true_iff in Hc. unfold PyDict.mem in Hc.
    rewrite <- Heq, H in Hc. discriminate Hc.
Qed.

Lemma added_paths_mem (w : World) (paths : list string) (local : dict string) (k : string) :
  PyDict.mem k local = true -> PyDict.mem k (added_paths w paths local) = true.
Proof.
  unfold PyDict.mem. intros H.
  destruct (PyDict.get k local) as [p|] eqn:Hget; [ | discriminate H ].
  rewrite (added_paths_keeps w paths local k p Hget). reflexivity.
Qed.

Lemma added_paths_all (w : World) (paths : list string) :
  forall local path,
    In path paths -> os_path_exists w path = true ->
    PyDict.mem (os_path_basename w path) (added_paths w paths local) = true.
Proof.
  induction paths as [|path0 rest IH]; intros local path Hin Hex; simpl.
  - destruct Hin.
  - destruct Hin as [Heq|Hin]; [subst path0 | ].
    + rewrite Hex. cbn [andb].
      destruct (PyDict.mem (os_path_basename w path) local) eqn:Hmem; cbn [negb].
      * apply added_paths_mem, Hmem.
      * apply added_paths_mem. rewrite mem_set, String.eqb_refl. reflexivity.
    + destruct (os_path_exists w path0 && _); apply IH; assumption.
Qed.

Lemma added_paths_from (w : World) (paths : list string) :
  forall local k p,
    PyDict.get k (added_paths w paths local) = Some p ->
    PyDict.get k local = Some p
    \/ (In p paths /\ os_path_exists w p = true /\ os_path_basename w p = k).
Proof.
  induction paths as [|path rest IH]; intros local k p H; simpl in H.
  - left. exact H.
  - destruct (os_path_exists w path && negb (PyDict.mem (os_path_basename w path) local))
      eqn:Hc.
    + apply andb_true_iff in Hc. destruct Hc as [Hex _].
      destruct (IH _ _ _ H) as [Hget|(Hin & Hex' & Hbase)].
      * rewrite get_set in Hget.
        destruct (String.eqb_spec k (os_path_basename w path)) as [Heq|Hne].
        -- right. injection Hget as <-. repeat split; [left; reflexivity | exact Hex | ].
           symmetry. exact Heq.
        -- left. exact Hget.
      * right. repeat split; [right; exact Hin | exact Hex' | exact Hbase].
    + destruct (IH _ _ _ H) as [Hget|(Hin & Hex' & Hbase)].
      * left. exact Hget.
      * right. repeat split; [right; exact Hin | exact Hex' | exact Hbase].
Qed.

Lemma add_file_missing (w : World) (path : string) (added : nat) (s : St) :
  os_path_exists w path = false ->
  add_file w path added s
  = (added, {| app := app s;
               log := log s ++ [(QMessageBox_warning "File Not Found"
                                   ("Skipping missing file: " +++ path), app s)] |}).
Proof. intros H. unfold add_file. rewrite H. reflexivity. Qed.

Lemma add_file_duplicate (w : World) (path : string) (added : nat) (s : St) :
  os_path_exists w path = true ->
  PyDict.mem (os_path_basename w path) (local_file_paths (app s)) = true ->
  add_file w path added s
  = (added, {| app := app s;
               log := log s ++ [(QMessageBox_warning "Duplicate File"
                                   ("'" +++ os_path_basename w path
                                    +++ "' is already in the list."), app s)] |}).
Proof.
  intros H Hmem. unfold add_file. rewrite H. cbn [negb].
  unfold bind, get. rewrite Hmem. reflexivity.
Qed.

Lemma add_file_new (w : World) (path : string) (added : nat) (s : St) :
  os_path_exists w path = true ->
  PyDict.mem (os_path_basename w path) (local_file_paths (app s)) = false ->
  add_file w path added s
  = (S added,
     {| app := set_local_file_paths
                 (PyDict.set (os_path_basename w path) path (local_file_paths (app s)))
                 (app s);
        log := log s |}).
Proof.
  intros H Hmem. unfold add_file. rewrite H. cbn [negb].
  unfold bind, get. rewrite Hmem. reflexivity.
Qed.

(** The loop of [add_files]: the map it builds, its count, and its calls. *)
Lemma add_file_loop (w : World) (paths : list string) :
  forall s added,
    let r := for_each paths added (add_file w) s in
    local_file_paths (app (snd r)) = added_paths w paths (local_file_paths (app s))
    /\ fst r + length (local_file_paths (app s))
       = added + length (local_file_paths (app (snd r)))
    /\ existsb is_write_config (calls (snd r)) = existsb is_write_config (calls s)
    /\ existsb is_ui_refresh (calls (snd r)) = existsb is_ui_refresh (calls s).
Proof.
  induction paths as [|path rest IH]; intros s added; cbv zeta.
  - cbn. repeat split; reflexivity.
  - cbn [for_each added_paths]. rewrite bind_run.
    destruct (os_path_exists w path) eqn:Hex; cbn [andb].
    + destruct (PyDict.mem (os_path_basename w path) (local_file_paths (app s))) eqn:Hmem;
        cbn [negb].
      * rewrite (add_file_duplicate w path added s Hex Hmem). cbn [fst snd].
        match goal with
        | |- context [for_each rest added (add_file w) ?s1] =>
          destruct (IH s1 added) as (H1 & H2 & H3 & H4)
        end.
        cbn [app] in H1, H2.
        unfold calls in H3, H4. cbn [log] in H3, H4.
        rewrite map_app, existsb_app in H3, H4. cbn in H3, H4.
        rewrite orb_false_r in H3, H4.
        repeat split; assumption.
      * rewrite (add_file_new w path added s Hex Hmem). cbn [fst snd].
        match goal with
        | |- context [for_each rest (S added) (add_file w) ?s1] =>
          destruct (IH s1 (S added)) as (H1 & H2 & H3 & H4)
        end.
        cbn [app local_file_paths set_local_file_paths] in H1, H2.
        rewrite (length_set_new _ _ _ Hmem) in H2.
        repeat split; try assumption. lia.
    + rewrite (add_file_missing w path added s Hex). cbn [fst snd].
      match goal with
      | |- context [for_each rest added (add_file w) ?s1] =>
        destruct (IH s1 added) as (H1 & H2 & H3 & H4)
      end.
      cbn [app] in H1, H2.
      unfold calls in H3, H4. cbn [log] in H3, H4.
      rewrite map_app, existsb_app in H3, H4. cbn in H3, H4.
      rewrite orb_false_r in H3, H4.
      repeat split; assumption.
Qed.

(** ** Removing the selected document *)

Lemma index_of_lt (x : string) (l : list string) (i : nat) :
  index_of x l = Some i -> i < length l.
Proof.
  revert i. induction l as [|y l IH]; intros i H; simpl in H.
  - discriminate H.
  - destruct (x =? y)%string.
    + injection H as <-. simpl. lia.
    + destruct (index_of x l) as [j|]; [ | discriminate H ].
      injection H as <-. simpl. specialize (IH j eq_refl). lia.
Qed.

(** [update_document_list] touches the selector only, logs nothing, and
    leaves a current item whenever there is one to select. *)
Lemma update_document_list_effect (w : World) (names : list string) (s : St) :
  let s' := exec (update_document_list w names) s in
  but_combo (app s') = but_combo (app s)
  /\ log s' = log s
  /\ (names <> [] -> currentIndex (doc_selector_combo (app s')) <> None).
Proof.
  cbv zeta.
  unfold exec, update_document_list, blockSignals, set_combo, setCurrentIndex, findText.
  unfold bind, get, modify, ret.
  cbn [fst snd app log doc_selector_combo set_doc_selector_combo items currentIndex
       signalsBlocked].
  destruct names as [|n rest].
  - cbn. repeat split; try reflexivity. intros H. exfalso. apply H. reflexivity.
  - destruct (index_of (currentText (doc_selector_combo (app s))) (n :: rest)) as [i|] eqn:Hi.
    + apply index_of_lt in Hi. apply Nat.ltb_lt in Hi.
      cbn [fst snd app log doc_selector_combo set_doc_selector_combo items currentIndex
           signalsBlocked].
      rewrite Hi.
      destruct (opt_nat_eqb (Some i) (Some 0));
        cbn; repeat split; try reflexivity; discriminate.
    + cbn. repeat split; try reflexivity; discriminate.
Qed.

Lemma chat_reset_but_combo (a a' : App) :
  but_combo a' = but_combo a -> chat_reset a -> chat_reset a'.
Proof.
  intros H (Hsel & Hses & Hhist).
  pose proof (f_equal selected_doc_basename H) as H1.
  pose proof (f_equal current_chat_session H) as H2.
  pose proof (f_equal current_chat_history H) as H3.
  cbn in H1, H2, H3. unfold chat_reset. rewrite H1, H2, H3. repeat split; assumption.
Qed.

Lemma reset_state_call (c : Call) : preserves reset_state (call c).
Proof.
  intros s [Hreset Hlog]. split; [exact Hreset |].
  unfold deletes_after_reset, exec, call. cbn [snd log].
  apply Forall_app. split; [exact Hlog |].
  constructor; [intros _; exact Hreset | constructor].
Qed.

Lemma reset_state_modify (f : App -> App) :
  (forall a, chat_reset a -> chat_reset (f a)) -> preserves reset_state (modify f).
Proof.
  intros Hf s [Hreset Hlog]. split; [apply Hf, Hreset | exact Hlog].
Qed.

#[local] Hint Resolve reset_state_call : keep.
#[local] Hint Extern 1 (preserves reset_state (modify _)) =>
  (apply reset_state_modify; let H := fresh in intros ? H; exact H) : keep.

Lemma reset_state_update_status (message : string) (is_error processing : bool) :
  preserves reset_state (update_status message is_error processing).
Proof. unfold update_status. keep. Qed.

Lemma reset_state_save_config (w : World) : preserves reset_state (save_config w).
Proof. unfold save_config. keep. Qed.

Lemma reset_state__attempt_backend_deletion (w : World) (l : list File) :
  preserves reset_state (_attempt_backend_deletion w l).
Proof. unfold _attempt_backend_deletion. keep. Qed.

Lemma reset_state__update_ui_state (w : World) :
  preserves reset_state (_update_ui_state w).
Proof.
  intros s HJ. unfold _update_ui_state.
  rewrite exec_bind. cbn [get fst snd]. rewrite exec_bind.
  match goal with
  | |- context [snd (call ?c s)] =>
    pose proof (reset_state_call c s HJ) as HJ1; unfold exec in HJ1;
    set (s1 := snd (call c s)) in *
  end.
  cbv beta zeta. rewrite exec_bind.
  destruct (update_document_list_effect w (PyDict.keys (uploaded_files (app s))) s1)
    as (Hbc & Hlog & Hidx).
  unfold exec in Hbc, Hlog, Hidx.
  set (s2 := snd (update_document_list w (PyDict.keys (uploaded_files (app s))) s1)) in *.
  assert (HJ2 : reset_state s2).
  { destruct HJ1 as [Hr Hl]. split.
    - apply (chat_reset_but_combo _ _ Hbc Hr).
    - unfold deletes_after_reset. rewrite Hlog. exact Hl. }
  cbv beta. rewrite exec_bind.
  match goal with
  | |- context [snd (call ?c s2)] =>
    pose proof (reset_state_call c s2 HJ2) as HJ3; unfold exec in HJ3;
    assert (Happ : app (snd (call c s2)) = app s2) by reflexivity;
    set (s3 := snd (call c s2)) in *
  end.
  cbv beta. rewrite exec_bind. cbn [get fst snd]. rewrite Happ.
  destruct HJ2 as [(Hsel & _) _]. rewrite Hsel. cbn [truthy andb].
  destruct (PyDict.keys (uploaded_files (app s))) as [|n rest]; [exact HJ3 |].
  destruct (currentIndex (doc_selector_combo (app s2))) eqn:Hcur; [exact HJ3 |].
  exfalso. apply Hidx; [discriminate | reflexivity].
Qed.

Lemma stable_uploaded_is (u : dict File) : stable (uploaded_is u).
Proof. constructor; intros; intros s H; exact H. Qed.
#[local] Hint Resolve stable_uploaded_is : keep.

Lemma remove_file_absent (b : string) (r : nat * list File) (s : St) :
  PyDict.mem b (local_file_paths (app s)) = false ->
  remove_file b r s = (r, s).
Proof. intros H. unfold remove_file, bind, get. rewrite H. reflexivity. Qed.

Lemma remove_file_uploaded (b : string) (f : File) (r : nat * list File) (s : St) :
  PyDict.mem b (local_file_paths (app s)) = true ->
  PyDict.get b (uploaded_files (app s)) = Some f ->
  remove_file b r s
  = ((S (fst r), snd r ++ [f]),
     {| app := set_uploaded_files (PyDict.del b (uploaded_files (app s)))
                 (set_local_file_paths (PyDict.del b (local_file_paths (app s))) (app s));
        log := log s |}).
Proof.
  intros H Hup. unfold remove_file, bind, get. rewrite H, Hup. reflexivity.
Qed.

Lemma remove_file_local_only (b : string) (r : nat * list File) (s : St) :
  PyDict.mem b (local_file_paths (app s)) = true ->
  PyDict.get b (uploaded_files (app s)) = None ->
  remove_file b r s
  = ((S (fst r), snd r),
     {| app := set_local_file_paths (PyDict.del b (local_file_paths (app s))) (app s);
        log := log s |}).
Proof.
  intros H Hup. unfold remove_file, bind, get. rewrite H, Hup. reflexivity.
Qed.

(** One step of the loop of [remove_files], on what matters here. *)
Lemma remove_file_step (n : string) (r : nat * list File) (s : St) :
  let res := remove_file n r s in
  log (snd res) = log s
  /\ but_files (app (snd res)) = but_files (app s)
  /\ (forall k, PyDict.mem k (local_file_paths (app (snd res)))
                = negb (n =? k)%string && PyDict.mem k (local_file_paths (app s)))
  /\ (forall k, PyDict.mem k (uploaded_files (app (snd res)))
                = negb ((n =? k)%string && PyDict.mem n (local_file_paths (app s)))
                  && PyDict.mem k (uploaded_files (app s)))
  /\ fst (fst res)
     = if PyDict.mem n (local_file_paths (app s)) then S (fst r) else fst r.
Proof.
  cbv zeta.
  destruct (PyDict.mem n (local_file_paths (app s))) eqn:Hmem.
  - destruct (PyDict.get n (uploaded_files (app s))) as [f|] eqn:Hup.
    + rewrite (remove_file_uploaded n f r s Hmem Hup).
      cbn [fst snd app log local_file_paths uploaded_files set_local_file_paths
           set_uploaded_files].
      repeat split; try reflexivity.
      * intros k. apply mem_del.
      * intros k. rewrite mem_del, andb_true_r. reflexivity.
    + rewrite (remove_file_local_only n r s Hmem Hup).
      cbn [fst snd app log local_file_paths uploaded_files set_local_file_paths].
      repeat split; try reflexivity.
      * intros k. apply mem_del.
      * intros k. rewrite andb_true_r.
        destruct (String.eqb_spec n k) as [<-|Hne]; [ | reflexivity ].
        cbn [negb andb]. apply mem_get_None, Hup.
  - rewrite (remove_file_absent n r s Hmem). cbn [fst snd].
    repeat split; try reflexivity.
    + intros k. destruct (String.eqb_spec n k) as [<-|Hne]; [ | reflexivity ].
      cbn [negb andb]. exact Hmem.
    + intros k. rewrite andb_false_r. reflexivity.
Qed.

(** The loop of [remove_files]: nothing is logged and nothing but the two
    maps changes; a listed basename is gone from the local map, and from the
    uploaded map if it was in the local one; the count is positive as soon
    as one listed basename was in the local map. *)
Lemma remove_file_loop (names : list string) :
  forall s r,
    let res := for_each names r remove_file s in
    log (snd res) = log s
    /\ but_files (app (snd res)) = but_files (app s)
    /\ (forall k, str_in k names = true ->
                  PyDict.mem k (local_file_paths (app (snd res))) = false)
    /\ (forall k, str_in k names = true ->
                  PyDict.mem k (local_file_paths (app s)) = true ->
                  PyDict.mem k (uploaded_files (app (snd res))) = false
                  /\ fst r < fst (fst res))
    /\ (forall k, PyDict.mem k (local_file_paths (app s)) = false ->
                  PyDict.mem k (local_file_paths (app (snd res))) = false)
    /\ (forall k, PyDict.mem k (uploaded_files (app s)) = false ->
                  PyDict.mem k (uploaded_files (app (snd res))) = false)
    /\ fst r <= fst (fst res).
Proof.
  induction names as [|n rest IH]; intros s r; cbv zeta.
  - cbn. repeat split; try reflexivity; try discriminate; auto.
  - cbn [for_each]. rewrite bind_run.
    destruct (remove_file_step n r s) as (Hlog & Hbut & Hloc & Hup & Hcount).
    destruct (IH (snd (remove_file n r s)) (fst (remove_file n r s)))
      as (IHlog & IHbut & IHgone & IHup & IHloc & IHupk & IHcount).
    cbv zeta in Hlog, Hbut, Hloc, Hup, Hcount, IHlog, IHbut, IHgone, IHup, IHloc, IHupk,
      IHcount.
    set (res1 := remove_file n r s) in *.
    set (res := for_each rest (fst res1) remove_file (snd res1)) in *.
    assert (Hle : fst r <= fst (fst res1))
      by (rewrite Hcount; destruct (PyDict.mem n _); lia).
    repeat split.
    + rewrite IHlog. exact Hlog.
    + rewrite IHbut. exact Hbut.
    + intros k Hk. cbn [str_in existsb] in Hk.
      destruct (String.eqb_spec k n) as [Heq|Hne]; [subst k | ].
      { apply IHloc. rewrite Hloc, String.eqb_refl. reflexivity. }
      cbn [orb] in Hk. apply IHgone. exact Hk.
    + cbn [str_in existsb] in H.
      destruct (String.eqb_spec k n) as [Heq|Hne]; [subst k | ].
      { apply IHupk. rewrite Hup, String.eqb_refl, H0. reflexivity. }
      cbn [orb] in H. apply IHup; [exact H |].
      rewrite Hloc. destruct (String.eqb_spec n k); [congruence |].
      cbn [negb andb]. exact H0.
    + cbn [str_in existsb] in H.
      destruct (String.eqb_spec k n) as [Heq|Hne]; [subst k | ].
      { rewrite H0 in Hcount. lia. }
      cbn [orb] in H.
      assert (Hk1 : PyDict.mem k (local_file_paths (app (snd res1))) = true).
      { rewrite Hloc. destruct (String.eqb_spec n k); [congruence |].
        cbn [negb andb]. exact H0. }
      destruct (IHup k H Hk1) as [_ Hlt]. lia.
    + intros k Hk. apply IHloc. rewrite Hloc, Hk. apply andb_false_r.
    + intros k Hk. apply IHupk. rewrite Hup, Hk. apply andb_false_r.
    + lia.
Qed.

#[local] Hint Resolve reset_state_update_status reset_state_save_config
  reset_state__attempt_backend_deletion reset_state__update_ui_state : keep.

Lemma remove_files_resets (w : World) (names : list string) (a : App) (b : string) :
  is_processing a = false ->
  selected_doc_basename a = Some b ->
  PyDict.mem b (local_file_paths a) = true ->
  str_in b names = true ->
  let s' := exec (remove_files w names) (start a) in
  reset_state s'
  /\ PyDict.mem b (local_file_paths (app s')) = false
  /\ PyDict.mem b (uploaded_files (app s')) = false.
Proof.
  intros Hidle Hsel Hmem Hin. cbv zeta.
  unfold remove_files. rewrite exec_bind. cbn [get fst snd start app]. rewrite Hidle.
  rewrite exec_bind.
  destruct (remove_file_loop names (start a) (0, []))
    as (Hlog & Hbut & Hgone & Hup & _ & _ & _).
  cbv zeta in Hlog, Hbut, Hgone, Hup.
  set (res := for_each names (0, []) remove_file (start a)) in *.
  destruct (Hup b Hin Hmem) as [Hupb Hpos]. cbn [fst] in Hpos.
  apply Nat.ltb_lt in Hpos. cbv beta zeta. rewrite Hpos.
  split; [ | split ].
  - unfold files_removed. rewrite exec_bind. cbn [get fst snd].
    assert (Hsel' : selected_doc_basename (app (snd res)) = Some b).
    { pose proof (f_equal selected_doc_basename Hbut) as H. cbn in H.
      rewrite H. exact Hsel. }
    rewrite Hsel', Hin. rewrite exec_bind.
    apply (preserves_elim reset_state); [keep |].
    unfold reset_state, chat_reset, deletes_after_reset, bind, modify, call.
    cbn. rewrite Hlog. cbn.
    repeat split; try reflexivity.
    constructor; [intros H; discriminate H | constructor].
  - assert (Hl : local_is (local_file_paths (app (snd res)))
                   (exec (files_removed w names (fst (fst res)) (snd (fst res))) (snd res))).
    { apply preserves_elim; [unfold files_removed; keep | reflexivity]. }
    unfold local_is in Hl. rewrite Hl. apply Hgone, Hin.
  - assert (Hu : uploaded_is (uploaded_files (app (snd res)))
                   (exec (files_removed w names (fst (fst res)) (snd (fst res))) (snd res))).
    { apply preserves_elim; [unfold files_removed; keep | reflexivity]. }
    unfold uploaded_is in Hu. rewrite Hu. exact Hupb.
Qed.

Lemma clear_all_files_resets (w : World) (a : App) :
  is_processing a = false ->
  local_file_paths a <> [] ->
  let s' := exec (clear_all_files w) (start a) in
  reset_state s' /\ local_file_paths (app s') = [] /\ uploaded_files (app s') = [].
Proof.
  intros Hidle Hfiles. cbv zeta.
  unfold clear_all_files. rewrite exec_bind. cbn [get fst snd start app]. rewrite Hidle.
  destruct (local_file_paths a) as [|entry rest]; [contradiction |].
  cbv zeta. do 6 rewrite exec_bind.
  split; [ | split ].
  - apply (preserves_elim reset_state); [keep |].
    unfold reset_state, chat_reset, deletes_after_reset, modify, call. cbn.
    repeat split; try reflexivity.
    constructor; [intros H; discriminate H | constructor].
  - apply (preserves_elim (local_is [])); [keep | reflexivity].
  - apply (preserves_elim (uploaded_is [])); [keep | reflexivity].
Qed.

(** C3. In an idle state whose selected document [b] is in the local list,
    [remove_files] with [b] among the names, and [clear_all_files], leave no
    selection, no session and an empty history, and every call to
    [genai.delete_file] they make is made from a state in which that was
    already so.  This holds in every world, so also when the backend refuses
    the deletions: [b] stays removed from both maps. *)
Theorem removal_resets_chat_before_deletion (w : World) (a : App) (b : string) :
  is_processing a = false ->
  selected_doc_basename a = Some b ->
  PyDict.mem b (local_file_paths a) = true ->
  (forall names, str_in b names = true ->
     let s' := exec (remove_files w names) (start a) in
     deletes_after_reset s' /\ chat_reset (app s')
     /\ PyDict.mem b (local_file_paths (app s')) = false
     /\ PyDict.mem b (uploaded_files (app s')) = false)
  /\ (let s' := exec (clear_all_files w) (start a) in
      deletes_after_reset s' /\ chat_reset (app s')
      /\ local_file_paths (app s') = [] /\ uploaded_files (app s') = []).
Proof.
  intros Hidle Hsel Hmem. split.
  - intros names Hin.
    destruct (remove_files_resets w names a b Hidle Hsel Hmem Hin)
      as ([Hreset Hlog] & Hlocal & Hup).
    cbv zeta. repeat split; try assumption; apply Hreset.
  - assert (Hfiles : local_file_paths a <> []).
    { intros Hnil. rewrite Hnil in Hmem. discriminate Hmem. }
    destruct (clear_all_files_resets w a Hidle Hfiles) as ([Hreset Hlog] & Hlocal & Hup).
    cbv zeta. repeat split; try assumption; apply Hreset.
Qed.

Lemma removal_resets_chat_before_deletion_witness :
  (* the backend refuses the deletion, and the deletion was attempted *)
  filter is_delete_call
    (calls (exec (remove_files lab_no_delete ["L1.pdf"]) (start (app lab_chatting))))
  = [call_delete_file "files/L1.pdf"]
  /\ current_chat_session (app lab_chatting) = Some 0
  /\ (forall names, str_in "L1.pdf" names = true ->
        let s' := exec (remove_files lab_no_delete names) (start (app lab_chatting)) in
        deletes_after_reset s' /\ chat_reset (app s')
        /\ PyDict.mem "L1.pdf" (local_file_paths (app s')) = false
        /\ PyDict.mem "L1.pdf" (uploaded_files (app s')) = false)
  /\ (let s' := exec (clear_all_files lab_no_delete) (start (app lab_chatting)) in
      deletes_after_reset s' /\ chat_reset (app s')
      /\ local_file_paths (app s') = [] /\ uploaded_files (app s') = []).
Proof.
  split; [vm_compute; reflexivity |].
  split; [vm_compute; reflexivity |].
  apply (removal_resets_chat_before_deletion lab_no_delete (app lab_chatting) "L1.pdf");
    vm_compute; reflexivity.
Defined.

(** ** Changing the key or the model *)

Lemma stable_session_fresh (n0 : nat) : stable (session_fresh n0).
Proof.
  constructor; intros; intros s [Hc Hs]; try (split; [exact Hc | exact Hs]).
  - split; [exact Hc |]. intros n H. discriminate H.
  - split; cbn.
    + lia.
    + intros n H. injection H as <-. exact Hc.
Qed.

Lemma stable_logged (c : Call) (Q : App -> Prop) : stable (logged c Q).
Proof.
  constructor; intros; intros s (a & Hin & HQ); try (exists a; split; [exact Hin | exact HQ]).
  exists a. split; [ | exact HQ ].
  unfold exec, call. cbn [snd log]. apply in_or_app. left. exact Hin.
Qed.

#[local] Hint Resolve stable_session_fresh stable_logged : keep.


(** [initialize_ai] with the library present and a key and a model set:
    [genai.configure] is called with no session left, and afterwards there
    is no session or a newly created one. *)
Lemma initialize_ai_discards (w : World) (s : St) :
  gemini_imported w = true ->
  truthy (cfg_api_key (config (app s))) = true ->
  truthy (cfg_model (config (app s))) = true ->
  let s' := exec (initialize_ai w) s in
  session_fresh (sessions_created (app s)) s'
  /\ logged (call_configure (str_opt (cfg_api_key (config (app s)))))
            (fun a => current_chat_session a = None) s'.
Proof.
  intros Hlib Hkey Hmodel. cbv zeta.
  unfold initialize_ai. rewrite Hlib. cbn [negb].
  rewrite exec_bind. cbn [get fst snd]. rewrite Hkey, Hmodel. cbn [negb orb].
  cbv zeta. do 5 rewrite exec_bind.
  split.
  - apply (preserves_elim (session_fresh (sessions_created (app s)))); [keep |].
    split; cbn.
    + lia.
    + intros n H. discriminate H.
  - apply (preserves_elim
             (logged (call_configure (str_opt (cfg_api_key (config (app s)))))
                     (fun a => current_chat_session a = None))); [keep |].
    eexists. split.
    + unfold update_status, bind, modify, call. cbn [fst snd log app].
      apply in_or_app. right. left. reflexivity.
    + reflexivity.
Qed.

(** C5, as the code has it.  Settings applied while idle, with a key or a
    model that differs from the current one: if the config file is written
    ([configparser] takes the values and the write goes through), the
    library is present, and the resulting key and model are both non-empty,
    then [initialize_ai] runs, [genai.configure] is called with the session
    already set to [None], and afterwards [current_chat_session] is [None]
    or a session created during this operation. *)
Theorem settings_change_discards_session (w : World) (settings : Config) (s : St) :
  is_processing (app s) = false ->
  opt_str_eqb (cfg_api_key settings) (cfg_api_key (config (app s))) = false
  \/ opt_str_eqb (cfg_model settings) (cfg_model (config (app s))) = false ->
  refused w (set_config (config_update (config (app s)) settings) (app s)) = None ->
  config_write_error w = None ->
  gemini_imported w = true ->
  truthy (cfg_api_key (config_update (config (app s)) settings)) = true ->
  truthy (cfg_model (config_update (config (app s)) settings)) = true ->
  let s' := exec (apply_and_save_settings w settings) s in
  logged (call_configure (str_opt (cfg_api_key (config_update (config (app s)) settings))))
         (fun a => current_chat_session a = None) s'
  /\ (forall n, current_chat_session (app s') = Some n -> sessions_created (app s) <= n).
Proof.
  intros Hidle Hchanged Htaken Hwrite Hlib Hkey Hmodel. cbv zeta.
  unfold apply_and_save_settings.
  rewrite exec_bind. cbn [get fst snd]. rewrite Hidle.
  cbv zeta. rewrite exec_bind. unfold or_leave. rewrite exec_bind.
  rewrite (save_config_ok w
             (snd (modify (set_config (config_update (config (app s)) settings)) s))
             Htaken Hwrite).
  cbn [fst snd]. rewrite exec_bind.
  assert (Hc : negb (opt_str_eqb (cfg_api_key settings) (cfg_api_key (config (app s))))
               || negb (opt_str_eqb (cfg_model settings) (cfg_model (config (app s))))
               = true).
  { destruct Hchanged as [H|H]; rewrite H; cbn [negb orb];
      [reflexivity | apply orb_true_r]. }
  rewrite Hc. do 2 rewrite exec_bind.
  match goal with
  | |- context [initialize_ai w ?s4] =>
    destruct (initialize_ai_discards w s4 Hlib Hkey Hmodel) as [[_ Hfresh] Hlog]
  end.
  split; [exact Hlog | exact Hfresh].
Qed.

Lemma settings_change_discards_session_witness :
  (* the session of the chat in progress, and the one after the change *)
  current_chat_session (app lab_chatting) = Some 0
  /\ current_chat_session (app (exec (apply_and_save_settings lab lab_key_changed)
                                     lab_chatting)) = Some 1
  /\ (let s' := exec (apply_and_save_settings lab lab_key_changed) lab_chatting in
      logged (call_configure
                (str_opt (cfg_api_key (config_update (config (app lab_chatting))
                                                     lab_key_changed))))
             (fun a => current_chat_session a = None) s'
      /\ (forall n, current_chat_session (app s') = Some n ->
                    sessions_created (app lab_chatting) <= n)).
Proof.
  split; [vm_compute; reflexivity |].
  split; [vm_compute; reflexivity |].
  apply (settings_change_discards_session lab lab_key_changed lab_chatting);
    try (vm_compute; reflexivity).
  left. vm_compute. reflexivity.
Defined.

(** C5 as stated fails: when the new API key is empty, [initialize_ai]
    returns before it touches the session, and the session of the chat in
    progress stays. *)
Lemma cleared_key_keeps_session :
  ~ spec_settings_change_invalidates lab lab_key_cleared lab_chatting.
Proof.
  intros H.
  assert (Hidle : is_processing (app lab_chatting) = false) by (vm_compute; reflexivity).
  assert (Hchanged :
    opt_str_eqb (cfg_api_key lab_key_cleared) (cfg_api_key (config (app lab_chatting)))
    = false) by (vm_compute; reflexivity).
  specialize (H Hidle (or_introl Hchanged)).
  vm_compute in H. discriminate H.
Qed.

(** ** A [finished] signal carries every file of the batch *)

(** The run ended with the events it had when it saw the stop. *)
Ltac same_trace H Hrun :=
  let E := fresh in
  pose proof (f_equal (fun x => fst (fst x)) H) as E; cbn [fst] in E;
  rewrite <- E in Hrun.

Ltac stopped :=
  match goal with
  | H1 : is_running ?s ?t = false, H2 : is_running ?s ?t = true |- _ =>
    rewrite H1 in H2; discriminate H2
  end.

Lemma wait_loop_break (w : World) (stop : StopPoint) (fuel : nat) :
  forall filename start_time wait_time uploaded_file refs tr tr' refs',
    wait_loop w stop fuel filename start_time wait_time uploaded_file refs tr
    = (tr', refs', PollBreak) ->
    is_running stop tr' = true ->
    exists f, refs' = refs ++ [f] /\ state_name f = "ACTIVE".
Proof.
  induction fuel as [|fuel IH];
    intros filename start_time wait_time uploaded_file refs tr tr' refs' H Hrun.
  - discriminate H.
  - cbn [wait_loop] in H. unfold wait_round at 1 in H. cbv zeta in H.
    destruct (Z.ltb _ _); [ | discriminate H ].
    destruct (is_running stop tr) eqn:Hr; cbn [negb] in H.
    2:{ same_trace H Hrun. stopped. }
    destruct (genai_get_file w _ _) as [f|e]; [ | exact (IH _ _ _ _ _ _ _ _ H Hrun) ].
    destruct (String.eqb_spec (state_name f) "ACTIVE") as [Hactive|_].
    { injection H as <- <-. exists f. split; [reflexivity | exact Hactive]. }
    destruct (state_name f =? "FAILED")%string; [discriminate H |].
    destruct (state_name f =? "PROCESSING")%string; [ | discriminate H ].
    destruct (is_running stop (block w (get_file (name uploaded_file)) 0 tr)) eqn:Hr1;
      cbn [negb] in H.
    2:{ same_trace H Hrun. stopped. }
    exact (IH _ _ _ _ _ _ _ _ H Hrun).
Qed.

Lemma upload_loop_end (w : World) (stop : StopPoint) (self : PDFUploadWorker)
    (paths : list string) :
  forall i refs tr tr' refs',
    upload_loop w stop self i paths refs tr = (tr', refs', LoopEnd) ->
    is_running stop tr' = true ->
    length refs' = length refs + length paths.
Proof.
  induction paths as [|file_path rest IH]; intros i refs tr tr' refs' H Hrun;
    cbn [upload_loop] in H.
  - injection H as <- <-. simpl. lia.
  - cbv zeta in H.
    destruct (is_running stop tr) eqn:Hr; cbn [negb] in H.
    2:{ same_trace H Hrun. stopped. }
    destruct (nth_error (basenames self) i) as [filename|]; [ | discriminate H ].
    destruct (negb (os_path_exists w file_path)); [discriminate H |].
    destruct (genai_upload_file w file_path filename (guess_mime w file_path))
      as [uploaded_file|e]; [ | discriminate H ].
    match type of H with
    | context [negb (is_running stop ?t)] => destruct (is_running stop t) eqn:Hr1
    end; cbn [negb] in H.
    2:{ same_trace H Hrun. stopped. }
    match type of H with
    | context [wait_loop w stop WAIT_FUEL ?f ?st ?wt ?uf ?rf ?t] =>
      pose proof (wait_loop_break w stop WAIT_FUEL f st wt uf rf t) as Hbreak;
      destruct (wait_loop w stop WAIT_FUEL f st wt uf rf t) as [[tr1 refs1] o]
    end.
    destruct o; try discriminate H.
    destruct (is_running stop tr1) eqn:Hr2; cbn [negb] in H.
    2:{ same_trace H Hrun. stopped. }
    destruct (Hbreak tr1 refs1 eq_refl Hr2) as (f & -> & _).
    rewrite (IH _ _ _ _ _ H Hrun). rewrite length_app. simpl. lia.
Qed.

Lemma in_signals_quiet (sg : Signal) (tr : list WEvent) :
  no_completion tr -> In sg (signals tr) -> is_completion sg = false.
Proof.
  unfold no_completion, signals. rewrite Forall_forall. intros H Hin.
  apply in_flat_map in Hin. destruct Hin as (e & He & Hsg).
  specialize (H e He). destruct e as [c d|sg']; [destruct Hsg |].
  destruct Hsg as [<-|[]]. exact H.
Qed.

Lemma signals_emit (sg : Signal) (tr : list WEvent) :
  signals (emit sg tr) = signals tr ++ [sg].
Proof. unfold signals, emit. rewrite flat_map_app. reflexivity. Qed.

(** In any world, a [finished] signal of the upload worker carries one
    reference for every file it was given: the branch that would emit a
    partial list is never taken. *)
Lemma finished_is_complete (w : World) (stop : StopPoint) (self : PDFUploadWorker)
    (tr : list WEvent) (refs : list File) :
  PDFUploadWorker_run w stop self = Some tr ->
  In (finished refs) (signals tr) ->
  length refs = length (file_paths self).
Proof.
  unfold PDFUploadWorker_run.
  destruct (negb (is_running stop [])).
  { intros H Hin. injection H as <-. cbn in Hin. destruct Hin as [Hin|[]]. discriminate Hin. }
  cbv zeta.
  assert (H0 : no_completion (block w (time_sleep 100) 100 []))
    by (apply no_completion_block; constructor).
  pose proof (upload_loop_no_completion w stop self (file_paths self) 0 [] _ H0) as Hq.
  pose proof (upload_loop_end w stop self (file_paths self) 0 []
                (block w (time_sleep 100) 100 [])) as Hend.
  destruct (upload_loop w stop self 0 (file_paths self) []
              (block w (time_sleep 100) 100 [])) as [[tr0 refs0] o].
  cbn [fst] in Hq.
  assert (Hlast : forall sg, In (finished refs) (signals (emit sg tr0)) -> sg = finished refs).
  { intros sg Hin. rewrite signals_emit in Hin. apply in_app_or in Hin.
    destruct Hin as [Hin|[Hin|[]]]; [ | exact Hin ].
    apply (in_signals_quiet _ _ Hq) in Hin. discriminate Hin. }
  destruct o.
  - destruct (is_running stop tr0) eqn:Hrun.
    + intros H Hin.
      assert (Htr : tr = emit (finished refs0) tr0)
        by (destruct (Nat.eqb _ _); injection H as <-; reflexivity).
      subst tr. apply Hlast in Hin. injection Hin as ->.
      apply (Hend tr0 refs eq_refl Hrun).
    + intros H Hin. injection H as <-.
      apply (in_signals_quiet _ _ Hq) in Hin. discriminate Hin.
  - intros H Hin. injection H as <-. apply Hlast in Hin. discriminate Hin.
  - intros H. discriminate H.
Qed.

(** ** The model at work in [lab] *)

Example posix_basename_example : posix_basename "/docs/L1.pdf" = "L1.pdf".
Proof. reflexivity. Qed.

(** The waits of the upload worker for a file that stays in PROCESSING:
    5, 7.5, 11.25 and then 15 s, until 120 s have passed. *)
Example wait_schedule :
  match PDFUploadWorker_run lab None
          {| file_paths := ["/docs/B.pdf"]; basenames := ["B.pdf"] |} with
  | Some tr =>
    flat_map (fun c => match c with time_sleep ms => [ms] | _ => [] end) (blocking_calls tr)
  | None => []
  end
  = [100; 5000; 7500; 11250; 15000; 15000; 15000; 15000; 15000; 15000; 15000]%Z.
Proof. vm_compute. reflexivity. Qed.

(** A missing path is skipped, a basename already listed is rejected and
    keeps its path, and the entry after them is still added. *)
Example add_files_example :
  let s' := exec (add_files lab ["/docs/missing.pdf"; "/old/L1.pdf"; "/docs/A.pdf"])
                 (start (app lab_added)) in
  local_file_paths (app s') = [("L1.pdf", "/docs/L1.pdf"); ("A.pdf", "/docs/A.pdf")]
  /\ filter (fun c => match c with QMessageBox_warning _ _ => true | _ => false end)
            (calls s')
     = [QMessageBox_warning "File Not Found" "Skipping missing file: /docs/missing.pdf";
        QMessageBox_warning "Duplicate File" "'L1.pdf' is already in the list."].
Proof. vm_compute. split; reflexivity. Qed.

(** When the upload of the only file completes, the selector already shows
    it, so setting its text emits no signal: no document is selected and no
    session starts until [handle_document_selection_change] is called. *)
Example upload_alone_starts_no_chat :
  uploaded_files (app lab_uploaded) = [("L1.pdf", lab_file "L1.pdf" "ACTIVE")]
  /\ currentText (doc_selector_combo (app lab_uploaded)) = "L1.pdf"
  /\ selected_doc_basename (app lab_uploaded) = None
  /\ current_chat_session (app lab_uploaded) = None.
Proof. vm_compute. repeat split; reflexivity. Qed.

(* ================================================================== *)
(** * Further properties *)

(** ** The polling of the upload worker is bounded *)

Lemma blocking_calls_block (w : World) (c : BlockingCall) (asked : Z) (tr : list WEvent) :
  blocking_calls (block w c asked tr) = blocking_calls tr ++ [c].
Proof. unfold blocking_calls, block. rewrite flat_map_app. reflexivity. Qed.

Lemma blocking_calls_emit (sg : Signal) (tr : list WEvent) :
  blocking_calls (emit sg tr) = blocking_calls tr.
Proof. unfold blocking_calls, emit. rewrite flat_map_app. cbn. apply app_nil_r. Qed.

Lemma polls_block (w : World) (c : BlockingCall) (asked : Z) (tr : list WEvent) :
  polls (block w c asked tr) = polls tr + (if is_get_file_call c then 1 else 0).
Proof.
  unfold polls. rewrite blocking_calls_block, filter_app, length_app. cbn.
  destruct (is_get_file_call c); reflexivity.
Qed.

Lemma polls_emit (sg : Signal) (tr : list WEvent) : polls (emit sg tr) = polls tr.
Proof. unfold polls. rewrite blocking_calls_emit. reflexivity. Qed.

Lemma wait_loop_polls (w : World) (stop : StopPoint) (fuel : nat) :
  forall k filename start_time wait_time uploaded_file refs tr,
    (5000 <= wait_time)%Z ->
    (max_wait - (clock tr - start_time) <= 5000 * Z.of_nat k)%Z ->
    polls (fst (fst (wait_loop w stop fuel filename start_time wait_time
                       uploaded_file refs tr)))
    <= polls tr + k.
Proof.
  induction fuel as [|fuel IH];
    intros k filename start_time wait_time uploaded_file refs tr Hwait Hleft.
  - cbn [wait_loop fst]. lia.
  - cbn [wait_loop]. unfold wait_round at 1, try_delete. cbv zeta.
    destruct (Z.ltb_spec (clock tr - start_time) max_wait) as [Hlt|Hge].
    2:{ cbn [fst]. rewrite polls_block. cbn. lia. }
    destruct k as [|k]; [exfalso; lia |].
    assert (Hnext : forall c,
      (max_wait - (clock (block w (time_sleep wait_time) wait_time (block w c 0 tr))
                   - start_time) <= 5000 * Z.of_nat k)%Z).
    { intros c.
      pose proof (clock_block w c 0 tr).
      pose proof (clock_block w (time_sleep wait_time) wait_time (block w c 0 tr)).
      lia. }
    assert (Hpolls : forall c', is_get_file_call c' = false ->
      polls (block w c' wait_time (block w (get_file (name uploaded_file)) 0 tr))
      = polls tr + 1).
    { intros c' Hc'. rewrite !polls_block, Hc'. cbn. lia. }
    destruct (negb (is_running stop tr)); [cbn [fst]; lia |].
    destruct (genai_get_file w (name uploaded_file) (calls_done tr)) as [f|e].
    + destruct (state_name f =? "ACTIVE")%string.
      { cbn [fst]. rewrite polls_emit, polls_block. cbn. lia. }
      destruct (state_name f =? "FAILED")%string.
      { cbn [fst]. rewrite !polls_block. cbn. lia. }
      destruct (state_name f =? "PROCESSING")%string.
      2:{ cbn [fst]. rewrite polls_block. cbn. lia. }
      destruct (negb (is_running stop _)).
      { cbn [fst]. rewrite polls_block. cbn. lia. }
      match goal with
      | |- polls (fst (fst (wait_loop w stop fuel ?f0 ?st ?wt ?uf ?rf ?t))) <= _ =>
        pose proof (IH k f0 st wt uf rf t) as Hrec
      end.
      rewrite (Hpolls (time_sleep wait_time) eq_refl) in Hrec.
      assert (7500 <= wait_time * 3 / 2)%Z
        by (apply Z.div_le_lower_bound; lia).
      specialize (Hrec ltac:(lia) (Hnext _)). lia.
    + match goal with
      | |- polls (fst (fst (wait_loop w stop fuel ?f0 ?st ?wt ?uf ?rf ?t))) <= _ =>
        pose proof (IH k f0 st wt uf rf t Hwait (Hnext _)) as Hrec
      end.
      rewrite (Hpolls (time_sleep wait_time) eq_refl) in Hrec. lia.
Qed.

Lemma upload_loop_polls (w : World) (stop : StopPoint) (self : PDFUploadWorker)
    (paths : list string) :
  forall i refs tr,
    polls (fst (fst (upload_loop w stop self i paths refs tr)))
    <= polls tr + 24 * length paths.
Proof.
  induction paths as [|file_path rest IH]; intros i refs tr; cbn [upload_loop].
  - cbn [fst]. lia.
  - cbv zeta. cbn [length].
    destruct (negb (is_running stop tr)); [cbn [fst]; lia |].
    destruct (nth_error (basenames self) i) as [filename|]; [ | cbn [fst]; lia ].
    destruct (negb (os_path_exists w file_path)).
    { cbn [fst]. rewrite polls_emit. lia. }
    destruct (genai_upload_file w file_path filename (guess_mime w file_path))
      as [uploaded_file|e].
    2:{ cbn [fst]. rewrite polls_block, polls_emit. cbn. lia. }
    destruct (negb (is_running stop _)).
    { cbn [fst]. rewrite polls_block, polls_emit. cbn. lia. }
    match goal with
    | |- context [wait_loop w stop WAIT_FUEL ?f ?st ?wt ?uf ?rf ?t] =>
      pose proof (wait_loop_polls w stop WAIT_FUEL 24 f st wt uf rf t) as Hw;
      assert (Ht : polls t = polls tr)
        by (rewrite polls_emit, polls_block, polls_emit; cbn; lia);
      destruct (wait_loop w stop WAIT_FUEL f st wt uf rf t) as [[tr' refs'] o]
    end.
    cbn [fst] in Hw. rewrite Ht in Hw.
    assert (Hw' : polls tr' <= polls tr + 24)
      by (apply Hw; [lia | unfold max_wait; lia]).
    destruct o; cbn [fst]; try lia.
    destruct (negb (is_running stop tr')); [cbn [fst]; lia |].
    specialize (IH (S i) refs' tr'). lia.
Qed.

(** X1. In any world and whenever it is stopped, the run of the upload
    worker ends, and it has asked the backend for the state of a file at
    most 24 times for each file of its batch: a file is polled at most
    every 5 s for 120 s. *)
Theorem upload_run_ends_with_bounded_polling (w : World) (stop : StopPoint)
    (self : PDFUploadWorker) :
  exists tr, PDFUploadWorker_run w stop self = Some tr
             /\ polls tr <= 24 * length (file_paths self).
Proof.
  unfold PDFUploadWorker_run.
  destruct (negb (is_running stop [])).
  { eexists. split; [reflexivity | cbn; lia]. }
  cbv zeta.
  pose proof (upload_loop_returns w stop self (file_paths self) 0 []
                (block w (time_sleep 100) 100 [])) as Hret.
  pose proof (upload_loop_polls w stop self (file_paths self) 0 []
                (block w (time_sleep 100) 100 [])) as Hp.
  destruct (upload_loop w stop self 0 (file_paths self) []
              (block w (time_sleep 100) 100 [])) as [[tr refs] o].
  cbn [fst snd] in Hret, Hp.
  assert (Hp' : polls tr <= 24 * length (file_paths self)) by (cbn in Hp; lia).
  destruct o.
  - destruct (is_running stop tr).
    + destruct (Nat.eqb _ _); eexists; (split; [reflexivity |]);
        rewrite polls_emit; exact Hp'.
    + eexists. split; [reflexivity | exact Hp'].
  - eexists. split; [reflexivity |]. rewrite polls_emit. exact Hp'.
  - exfalso. apply Hret. reflexivity.
Qed.

(** ** Every run reports once *)

Lemma progress_only_block (w : World) (c : BlockingCall) (asked : Z) (tr : list WEvent) :
  progress_only tr -> progress_only (block w c asked tr).
Proof.
  intros H. unfold block. apply Forall_app. split; [exact H |].
  constructor; [exact I | constructor].
Qed.

Lemma progress_only_emit (sg : Signal) (tr : list WEvent) :
  is_progress sg = true -> progress_only tr -> progress_only (emit sg tr).
Proof.
  intros Hs H. unfold emit. apply Forall_app. split; [exact H |].
  constructor; [exact Hs | constructor].
Qed.

Create HintDb progress.
#[local] Hint Resolve progress_only_block progress_only_emit : progress.

Lemma wait_loop_progress_only (w : World) (stop : StopPoint) (fuel : nat) :
  forall filename start_time wait_time uploaded_file refs tr,
    progress_only tr ->
    progress_only
      (fst (fst (wait_loop w stop fuel filename start_time wait_time uploaded_file refs tr))).
Proof.
  induction fuel as [|fuel IH]; intros filename start_time wait_time uploaded_file refs tr H.
  - exact H.
  - cbn [wait_loop]. unfold wait_round at 1, try_delete. cbv zeta.
    destruct (Z.ltb _ _); [ | cbn [fst]; auto with progress ].
    destruct (negb (is_running stop tr)); [exact H |].
    destruct (genai_get_file w _ _) as [f|e]; [ | apply IH; auto with progress ].
    destruct (state_name f =? "ACTIVE")%string; [cbn [fst]; auto with progress |].
    destruct (state_name f =? "FAILED")%string; [cbn [fst]; auto with progress |].
    destruct (state_name f =? "PROCESSING")%string; [ | cbn [fst]; auto with progress ].
    destruct (negb (is_running stop _)); [cbn [fst]; auto with progress |].
    apply IH; auto with progress.
Qed.

Lemma upload_loop_progress_only (w : World) (stop : StopPoint) (self : PDFUploadWorker)
    (paths : list string) :
  forall i refs tr,
    progress_only tr ->
    progress_only (fst (fst (upload_loop w stop self i paths refs tr))).
Proof.
  induction paths as [|file_path rest IH]; intros i refs tr H; cbn [upload_loop].
  - exact H.
  - cbv zeta.
    destruct (negb (is_running stop tr)); [exact H |].
    destruct (nth_error (basenames self) i) as [filename|]; [ | exact H ].
    destruct (negb (os_path_exists w file_path)); [cbn [fst]; auto with progress |].
    destruct (genai_upload_file w file_path filename (guess_mime w file_path))
      as [uploaded_file|e]; [ | cbn [fst]; auto with progress ].
    destruct (negb (is_running stop _)); [cbn [fst]; auto with progress |].
    match goal with
    | |- context [wait_loop w stop WAIT_FUEL ?f ?st ?wt ?uf ?rf ?t] =>
      assert (Hq : progress_only t) by auto 6 with progress;
      pose proof (wait_loop_progress_only w stop WAIT_FUEL f st wt uf rf t Hq) as Hw;
      destruct (wait_loop w stop WAIT_FUEL f st wt uf rf t) as [[tr' refs'] o]
    end.
    cbn [fst] in Hw.
    destruct o; cbn [fst]; try exact Hw.
    destruct (negb (is_running stop tr')); [exact Hw | apply IH; exact Hw].
Qed.

(** X2. In any world and whenever it is stopped, a run of the upload worker
    is progress reports ([progress_update], [file_processed]) followed by at
    most one closing signal, [finished] or [error_occurred], which is the
    last thing the run does; a run that is never stopped always closes with
    one. *)
Theorem upload_run_reports_once (w : World) (stop : StopPoint) (self : PDFUploadWorker) :
  (exists tr body rest,
     PDFUploadWorker_run w stop self = Some tr
     /\ tr = body ++ rest
     /\ progress_only body
     /\ (rest = [] \/ exists last, rest = [Emit last] /\ is_terminal last = true))
  /\ (exists body last,
        PDFUploadWorker_run w None self = Some (body ++ [Emit last])
        /\ progress_only body
        /\ is_terminal last = true).
Proof.
  assert (H0 : progress_only (block w (time_sleep 100) 100 []))
    by (apply progress_only_block; constructor).
  split.
  - unfold PDFUploadWorker_run.
    destruct (negb (is_running stop [])).
    { exists [Emit (error_occurred "Upload stopped.")], [],
             [Emit (error_occurred "Upload stopped.")].
      repeat split; [constructor |]. right. eexists. split; reflexivity. }
    cbv zeta.
    pose proof (upload_loop_returns w stop self (file_paths self) 0 []
                  (block w (time_sleep 100) 100 [])) as Hret.
    pose proof (upload_loop_progress_only w stop self (file_paths self) 0 [] _ H0) as Hq.
    destruct (upload_loop w stop self 0 (file_paths self) []
                (block w (time_sleep 100) 100 [])) as [[tr refs] o].
    cbn [fst snd] in Hret, Hq.
    destruct o.
    + destruct (is_running stop tr).
      * exists (emit (finished refs) tr), tr, [Emit (finished refs)].
        split; [destruct (Nat.eqb _ _); reflexivity |].
        repeat split; [exact Hq |]. right. eexists. split; reflexivity.
      * exists tr, tr, []. rewrite app_nil_r. repeat split; [exact Hq |]. left. reflexivity.
    + exists (emit (error_occurred (upload_error_message e)) tr), tr,
             [Emit (error_occurred (upload_error_message e))].
      repeat split; [exact Hq |]. right. eexists. split; reflexivity.
    + exfalso. apply Hret. reflexivity.
  - unfold PDFUploadWorker_run. cbn [is_running negb]. cbv zeta.
    pose proof (upload_loop_returns w None self (file_paths self) 0 []
                  (block w (time_sleep 100) 100 [])) as Hret.
    pose proof (upload_loop_progress_only w None self (file_paths self) 0 [] _ H0) as Hq.
    destruct (upload_loop w None self 0 (file_paths self) []
                (block w (time_sleep 100) 100 [])) as [[tr refs] o].
    cbn [fst snd] in Hret, Hq.
    destruct o.
    + exists tr, (finished refs).
      split; [destruct (Nat.eqb _ _); reflexivity |].
      split; [exact Hq | reflexivity].
    + exists tr, (error_occurred (upload_error_message e)).
      split; [reflexivity |]. split; [exact Hq | reflexivity].
    + exfalso. apply Hret. reflexivity.
Qed.

(** X3. In any world and whenever it is stopped, a run of the chat worker
    makes at most one call, [send_message] on its own session with the
    message text as the only content, and emits at most one signal, after
    the call; a run that is never stopped emits exactly one, [result_ready]
    or [error_occurred].  The document reference the worker was given plays
    no part in the run. *)
Theorem chat_run_reports_once (w : World) (stop : StopPoint) (self : AIChatWorker) :
  (exists calls sgs,
     AIChatWorker_run w stop self = calls ++ map Emit sgs
     /\ length sgs <= 1
     /\ Forall (fun sg => is_terminal sg = true) sgs
     /\ (calls = []
         \/ exists session d,
              chat_session self = Some session
              /\ calls = [Blocking (send_message session [user_message_text self]) d]))
  /\ (exists sg, signals (AIChatWorker_run w None self) = [sg] /\ is_terminal sg = true)
  /\ (forall d, AIChatWorker_run w stop
                  {| chat_session := chat_session self;
                     user_message_text := user_message_text self;
                     doc_ref := d |}
                = AIChatWorker_run w stop self).
Proof.
  split; [ | split ].
  - unfold AIChatWorker_run, chat_except, emit, block.
    destruct (negb (is_running stop [])).
    { exists [], []. repeat split; [cbn; lia | constructor | left; reflexivity]. }
    destruct (chat_session self) as [session|].
    2:{ exists [], [error_occurred "AI Chat session not initialized."].
        repeat split; [cbn; lia | repeat constructor | left; reflexivity]. }
    cbv zeta. cbn [List.app].
    set (c := Blocking (send_message session [user_message_text self])
                       (0 + Z.of_N (latency w (calls_done [])))).
    assert (Hc : [c] = [] \/ exists session' d,
                   Some session = Some session'
                   /\ [c] = [Blocking (send_message session' [user_message_text self]) d]).
    { right. exists session, (0 + Z.of_N (latency w (calls_done [])))%Z.
      split; reflexivity. }
    assert (Hquiet : exists calls sgs,
              [c] = calls ++ map Emit sgs /\ length sgs <= 1
              /\ Forall (fun sg => is_terminal sg = true) sgs
              /\ (calls = [] \/ exists session' d,
                    Some session = Some session'
                    /\ calls = [Blocking (send_message session' [user_message_text self]) d])).
    { exists [c], []. repeat split; [cbn; lia | constructor | exact Hc]. }
    assert (Hone : forall sg, is_terminal sg = true ->
              exists calls sgs,
                [c; Emit sg] = calls ++ map Emit sgs /\ length sgs <= 1
                /\ Forall (fun sg => is_terminal sg = true) sgs
                /\ (calls = [] \/ exists session' d,
                      Some session = Some session'
                      /\ calls = [Blocking (send_message session' [user_message_text self]) d])).
    { intros sg Hsg. exists [c], [sg].
      repeat split; [cbn; lia | repeat constructor; exact Hsg | exact Hc]. }
    destruct (chat_send_message w session [user_message_text self]) as [response|e].
    + destruct (negb (is_running stop [c])) eqn:Hr; [exact Hquiet |].
      apply negb_false_iff in Hr. rewrite Hr.
      destruct (text response) as [response_text|e]; apply Hone; reflexivity.
    + destruct (is_running stop [c]); [apply Hone; reflexivity | exact Hquiet].
  - unfold AIChatWorker_run, chat_except. cbn [is_running negb].
    destruct (chat_session self) as [session|]; [ | eexists; split; reflexivity ].
    cbv zeta.
    destruct (chat_send_message w session [user_message_text self]) as [response|e].
    + destruct (text response) as [response_text|e];
        rewrite signals_emit; eexists; split; reflexivity.
    + rewrite signals_emit. eexists. split; reflexivity.
  - intros d. reflexivity.
Qed.

(** ** What a [finished] signal carries *)

Lemma wait_loop_break_active (w : World) (stop : StopPoint) (fuel : nat) :
  forall filename start_time wait_time uploaded_file refs tr tr' refs',
    wait_loop w stop fuel filename start_time wait_time uploaded_file refs tr
    = (tr', refs', PollBreak) ->
    is_running stop tr' = true ->
    Forall (fun f => state_name f = "ACTIVE") refs ->
    Forall (fun f => state_name f = "ACTIVE") refs'.
Proof.
  intros filename start_time wait_time uploaded_file refs tr tr' refs' H Hrun Hrefs.
  destruct (wait_loop_break w stop fuel _ _ _ _ _ _ _ _ H Hrun) as (f & -> & Hf).
  apply Forall_app. split; [exact Hrefs |]. constructor; [exact Hf | constructor].
Qed.

Lemma upload_loop_end_active (w : World) (stop : StopPoint) (self : PDFUploadWorker)
    (paths : list string) :
  forall i refs tr tr' refs',
    upload_loop w stop self i paths refs tr = (tr', refs', LoopEnd) ->
    is_running stop tr' = true ->
    Forall (fun f => state_name f = "ACTIVE") refs ->
    Forall (fun f => state_name f = "ACTIVE") refs'.
Proof.
  induction paths as [|file_path rest IH]; intros i refs tr tr' refs' H Hrun Hrefs;
    cbn [upload_loop] in H.
  - injection H as <- <-. exact Hrefs.
  - cbv zeta in H.
    destruct (is_running stop tr) eqn:Hr; cbn [negb] in H.
    2:{ same_trace H Hrun. stopped. }
    destruct (nth_error (basenames self) i) as [filename|]; [ | discriminate H ].
    destruct (negb (os_path_exists w file_path)); [discriminate H |].
    destruct (genai_upload_file w file_path filename (guess_mime w file_path))
      as [uploaded_file|e]; [ | discriminate H ].
    match type of H with
    | context [negb (is_running stop ?t)] => destruct (is_running stop t) eqn:Hr1
    end; cbn [negb] in H.
    2:{ same_trace H Hrun. stopped. }
    match type of H with
    | context [wait_loop w stop WAIT_FUEL ?f ?st ?wt ?uf ?rf ?t] =>
      pose proof (wait_loop_break_active w stop WAIT_FUEL f st wt uf rf t) as Hbreak;
      destruct (wait_loop w stop WAIT_FUEL f st wt uf rf t) as [[tr1 refs1] o]
    end.
    destruct o; try discriminate H.
    destruct (is_running stop tr1) eqn:Hr2; cbn [negb] in H.
    2:{ same_trace H Hrun. stopped. }
    apply (IH _ _ _ _ _ H Hrun). apply (Hbreak tr1 refs1 eq_refl Hr2 Hrefs).
Qed.

(** X4. In any world and whenever the run is stopped: if the upload worker
    emits [finished], the list it carries has one reference for every file
    of the batch, and every reference was read from the backend in state
    ACTIVE.  A partial list is never delivered. *)
Theorem finished_carries_whole_batch (w : World) (stop : StopPoint)
    (self : PDFUploadWorker) (tr : list WEvent) (refs : list File) :
  PDFUploadWorker_run w stop self = Some tr ->
  In (finished refs) (signals tr) ->
  length refs = length (file_paths self)
  /\ Forall (fun f => state_name f = "ACTIVE") refs.
Proof.
  unfold PDFUploadWorker_run.
  destruct (negb (is_running stop [])).
  { intros H Hin. injection H as <-. cbn in Hin. destruct Hin as [Hin|[]]. discriminate Hin. }
  cbv zeta.
  assert (H0 : no_completion (block w (time_sleep 100) 100 []))
    by (apply no_completion_block; constructor).
  pose proof (upload_loop_no_completion w stop self (file_paths self) 0 [] _ H0) as Hq.
  pose proof (upload_loop_end w stop self (file_paths self) 0 []
                (block w (time_sleep 100) 100 [])) as Hend.
  pose proof (upload_loop_end_active w stop self (file_paths self) 0 []
                (block w (time_sleep 100) 100 [])) as Hact.
  destruct (upload_loop w stop self 0 (file_paths self) []
              (block w (time_sleep 100) 100 [])) as [[tr0 refs0] o].
  cbn [fst] in Hq.
  assert (Hlast : forall sg, In (finished refs) (signals (emit sg tr0)) -> sg = finished refs).
  { intros sg Hin. rewrite signals_emit in Hin. apply in_app_or in Hin.
    destruct Hin as [Hin|[Hin|[]]]; [ | exact Hin ].
    apply (in_signals_quiet _ _ Hq) in Hin. discriminate Hin. }
  destruct o.
  - destruct (is_running stop tr0) eqn:Hrun.
    + intros H Hin.
      assert (Htr : tr = emit (finished refs0) tr0)
        by (destruct (Nat.eqb _ _); injection H as <-; reflexivity).
      subst tr. apply Hlast in Hin. injection Hin as ->.
      split.
      * apply (Hend tr0 refs eq_refl Hrun).
      * apply (Hact tr0 refs eq_refl Hrun). constructor.
    + intros H Hin. injection H as <-.
      apply (in_signals_quiet _ _ Hq) in Hin. discriminate Hin.
  - intros H Hin. injection H as <-. apply Hlast in Hin. discriminate Hin.
  - intros H. discriminate H.
Qed.

Lemma finished_carries_whole_batch_witness :
  PDFUploadWorker_run lab None batch_AC = Some lab_run_AC
  /\ In (finished [lab_file "A.pdf" "ACTIVE"; lab_file "C.pdf" "ACTIVE"])
        (signals lab_run_AC)
  /\ length [lab_file "A.pdf" "ACTIVE"; lab_file "C.pdf" "ACTIVE"]
     = length (file_paths batch_AC)
  /\ Forall (fun f => state_name f = "ACTIVE")
            [lab_file "A.pdf" "ACTIVE"; lab_file "C.pdf" "ACTIVE"].
Proof.
  assert (Hrun : PDFUploadWorker_run lab None batch_AC = Some lab_run_AC)
    by (vm_compute; reflexivity).
  assert (Hin : In (finished [lab_file "A.pdf" "ACTIVE"; lab_file "C.pdf" "ACTIVE"])
                   (signals lab_run_AC)).
  { vm_compute. do 6 right. left. reflexivity. }
  split; [exact Hrun |]. split; [exact Hin |].
  exact (finished_carries_whole_batch lab None batch_AC lab_run_AC _ Hrun Hin).
Defined.

(** ** The order of the uploads *)

Lemma uploads_block (w : World) (c : BlockingCall) (asked : Z) (tr : list WEvent) :
  uploads (block w c asked tr) = uploads tr ++ (if is_upload_call c then [c] else []).
Proof.
  unfold uploads. rewrite blocking_calls_block, filter_app. cbn.
  destruct (is_upload_call c); reflexivity.
Qed.

Lemma uploads_emit (sg : Signal) (tr : list WEvent) : uploads (emit sg tr) = uploads tr.
Proof. unfold uploads. rewrite blocking_calls_emit. reflexivity. Qed.

Lemma wait_loop_uploads (w : World) (stop : StopPoint) (fuel : nat) :
  forall filename start_time wait_time uploaded_file refs tr,
    uploads (fst (fst (wait_loop w stop fuel filename start_time wait_time
                         uploaded_file refs tr)))
    = uploads tr.
Proof.
  induction fuel as [|fuel IH]; intros filename start_time wait_time uploaded_file refs tr.
  - reflexivity.
  - cbn [wait_loop]. unfold wait_round at 1, try_delete. cbv zeta.
    destruct (Z.ltb _ _).
    2:{ cbn [fst]. rewrite uploads_block. cbn. apply app_nil_r. }
    destruct (negb (is_running stop tr)); [reflexivity |].
    assert (Hs :
      uploads (block w (time_sleep wait_time) wait_time
                 (block w (get_file (name uploaded_file)) 0 tr)) = uploads tr).
    { rewrite !uploads_block. cbn. rewrite !app_nil_r. reflexivity. }
    destruct (genai_get_file w _ _) as [f|e]; [ | rewrite IH; exact Hs ].
    destruct (state_name f =? "ACTIVE")%string.
    { cbn [fst]. rewrite uploads_emit, uploads_block. cbn. apply app_nil_r. }
    destruct (state_name f =? "FAILED")%string.
    { cbn [fst]. rewrite !uploads_block. cbn. rewrite !app_nil_r. reflexivity. }
    destruct (state_name f =? "PROCESSING")%string.
    2:{ cbn [fst]. rewrite uploads_block. cbn. apply app_nil_r. }
    destruct (negb (is_running stop _)).
    { cbn [fst]. rewrite uploads_block. cbn. apply app_nil_r. }
    rewrite IH. exact Hs.
Qed.

Lemma nth_error_skipn {A : Type} (l : list A) :
  forall i x, nth_error l i = Some x -> skipn i l = x :: skipn (S i) l.
Proof.
  induction l as [|y l IH]; intros [|i] x H; simpl in H; try discriminate H.
  - injection H as ->. reflexivity.
  - change (skipn (S i) (y :: l)) with (skipn i l).
    change (skipn (S (S i)) (y :: l)) with (skipn (S i) l).
    apply IH, H.
Qed.

Lemma upload_loop_uploads (w : World) (stop : StopPoint) (self : PDFUploadWorker)
    (paths : list string) :
  forall i refs tr,
    exists n,
      uploads (fst (fst (upload_loop w stop self i paths refs tr)))
      = uploads tr
        ++ map (fun pb => upload_file (fst pb) (snd pb) (guess_mime w (fst pb)))
               (firstn n (combine paths (skipn i (basenames self)))).
Proof.
  induction paths as [|file_path rest IH]; intros i refs tr; cbn [upload_loop].
  - exists 0. cbn. symmetry. apply app_nil_r.
  - cbv zeta.
    assert (Hnone : exists n,
      uploads tr
      = uploads tr
        ++ map (fun pb => upload_file (fst pb) (snd pb) (guess_mime w (fst pb)))
               (firstn n (combine (file_path :: rest) (skipn i (basenames self))))).
    { exists 0. cbn. symmetry. apply app_nil_r. }
    destruct (negb (is_running stop tr)); [exact Hnone |].
    destruct (nth_error (basenames self) i) as [filename|] eqn:Hnth; [ | exact Hnone ].
    destruct (negb (os_path_exists w file_path)).
    { cbn [fst]. rewrite uploads_emit. exact Hnone. }
    rewrite (nth_error_skipn _ _ _ Hnth). cbn [combine].
    assert (Hone : forall t,
      uploads t
      = uploads tr ++ [upload_file file_path filename (guess_mime w file_path)] ->
      exists n,
        uploads t
        = uploads tr
          ++ map (fun pb => upload_file (fst pb) (snd pb) (guess_mime w (fst pb)))
                 (firstn n ((file_path, filename)
                            :: combine rest (skipn (S i) (basenames self))))).
    { intros t Ht. exists 1. rewrite Ht. cbn. reflexivity. }
    assert (Hup : forall sg1,
      uploads (block w (upload_file file_path filename (guess_mime w file_path)) 0
                 (emit sg1 tr))
      = uploads tr ++ [upload_file file_path filename (guess_mime w file_path)]).
    { intros sg1. rewrite uploads_block, uploads_emit. reflexivity. }
    destruct (genai_upload_file w file_path filename (guess_mime w file_path))
      as [uploaded_file|e].
    2:{ cbn [fst]. apply Hone, Hup. }
    destruct (negb (is_running stop _)).
    { cbn [fst]. apply Hone, Hup. }
    match goal with
    | |- context [wait_loop w stop WAIT_FUEL ?f ?st ?wt ?uf ?rf ?t] =>
      pose proof (wait_loop_uploads w stop WAIT_FUEL f st wt uf rf t) as Hw;
      rewrite uploads_emit, Hup in Hw;
      destruct (wait_loop w stop WAIT_FUEL f st wt uf rf t) as [[tr' refs'] o]
    end.
    cbn [fst] in Hw.
    destruct o; cbn [fst]; try (apply Hone, Hw).
    destruct (negb (is_running stop tr')); [cbn [fst]; apply Hone, Hw |].
    destruct (IH (S i) refs' tr') as [n Hn].
    exists (S n). rewrite Hn, Hw. cbn [firstn map fst snd].
    rewrite <- app_assoc. reflexivity.
Qed.

(** X5. In any world and whenever the run is stopped, the files the upload
    worker sends to the backend are the first files of its batch, in the
    order of the batch, each once, under its own basename as display name:
    the run never skips a file to go on with a later one. *)
Theorem uploads_follow_batch_order (w : World) (stop : StopPoint) (self : PDFUploadWorker) :
  exists tr n,
    PDFUploadWorker_run w stop self = Some tr
    /\ filter is_upload_call (blocking_calls tr) = upload_calls_of w self n.
Proof.
  unfold PDFUploadWorker_run, upload_calls_of.
  destruct (negb (is_running stop [])).
  { eexists. exists 0. split; reflexivity. }
  cbv zeta.
  pose proof (upload_loop_returns w stop self (file_paths self) 0 []
                (block w (time_sleep 100) 100 [])) as Hret.
  destruct (upload_loop_uploads w stop self (file_paths self) 0 []
              (block w (time_sleep 100) 100 [])) as [n Hn].
  destruct (upload_loop w stop self 0 (file_paths self) []
              (block w (time_sleep 100) 100 [])) as [[tr refs] o].
  cbn [fst snd] in Hret, Hn. cbn [skipn] in Hn.
  change (filter is_upload_call (blocking_calls tr)) with (uploads tr) in *.
  assert (He : forall sg, filter is_upload_call (blocking_calls (emit sg tr))
                          = uploads tr).
  { intros sg. apply uploads_emit. }
  destruct o.
  - destruct (is_running stop tr).
    + eexists. exists n. split; [destruct (Nat.eqb _ _); reflexivity |].
      rewrite He. exact Hn.
    + eexists. exists n. split; [reflexivity | exact Hn].
  - eexists. exists n. split; [reflexivity |]. rewrite He. exact Hn.
  - exfalso. apply Hret. reflexivity.
Qed.

(** ** What a run does once the stop has arrived *)

Lemma after_calls_snoc (e : WEvent) (tr : list WEvent) :
  forall k, after_calls k (tr ++ [e])
            = if Nat.ltb (calls_done tr) k then [] else after_calls k tr ++ [e].
Proof.
  induction tr as [|[c d|sg] tr IH]; intros [|k]; try reflexivity.
  - destruct e; [destruct k |]; reflexivity.
  - cbn [List.app after_calls]. rewrite IH. reflexivity.
  - cbn [List.app after_calls]. rewrite IH. reflexivity.
Qed.

Lemma after_stop_snoc (stop : StopPoint) (e : WEvent) (tr : list WEvent) :
  after_stop stop (tr ++ [e])
  = if is_running stop tr then [] else after_stop stop tr ++ [e].
Proof.
  destruct stop as [k|]; [ | reflexivity ].
  apply after_calls_snoc.
Qed.

Lemma after_stop_running (stop : StopPoint) (tr : list WEvent) :
  is_running stop tr = true -> after_stop stop tr = [].
Proof.
  destruct stop as [k|]; [ | reflexivity ].
  intros H. apply Nat.ltb_lt in H. apply after_calls_short, H.
Qed.

Lemma before_after_stop (stop : StopPoint) (tr : list WEvent) :
  tr = before_stop stop tr ++ after_stop stop tr.
Proof.
  destruct stop as [k|]; [ | symmetry; apply app_nil_r ].
  cbn [before_stop after_stop]. revert k.
  induction tr as [|[c d|sg] tr IH]; intros [|k]; try reflexivity.
  - cbn [until_calls after_calls List.app]. f_equal. apply IH.
  - cbn [until_calls after_calls List.app]. f_equal. apply IH.
Qed.

Lemma until_calls_0 (tr : list WEvent) : until_calls 0 tr = [].
Proof. destruct tr; reflexivity. Qed.

Lemma before_stop_stopped (stop : StopPoint) (tr more : list WEvent) :
  is_running stop tr = false -> before_stop stop (tr ++ more) = before_stop stop tr.
Proof.
  destruct stop as [k|]; [ | discriminate ].
  cbn [before_stop is_running]. intros H. apply Nat.ltb_ge in H. revert k H.
  induction tr as [|[c d|sg] tr IH]; intros [|k] H; rewrite ?until_calls_0; try reflexivity.
  - exfalso. cbn in H. lia.
  - cbn [List.app until_calls]. f_equal. apply IH.
    unfold calls_done in *. cbn in H. lia.
  - cbn [List.app until_calls]. f_equal. apply IH. exact H.
Qed.

Lemma silent_block (w : World) (stop : StopPoint) (c : BlockingCall) (asked : Z)
    (tr : list WEvent) :
  is_upload_call c = false ->
  silent (after_stop stop tr) -> silent (after_stop stop (block w c asked tr)).
Proof.
  intros Hc H. unfold block. rewrite after_stop_snoc.
  destruct (is_running stop tr); [constructor |].
  apply Forall_app. split; [exact H |].
  constructor; [cbn; rewrite Hc; reflexivity | constructor].
Qed.

Lemma silent_settles (tr : list WEvent) : silent tr -> settles tr.
Proof.
  intros H. exists tr, []. rewrite app_nil_r. repeat split; [exact H | left; reflexivity].
Qed.

Lemma settles_file_processed (stop : StopPoint) (filename : string) (tr : list WEvent) :
  silent (after_stop stop tr) ->
  settles (after_stop stop (emit (file_processed filename) tr)).
Proof.
  intros H. unfold emit. rewrite after_stop_snoc.
  destruct (is_running stop tr).
  - apply silent_settles. constructor.
  - exists (after_stop stop tr), [Emit (file_processed filename)].
    repeat split; [exact H | right; exists filename; reflexivity].
Qed.

(** How a loop of the run leaves the events after the stop: silent when it
    raises, settled when it ends. *)
Definition poll_tail (o : PollOutcome) (tr : list WEvent) : Prop :=
  match o with
  | PollRaise _ => silent tr
  | _ => settles tr
  end.

Definition loop_tail (o : LoopOutcome) (tr : list WEvent) : Prop :=
  match o with
  | LoopRaise _ => silent tr
  | _ => settles tr
  end.

#[local] Hint Resolve silent_block silent_settles settles_file_processed : quiet.

Lemma wait_loop_after_stop (w : World) (stop : StopPoint) (fuel : nat) :
  forall filename start_time wait_time uploaded_file refs tr,
    silent (after_stop stop tr) ->
    let r := wait_loop w stop fuel filename start_time wait_time uploaded_file refs tr in
    poll_tail (snd r) (after_stop stop (fst (fst r))).
Proof.
  induction fuel as [|fuel IH]; intros filename start_time wait_time uploaded_file refs tr H;
    cbv zeta.
  - cbn. auto with quiet.
  - cbn [wait_loop]. unfold wait_round, try_delete. cbv zeta.
    destruct (Z.ltb _ _); [ | cbn; solve [auto with quiet] ].
    destruct (negb (is_running stop tr)); [cbn; solve [auto with quiet] |].
    destruct (genai_get_file w _ _) as [f|e]; [ | apply IH; auto with quiet ].
    destruct (state_name f =? "ACTIVE")%string; [cbn; solve [auto with quiet] |].
    destruct (state_name f =? "FAILED")%string; [cbn; solve [auto with quiet] |].
    destruct (state_name f =? "PROCESSING")%string; [ | cbn; solve [auto with quiet] ].
    destruct (negb (is_running stop _)); [cbn; solve [auto with quiet] |].
    apply IH; auto with quiet.
Qed.

Lemma silent_running (stop : StopPoint) (tr : list WEvent) :
  is_running stop tr = true -> silent (after_stop stop tr).
Proof. intros H. rewrite (after_stop_running stop tr H). constructor. Qed.

Lemma is_running_emit (stop : StopPoint) (sg : Signal) (tr : list WEvent) :
  is_running stop (emit sg tr) = is_running stop tr.
Proof. destruct stop as [k|]; [ | reflexivity ]. cbn. rewrite calls_done_emit. reflexivity. Qed.

Lemma upload_loop_after_stop (w : World) (stop : StopPoint) (self : PDFUploadWorker)
    (paths : list string) :
  forall i refs tr,
    silent (after_stop stop tr) ->
    let r := upload_loop w stop self i paths refs tr in
    loop_tail (snd r) (after_stop stop (fst (fst r))).
Proof.
  induction paths as [|file_path rest IH]; intros i refs tr H; cbv zeta; cbn [upload_loop].
  - cbn. auto with quiet.
  - cbv zeta.
    destruct (is_running stop tr) eqn:Hrun; cbn [negb]; [ | cbn; auto with quiet ].
    destruct (nth_error (basenames self) i) as [filename|]; [ | exact H ].
    assert (H1 : forall sg, silent (after_stop stop (emit sg tr))).
    { intros sg. apply silent_running. rewrite is_running_emit. exact Hrun. }
    destruct (negb (os_path_exists w file_path)); [cbn; apply H1 |].
    destruct (genai_upload_file w file_path filename (guess_mime w file_path))
      as [uploaded_file|e].
    2:{ cbn. unfold block. rewrite after_stop_snoc, is_running_emit, Hrun. constructor. }
    match goal with
    | |- context [negb (is_running stop ?t)] =>
      assert (H2 : silent (after_stop stop t))
        by (unfold block; rewrite after_stop_snoc, is_running_emit, Hrun; constructor);
      destruct (is_running stop t) eqn:Hrun2; cbn [negb]; [ | cbn; auto with quiet ]
    end.
    match goal with
    | |- context [wait_loop w stop WAIT_FUEL ?f ?st ?wt ?uf ?rf ?t] =>
      assert (Hq : silent (after_stop stop t))
        by (apply silent_running; rewrite is_running_emit; exact Hrun2);
      pose proof (wait_loop_after_stop w stop WAIT_FUEL f st wt uf rf t Hq) as Hw;
      destruct (wait_loop w stop WAIT_FUEL f st wt uf rf t) as [[tr' refs'] o]
    end.
    cbv zeta in Hw. cbn [fst snd] in Hw.
    destruct o; cbn [fst snd]; try exact Hw.
    destruct (is_running stop tr') eqn:Hrun3; cbn [negb]; [ | exact Hw ].
    apply IH. apply silent_running, Hrun3.
Qed.

(** A loop of the run raises after the stop only when a file had been
    submitted. *)
Lemma upload_loop_raise_committed (w : World) (stop : StopPoint) (self : PDFUploadWorker)
    (paths : list string) :
  forall i refs tr tr' refs' e,
    upload_loop w stop self i paths refs tr = (tr', refs', LoopRaise e) ->
    is_running stop tr' = true \/ uploads tr' <> [].
Proof.
  induction paths as [|file_path rest IH]; intros i refs tr tr' refs' e H;
    cbn [upload_loop] in H.
  - discriminate H.
  - cbv zeta in H.
    destruct (is_running stop tr) eqn:Hrun; cbn [negb] in H; [ | discriminate H ].
    destruct (nth_error (basenames self) i) as [filename|].
    2:{ injection H as <- _ _. left. exact Hrun. }
    destruct (negb (os_path_exists w file_path)).
    { injection H as <- _ _. left. rewrite is_running_emit. exact Hrun. }
    destruct (genai_upload_file w file_path filename (guess_mime w file_path))
      as [uploaded_file|e'].
    2:{ injection H as <- _ _. right. rewrite uploads_block. cbn.
        intros E. apply app_eq_nil in E. destruct E as [_ E]. discriminate E. }
    destruct (negb (is_running stop _)); [discriminate H |].
    match type of H with
    | context [wait_loop w stop WAIT_FUEL ?f ?st ?wt ?uf ?rf ?t] =>
      pose proof (wait_loop_uploads w stop WAIT_FUEL f st wt uf rf t) as Hu;
      destruct (wait_loop w stop WAIT_FUEL f st wt uf rf t) as [[tr1 refs1] o]
    end.
    cbn [fst] in Hu.
    destruct o; try discriminate H.
    + destruct (negb (is_running stop tr1)); [discriminate H |].
      exact (IH _ _ _ _ _ _ H).
    + injection H as <- _ _. right. rewrite Hu, uploads_emit, uploads_block. cbn.
      intros E. apply app_eq_nil in E. destruct E as [_ E]. discriminate E.
Qed.

Lemma signals_app (a b : list WEvent) : signals (a ++ b) = signals a ++ signals b.
Proof. unfold signals. apply flat_map_app. Qed.

Lemma silent_signals (tr : list WEvent) : silent tr -> signals tr = [].
Proof.
  induction 1 as [|[c d|sg] tr He _ IH]; [reflexivity | exact IH | discriminate He].
Qed.

Lemma silent_uploads (tr : list WEvent) : silent tr -> uploads tr = [].
Proof.
  induction 1 as [|[c d|sg] tr He _ IH]; [reflexivity | | discriminate He].
  cbn in He. unfold uploads in *. cbn. destruct (is_upload_call c); [discriminate He | exact IH].
Qed.

Lemma uploads_app (a b : list WEvent) : uploads (a ++ b) = uploads a ++ uploads b.
Proof. unfold uploads, blocking_calls. rewrite flat_map_app. apply filter_app. Qed.

Lemma settles_no_failure (tr : list WEvent) (message : string) :
  settles tr -> ~ In (error_occurred message) (signals tr).
Proof.
  intros (q & last & -> & Hq & Hlast) Hin.
  rewrite signals_app, (silent_signals q Hq) in Hin. cbn [List.app] in Hin.
  destruct Hlast as [-> | [f ->]]; cbn in Hin.
  - exact Hin.
  - destruct Hin as [E | []]. discriminate E.
Qed.

Lemma upload_run_after_stop (w : World) (stop : StopPoint) (self : PDFUploadWorker) :
  exists tr, PDFUploadWorker_run w stop self = Some tr
    /\ no_completion (after_stop stop tr)
    /\ winds_down (after_stop stop tr)
    /\ (forall message, In (error_occurred message) (signals (after_stop stop tr)) ->
          stop = Some 0 \/ uploads (before_stop stop tr) <> []).
Proof.
  destruct (upload_run_no_completion_after_stop w stop self) as (tr & Hrun & Hno).
  exists tr. split; [exact Hrun |]. split; [exact Hno |].
  unfold PDFUploadWorker_run in Hrun.
  destruct (is_running stop []) eqn:Hrun0; cbn [negb] in Hrun.
  2:{ injection Hrun as <-.
      assert (Hstop : stop = Some 0).
      { destruct stop as [[|k]|]; [reflexivity | discriminate Hrun0 | discriminate Hrun0]. }
      subst stop. split; [ | intros; left; reflexivity ].
      exists [], [Emit (error_occurred "Upload stopped.")].
      repeat split; [constructor |]. right. right. eexists. reflexivity. }
  cbv zeta in Hrun.
  assert (H0 : silent (after_stop stop (block w (time_sleep 100) 100 []))).
  { unfold block. rewrite after_stop_snoc, Hrun0. constructor. }
  pose proof (upload_loop_after_stop w stop self (file_paths self) 0 [] _ H0) as Htail.
  pose proof (upload_loop_raise_committed w stop self (file_paths self) 0 []
                (block w (time_sleep 100) 100 [])) as Hcommitted.
  destruct (upload_loop w stop self 0 (file_paths self) []
              (block w (time_sleep 100) 100 [])) as [[tr1 refs] o].
  cbv zeta in Htail. cbn [fst snd] in Htail.
  destruct o; cbn [loop_tail] in Htail.
  - (* the loop has ended *)
    destruct (is_running stop tr1) eqn:Hrun1.
    + assert (E : tr = emit (finished refs) tr1)
        by (destruct (Nat.eqb _ _); injection Hrun as <-; reflexivity).
      subst tr. rewrite (after_stop_emit_running stop _ tr1 Hrun1).
      split; [ | intros m []].
      exists [], []. repeat split; [constructor | left; reflexivity].
    + injection Hrun as <-. split.
      * destruct Htail as (q & last & E & Hq & Hlast). exists q, last.
        repeat split; [exact E | exact Hq |].
        destruct Hlast as [Hl | Hl]; [left; exact Hl | right; left; exact Hl].
      * intros m Hin. exfalso. exact (settles_no_failure _ m Htail Hin).
  - (* the loop has raised *)
    injection Hrun as <-. unfold emit. rewrite after_stop_snoc.
    destruct (is_running stop tr1) eqn:Hrun1.
    + split; [ | intros m []].
      exists [], []. repeat split; [constructor | left; reflexivity].
    + split.
      * exists (after_stop stop tr1), [Emit (error_occurred (upload_error_message e))].
        repeat split; [exact Htail |]. right. right. eexists. reflexivity.
      * intros _ _. right.
        destruct (Hcommitted tr1 refs e eq_refl) as [Hr | Hu];
          [rewrite Hr in Hrun1; discriminate Hrun1 |].
        intros E. apply Hu.
        rewrite (before_after_stop stop tr1), uploads_app, (silent_uploads _ Htail).
        rewrite app_nil_r.
        (* the events before the stop are those of the whole run *)
        assert (Hb : before_stop stop (tr1 ++ [Emit (error_occurred (upload_error_message e))])
                     = before_stop stop tr1)
          by (apply before_stop_stopped, Hrun1).
        rewrite Hb in E. exact E.
  - discriminate Hrun.
Qed.

(** A [genai.upload_file] call that raises is reported, stop or no stop:
    the handlers of the upload worker do not look at [_is_running]. *)
Lemma refused_upload_reported_after_stop (w : World) (self : PDFUploadWorker)
    (file_path filename : string) (rest : list string) (e : Exn) :
  file_paths self = file_path :: rest ->
  nth_error (basenames self) 0 = Some filename ->
  os_path_exists w file_path = true ->
  genai_upload_file w file_path filename (guess_mime w file_path) = Raise e ->
  exists tr, PDFUploadWorker_run w (Some 2) self = Some tr
             /\ after_stop (Some 2) tr = [Emit (error_occurred (upload_error_message e))].
Proof.
  intros Hpaths Hname Hexists Hraise.
  unfold PDFUploadWorker_run. cbn [is_running calls_done filter length Nat.ltb Nat.leb negb].
  cbv zeta. rewrite Hpaths. cbn [upload_loop]. rewrite Hname. cbv zeta.
  unfold block at 1. cbn [is_running calls_done filter length List.app is_blocking
                          Nat.ltb Nat.leb negb].
  rewrite Hexists, Hraise. cbn [negb].
  eexists. split; [reflexivity |].
  reflexivity.
Qed.



(** In [lab], where [B.pdf] never leaves [PROCESSING]: a stop that arrives
    during the last pause of the two minutes is followed by the deletion of
    the remote file and by [error_occurred]; the same stop one poll earlier
    is followed by nothing. *)
Example stop_at_the_timeout :
  option_map (after_stop (Some 22)) (PDFUploadWorker_run lab (Some 22) batch_B)
  = Some [Blocking (delete_file "files/B.pdf") 0;
          Emit (error_occurred "Upload Error: Timeout processing file 'B.pdf'")]
  /\ option_map (after_stop (Some 20)) (PDFUploadWorker_run lab (Some 20) batch_B)
     = Some [].
Proof. split; vm_compute; reflexivity. Qed.

(** ** Commands while a task is running *)

(** X6. While a background task is in flight, [add_files], [remove_files],
    [clear_all_files], [upload_files_to_ai] and [apply_and_save_settings]
    only show their busy warning, and a change of the selector is ignored
    without any call: the application state is unchanged, nothing is saved
    and no worker is started. *)
Theorem busy_commands_rejected (w : World) (s : St) :
  is_processing (app s) = true ->
  (forall paths,
     exec (add_files w paths) s
     = after_call (QMessageBox_warning "Busy" "Cannot add files now.") s)
  /\ (forall names,
        exec (remove_files w names) s
        = after_call (QMessageBox_warning "Busy" "Cannot remove files now.") s)
  /\ exec (clear_all_files w) s
     = after_call (QMessageBox_warning "Busy" "Cannot clear files now.") s
  /\ exec (upload_files_to_ai w) s
     = after_call (QMessageBox_warning "Busy" "Already processing.") s
  /\ (forall settings,
        exec (apply_and_save_settings w settings) s
        = after_call (QMessageBox_warning "Busy"
                        "Cannot change settings while a task is running.") s)
  /\ (forall b, exec (handle_document_selection_change w b) s = s).
Proof.
  intros H.
  unfold exec, add_files, remove_files, clear_all_files, upload_files_to_ai,
    apply_and_save_settings, handle_document_selection_change, after_call.
  cbn [handle_document_selection_change_]. unfold selection_change, bind, get.
  rewrite H. repeat split; reflexivity.
Qed.

Lemma busy_commands_rejected_witness :
  is_processing (app lab_uploading) = true
  /\ exec (upload_files_to_ai lab) lab_uploading
     = after_call (QMessageBox_warning "Busy" "Already processing.") lab_uploading.
Proof.
  assert (H : is_processing (app lab_uploading) = true) by (vm_compute; reflexivity).
  split; [exact H |].
  exact (proj1 (proj2 (proj2 (proj2 (busy_commands_rejected lab lab_uploading H))))).
Defined.

(** ** Deleting on the backend *)

Lemma deletion_loop (w : World) (l : list File) :
  forall counts s,
    for_each l counts (fun file_obj counts =>
      call (call_delete_file (name file_obj)) ;;
      match genai_delete_file w (name file_obj) with
      | Ok _ => ret (S (fst counts), snd counts)
      | Raise _ => ret (fst counts, S (snd counts))
      end) s
    = ((fst counts + length (filter (fun f => negb (deletion_fails w f)) l),
        snd counts + length (filter (deletion_fails w) l)),
       {| app := app s;
          log := log s ++ map (fun f => (call_delete_file (name f), app s)) l |}).
Proof.
  induction l as [|f l IH]; intros [ok failed] s.
  - cbn. rewrite !Nat.add_0_r, app_nil_r. destruct s. reflexivity.
  - cbn [for_each]. unfold bind at 1. unfold bind at 1. unfold call at 1.
    cbn [filter map].
    assert (Hf : deletion_fails w f
                 = match genai_delete_file w (name f) with
                   | Ok _ => false
                   | Raise _ => true
                   end) by reflexivity.
    destruct (genai_delete_file w (name f)); rewrite Hf; unfold ret at 1; cbn [negb];
      rewrite IH; cbn [fst snd app log length]; rewrite <- app_assoc;
      cbn [List.app]; (apply f_equal2; [apply f_equal2; lia | reflexivity]).
Qed.

Lemma _attempt_backend_deletion_run (w : World) (l : list File) (s : St) :
  _attempt_backend_deletion w l s
  = (tt, {| app := app s;
            log := log s
                   ++ map (fun c => (c, app s))
                          (if is_ai_configured (app s) then deletion_calls w l else []) |}).
Proof.
  unfold _attempt_backend_deletion, deletion_calls.
  destruct l as [|f0 l0].
  { cbn. destruct (is_ai_configured (app s)); cbn; rewrite app_nil_r;
      destruct s; reflexivity. }
  set (l := f0 :: l0). unfold bind at 1. cbn [get].
  destruct (is_ai_configured (app s)); cbn [negb].
  2:{ cbn. rewrite app_nil_r. destruct s; reflexivity. }
  unfold bind at 1. rewrite deletion_loop. cbn [fst snd Nat.add].
  rewrite map_app, map_map.
  destruct (filter (deletion_fails w) l) as [|f1 failed] eqn:Hfailed.
  - cbn. rewrite app_nil_r. reflexivity.
  - cbn [length Nat.ltb Nat.leb]. unfold call. cbn [app log map].
    rewrite <- app_assoc. reflexivity.
Qed.

(** X7. [_attempt_backend_deletion] never changes the application state,
    whatever the backend answers.  When the AI is not configured it makes no
    call at all; otherwise it calls [genai.delete_file] once for every file
    it is given, in order, goes on after a failure, and shows one warning
    at the end if some deletion failed. *)
Theorem backend_deletion_is_best_effort (w : World) (l : list File) (s : St) :
  let s' := exec (_attempt_backend_deletion w l) s in
  app s' = app s
  /\ calls s' = calls s ++ (if is_ai_configured (app s) then deletion_calls w l else []).
Proof.
  cbv zeta. unfold exec. rewrite _attempt_backend_deletion_run. cbn [snd app].
  split; [reflexivity |].
  unfold calls. cbn [log]. rewrite map_app, map_map. cbn [fst].
  rewrite map_id. reflexivity.
Qed.

(** ** Loading the configuration *)


(** ** Applying settings *)





(** ** Initializing the AI *)

(** X11. [initialize_ai] with the library present and a key and a model in
    the config, when [genai.configure] or the creation of the model raises:
    it returns [False]; the AI is not configured, there is no model and no
    session, and the main window is idle; nothing else of the application
    changes, no chat is started and no worker; the error was shown in a
    dialog. *)
Theorem failed_initialization_leaves_unconfigured (w : World) (e : Exn) (s : St) :
  gemini_imported w = true ->
  truthy (cfg_api_key (config (app s))) = true ->
  truthy (cfg_model (config (app s))) = true ->
  genai_configure w (str_opt (cfg_api_key (config (app s)))) = Raise e
  \/ (genai_configure w (str_opt (cfg_api_key (config (app s)))) = Ok tt
      /\ GenerativeModel_init w (str_opt (cfg_model (config (app s))))
           (get_or DEFAULT_TEMPERATURE (cfg_temperature (config (app s)))) = Raise e) ->
  let r := initialize_ai w s in
  fst r = false
  /\ app (snd r) = unconfigured (app s)
  /\ existsb (fun c => match c with
                       | QMessageBox_critical title _ => (title =? "AI Config Error")%string
                       | _ => false
                       end) (calls (snd r)) = true
  /\ filter is_thread_start (calls (snd r)) = filter is_thread_start (calls s)
  /\ filter (fun c => match c with call_start_chat => true | _ => false end) (calls (snd r))
     = filter (fun c => match c with call_start_chat => true | _ => false end) (calls s).
Proof.
  intros Hlib Hkey Hmodel Hfail. cbv zeta.
  unfold initialize_ai, initialize_ai_failed, update_status, calls, unconfigured.
  rewrite Hlib. sym. rewrite Hkey, Hmodel. sym.
  destruct Hfail as [Hc|[Hc Hm]]; rewrite Hc; sym; [ | rewrite Hm; sym ];
    rewrite !map_app, !existsb_app, !filter_app; cbn [map fst existsb filter is_thread_start];
    rewrite !app_nil_r;
    (repeat split; try reflexivity);
    rewrite String.eqb_refl; cbn [orb]; rewrite ?orb_true_r; reflexivity.
Qed.

Lemma failed_initialization_leaves_unconfigured_witness :
  is_ai_configured (app lab_chatting) = true
  /\ current_chat_session (app lab_chatting) = Some 0
  /\ fst (initialize_ai lab_bad_key lab_chatting) = false
  /\ app (snd (initialize_ai lab_bad_key lab_chatting)) = unconfigured (app lab_chatting).
Proof.
  split; [vm_compute; reflexivity |]. split; [vm_compute; reflexivity |].
  assert (Hkey : truthy (cfg_api_key (config (app lab_chatting))) = true)
    by (vm_compute; reflexivity).
  assert (Hmodel : truthy (cfg_model (config (app lab_chatting))) = true)
    by (vm_compute; reflexivity).
  pose proof (failed_initialization_leaves_unconfigured lab_bad_key
                {| exn_class := Unauthenticated; exn_msg := "401 API key not valid" |}
                lab_chatting eq_refl Hkey Hmodel (or_introl eq_refl)) as H.
  exact (conj (proj1 H) (proj1 (proj2 H))).
Defined.

(** ** Requesting an upload *)

Lemma mem_existsb {V : Type} (k : string) (d : dict V) :
  PyDict.mem k d = existsb (String.eqb k) (map fst d).
Proof.
  unfold PyDict.mem. induction d as [|[k0 v0] d IH]; cbn.
  - reflexivity.
  - destruct (k =? k0)%string; [reflexivity | exact IH].
Qed.

Lemma in_keys_get {V : Type} (k : string) (d : dict V) :
  In k (PyDict.keys d) -> exists v, PyDict.get k d = Some v.
Proof.
  unfold PyDict.keys. induction d as [|[k0 v0] d IH]; cbn; intros H.
  - destruct H.
  - destruct (String.eqb_spec k k0) as [Heq|Hne]; [eexists; reflexivity |].
    destruct H as [H|H]; [congruence | exact (IH H)].
Qed.

Lemma in_keys_minus {V W : Type} (k : string) (a : dict V) (b : dict W) :
  In k (PyDict.keys_minus a b) ->
  (exists v, PyDict.get k a = Some v) /\ PyDict.mem k b = false.
Proof.
  unfold PyDict.keys_minus. intros H. apply filter_In in H. destruct H as [Hin Hb].
  split; [apply in_keys_get, Hin |].
  rewrite mem_existsb. apply negb_true_iff, Hb.
Qed.

Lemma paths_of_basenames {V : Type} (w : World) (local : dict string) (uploaded : dict V)
    (l : list string) :
  (forall b, In b l -> (exists p, PyDict.get b local = Some p)
                       /\ PyDict.mem b uploaded = false) ->
  filter (fun p => negb (os_path_exists w p))
         (flat_map (fun b => match PyDict.get b local with
                             | Some p => [p]
                             | None => []
                             end) l) = [] ->
  Forall2 (fun b p => PyDict.get b local = Some p
                      /\ PyDict.mem b uploaded = false
                      /\ os_path_exists w p = true)
          l
          (flat_map (fun b => match PyDict.get b local with
                              | Some p => [p]
                              | None => []
                              end) l).
Proof.
  induction l as [|b l IH]; intros Hall Hexist; cbn [flat_map].
  - constructor.
  - destruct (Hall b (or_introl eq_refl)) as [[p Hp] Hup].
    cbn [flat_map] in Hexist. rewrite Hp in *. cbn [List.app filter] in *.
    destruct (os_path_exists w p) eqn:Hex; cbn [negb] in Hexist; [ | discriminate Hexist ].
    constructor.
    + repeat split; assumption.
    + apply IH; [ | exact Hexist ]. intros b' Hb'. apply Hall. right. exact Hb'.
Qed.

(** X12. [upload_files_to_ai], started with an empty call log, in a world
    where iterating a set yields members of the set.  Either it starts no
    worker, and then the application is exactly as before (busy, AI not
    configured, no local file, nothing left to upload, or a file missing on
    disk); or it starts one upload worker, from an idle and configured
    state, and the batch is the local files that are not yet uploaded: every
    basename of the batch is in the local list and not among the uploaded
    files, its path is the one registered for it, and that path exists. *)
Theorem upload_request_sends_missing_files (w : World) (a : App) :
  (forall l, incl (set_order w l) l) ->
  let s' := exec (upload_files_to_ai w) (start a) in
  (filter is_thread_start (calls s') = [] /\ app s' = a)
  \/ (exists uw,
        filter is_thread_start (calls s') = [thread_start (UploadWorker uw)]
        /\ app s' = set_worker (Some (UploadWorker uw)) (set_is_processing true a)
        /\ is_processing a = false
        /\ is_ai_configured a = true
        /\ basenames uw
           = set_order w (PyDict.keys_minus (local_file_paths a) (uploaded_files a))
        /\ file_paths uw <> []
        /\ Forall2 (fun b p => PyDict.get b (local_file_paths a) = Some p
                               /\ PyDict.mem b (uploaded_files a) = false
                               /\ os_path_exists w p = true)
                   (basenames uw) (file_paths uw)).
Proof.
  intros Hset. cbv zeta.
  set (s' := exec (upload_files_to_ai w) (start a)).
  assert (Hs' : s' = exec (upload_files_to_ai w) (start a)) by reflexivity. clearbody s'.
  unfold exec, upload_files_to_ai in Hs'. unfold bind at 1 in Hs'.
  cbn [get start app] in Hs'.
  destruct (is_processing a) eqn:Hidle; [left; subst s'; split; reflexivity |].
  destruct (is_ai_configured a) eqn:Hconf; cbn [negb] in Hs';
    [ | left; subst s'; split; reflexivity ].
  destruct (local_file_paths a) as [|entry rest] eqn:Hlocal;
    [left; subst s'; split; reflexivity |].
  rewrite <- Hlocal in Hs' |- *. cbv zeta in Hs'.
  remember (set_order w (PyDict.keys_minus (local_file_paths a) (uploaded_files a)))
    as names eqn:Hnames.
  pose proof (paths_of_basenames w (local_file_paths a) (uploaded_files a) names) as Hpaths.
  remember (flat_map (fun b => match PyDict.get b (local_file_paths a) with
                               | Some p => [p]
                               | None => []
                               end) names) as paths eqn:Hp.
  destruct paths as [|p0 paths0]; [left; subst s'; split; reflexivity |].
  destruct (filter (fun p => negb (os_path_exists w p)) (p0 :: paths0))
    as [|m missing] eqn:Hmissing;
    [ | left; subst s'; split; reflexivity ].
  right. exists {| file_paths := p0 :: paths0; basenames := names |}.
  subst s'.
  unfold update_status, start_thread, bind, modify, call, calls.
  cbn [fst snd app log map filter is_thread_start List.app file_paths basenames].
  repeat split; try assumption; try reflexivity.
  - discriminate.
  - apply Hpaths; [ | reflexivity ].
    intros b Hb. apply in_keys_minus. rewrite Hnames in Hb. apply (Hset _ b Hb).
Qed.

Lemma upload_request_sends_missing_files_witness :
  filter is_thread_start (calls (exec (upload_files_to_ai lab) (start (app lab_added))))
  = [thread_start (UploadWorker {| file_paths := ["/docs/L1.pdf"];
                                   basenames := ["L1.pdf"] |})]
  /\ (let s' := exec (upload_files_to_ai lab) (start (app lab_added)) in
      (filter is_thread_start (calls s') = [] /\ app s' = app lab_added)
      \/ (exists uw,
            filter is_thread_start (calls s') = [thread_start (UploadWorker uw)]
            /\ app s' = set_worker (Some (UploadWorker uw))
                          (set_is_processing true (app lab_added))
            /\ is_processing (app lab_added) = false
            /\ is_ai_configured (app lab_added) = true
            /\ basenames uw
               = set_order lab (PyDict.keys_minus (local_file_paths (app lab_added))
                                  (uploaded_files (app lab_added)))
            /\ file_paths uw <> []
            /\ Forall2 (fun b p => PyDict.get b (local_file_paths (app lab_added)) = Some p
                                   /\ PyDict.mem b (uploaded_files (app lab_added)) = false
                                   /\ os_path_exists lab p = true)
                       (basenames uw) (file_paths uw))).
Proof.
  split; [vm_compute; reflexivity |].
  exact (upload_request_sends_missing_files lab (app lab_added)
           (fun l => incl_refl l)).
Defined.

(** ** A chat turn, from the message to the answer *)

(** The chat worker in flight runs to its end and its signal is handled. *)
Lemma chat_worker_completes (w : World) (cw : AIChatWorker) (session : ChatSession)
    (s : St) :
  worker (app s) = Some (ChatWorker cw) ->
  chat_session cw = Some session ->
  let s' := exec (worker_runs w) s in
  is_processing (app s') = false
  /\ worker (app s') = None
  /\ current_chat_session (app s') = current_chat_session (app s)
  /\ selected_doc_basename (app s') = selected_doc_basename (app s)
  /\ current_chat_history (app s')
     = current_chat_history (app s)
       ++ match turn_reply w session (user_message_text cw) with
          | Ok reply => [{| role := ROLE_AI; parts := [reply] |}]
          | Raise _ => []
          end
  /\ In (match turn_reply w session (user_message_text cw) with
         | Ok reply => chat_add_message ROLE_AI reply
         | Raise e => chat_add_message ROLE_SYSTEM ("Error: " +++ chat_error_message e)
         end) (calls s').
Proof.
  intros Hw Hsession. cbv zeta.
  unfold exec, worker_runs, turn_reply, calls.
  unfold bind at 1 2 3 4 5 6. cbn [get]. rewrite Hw.
  unfold AIChatWorker_run, chat_except. cbn [is_running negb]. rewrite Hsession.
  cbv zeta.
  destruct (chat_send_message w session [user_message_text cw]) as [response|e];
    [destruct (text response) as [reply|e] | ];
    rewrite signals_emit; cbn [signals flat_map block List.app for_each deliver];
    unfold _handle_ai_result, _handle_ai_error, _on_thread_finished, update_status;
    sym; rewrite ?Hw; sym; rewrite ?app_nil_r;
    (repeat split; try reflexivity);
    rewrite !map_app; cbn [map fst];
    repeat (apply in_or_app; first [right; left; reflexivity | left]).
Qed.

(** X13. A user message in an idle, configured state with a live session,
    followed by the run of the chat worker it starts and the handling of
    the worker's signal.  The user's entry is appended to the history; if
    [send_message] returns a text, the Model entry follows it and is shown;
    if [send_message] or the reading of the text raises, nothing follows it
    and the error is shown as a system message.  In both cases the main
    window is idle again with no worker, and the session and the selection
    are the ones it had: a failed turn does not end the session. *)
Theorem user_turn_round_trip (w : World) (session : ChatSession) (user_text : string)
    (s : St) :
  is_processing (app s) = false ->
  current_chat_session (app s) = Some session ->
  is_ai_configured (app s) = true ->
  let s' := exec (handle_user_message user_text ;; worker_runs w) s in
  is_processing (app s') = false
  /\ worker (app s') = None
  /\ current_chat_session (app s') = Some session
  /\ selected_doc_basename (app s') = selected_doc_basename (app s)
  /\ current_chat_history (app s')
     = current_chat_history (app s)
       ++ {| role := ROLE_USER; parts := [user_text] |}
          :: match turn_reply w session user_text with
             | Ok reply => [{| role := ROLE_AI; parts := [reply] |}]
             | Raise _ => []
             end
  /\ In (match turn_reply w session user_text with
         | Ok reply => chat_add_message ROLE_AI reply
         | Raise e => chat_add_message ROLE_SYSTEM ("Error: " +++ chat_error_message e)
         end) (calls s').
Proof.
  intros Hidle Hsession Hconf. cbv zeta.
  rewrite exec_bind.
  change (snd (handle_user_message user_text s))
    with (exec (handle_user_message user_text) s).
  destruct (user_message_sent session user_text s Hidle Hsession Hconf)
    as (H1h & H1p & H1w & H1s & H1d).
  set (s1 := exec (handle_user_message user_text) s) in *.
  destruct (chat_worker_completes w _ session s1 H1w eq_refl)
    as (H2p & H2w & H2s & H2d & H2h & H2c).
  cbn [user_message_text] in H2h, H2c.
  set (s2 := exec (worker_runs w) s1) in *.
  rewrite H1h in H2h. rewrite H1s in H2s. rewrite H1d in H2d.
  rewrite <- app_assoc in H2h.
  repeat split; assumption.
Qed.

Lemma user_turn_round_trip_witness :
  (* every turn fails in this world, and the session stays *)
  turn_reply lab_offline 0 "Hello?"
  = Raise {| exn_class := ConnectionError; exn_msg := "network unreachable" |}
  /\ is_processing (app lab_chatting) = false
  /\ current_chat_session (app lab_chatting) = Some 0
  /\ is_ai_configured (app lab_chatting) = true
  /\ (let s' := exec (handle_user_message "Hello?" ;; worker_runs lab_offline) lab_chatting in
      is_processing (app s') = false
      /\ worker (app s') = None
      /\ current_chat_session (app s') = Some 0).
Proof.
  split; [reflexivity |].
  assert (Hidle : is_processing (app lab_chatting) = false) by (vm_compute; reflexivity).
  assert (Hsession : current_chat_session (app lab_chatting) = Some 0)
    by (vm_compute; reflexivity).
  assert (Hconf : is_ai_configured (app lab_chatting) = true) by (vm_compute; reflexivity).
  split; [exact Hidle |]. split; [exact Hsession |]. split; [exact Hconf |].
  pose proof (user_turn_round_trip lab_offline 0 "Hello?" lab_chatting
                Hidle Hsession Hconf) as H.
  exact (conj (proj1 H) (conj (proj1 (proj2 H)) (proj1 (proj2 (proj2 H))))).
Defined.

(** ** Refreshing the widgets *)

Lemma index_of_nth (x : string) (l : list string) :
  forall i, index_of x l = Some i -> nth i l "" = x.
Proof.
  induction l as [|y l IH]; intros i H; simpl in H.
  - discriminate H.
  - destruct (String.eqb_spec x y) as [Heq|Hne].
    + injection H as <-. symmetry. exact Heq.
    + destruct (index_of x l) as [j|]; [ | discriminate H ].
      injection H as <-. simpl. apply IH. reflexivity.
Qed.

Lemma str_in_index_of (x : string) (l : list string) :
  str_in x l = true -> exists i, index_of x l = Some i.
Proof.
  unfold str_in. induction l as [|y l IH]; simpl; intros H.
  - discriminate H.
  - destruct (x =? y)%string; [eexists; reflexivity |].
    destruct (IH H) as [i Hi]. rewrite Hi. eexists. reflexivity.
Qed.

(** A change of the selector to the document that is already selected is
    ignored. *)
Lemma selection_of_selected_ignored (w : World) (b : string) (s : St) :
  selected_doc_basename (app s) = Some b ->
  handle_document_selection_change w b s = (tt, s).
Proof.
  intros H. unfold handle_document_selection_change.
  cbn [handle_document_selection_change_]. unfold selection_change, bind, get.
  rewrite H. cbn [opt_str_eqb]. rewrite String.eqb_refl, orb_true_r. reflexivity.
Qed.

Lemma update_document_list_selector (w : World) (names : list string) (s : St) :
  let s' := exec (update_document_list w names) s in
  but_combo (app s') = but_combo (app s)
  /\ log s' = log s
  /\ items (doc_selector_combo (app s')) = names
  /\ signalsBlocked (doc_selector_combo (app s')) = false
  /\ (names <> [] -> currentIndex (doc_selector_combo (app s')) <> None)
  /\ (index_of (currentText (doc_selector_combo (app s))) names = None ->
      names <> [] -> currentIndex (doc_selector_combo (app s')) = Some 0).
Proof.
  cbv zeta.
  unfold exec, update_document_list, blockSignals, set_combo, setCurrentIndex, findText.
  unfold bind, get, modify, ret.
  cbn [fst snd app log doc_selector_combo set_doc_selector_combo items currentIndex
       signalsBlocked].
  destruct names as [|n rest].
  - cbn. split; [reflexivity | split; [reflexivity | split; [reflexivity |
      split; [reflexivity | split]]]];
      intros; exfalso; auto.
  - destruct (index_of (currentText (doc_selector_combo (app s))) (n :: rest)) as [i|] eqn:Hi.
    + apply index_of_lt in Hi. apply Nat.ltb_lt in Hi.
      cbn [fst snd app log doc_selector_combo set_doc_selector_combo items currentIndex
           signalsBlocked].
      rewrite Hi.
      destruct (opt_nat_eqb (Some i) (Some 0));
        cbn; (split; [reflexivity | split; [reflexivity | split; [reflexivity |
          split; [reflexivity | split]]]]); intros; discriminate.
    + cbn. split; [reflexivity | split; [reflexivity | split; [reflexivity |
        split; [reflexivity | split]]]]; intros; first [discriminate | reflexivity].
Qed.

(** Setting the selector to the selected document changes the selector
    only, and leaves it on that document if it is listed. *)
Lemma setCurrentText_selected (w : World) (b : string) (s : St) :
  selected_doc_basename (app s) = Some b ->
  let s' := exec (setCurrentText (handle_document_selection_change w) b) s in
  but_combo (app s') = but_combo (app s)
  /\ log s' = log s
  /\ items (doc_selector_combo (app s')) = items (doc_selector_combo (app s))
  /\ (str_in b (items (doc_selector_combo (app s))) = true ->
      currentText (doc_selector_combo (app s')) = b).
Proof.
  intros Hsel. cbv zeta.
  set (s' := exec (setCurrentText (handle_document_selection_change w) b) s).
  assert (Hs' : s' = exec (setCurrentText (handle_document_selection_change w) b) s)
    by reflexivity.
  clearbody s'.
  unfold exec, setCurrentText, findText in Hs'. unfold bind at 1 in Hs'. cbn [get] in Hs'.
  destruct (index_of b (items (doc_selector_combo (app s)))) as [i|] eqn:Hi.
  2:{ subst s'. cbn [ret snd].
      split; [reflexivity | split; [reflexivity | split; [reflexivity |]]].
      intros Hin. destruct (str_in_index_of _ _ Hin) as [i Hi']. congruence. }
  pose proof (index_of_nth _ _ _ Hi) as Hnth.
  pose proof (index_of_lt _ _ _ Hi) as Hlt. apply Nat.ltb_lt in Hlt.
  unfold setCurrentIndex in Hs'. unfold bind at 1 in Hs'. cbn [get] in Hs'.
  rewrite Hlt in Hs'.
  destruct (opt_nat_eqb (Some i) (currentIndex (doc_selector_combo (app s)))) eqn:Hcur.
  - subst s'. cbn [ret snd].
    split; [reflexivity | split; [reflexivity | split; [reflexivity |]]].
    intros _. unfold currentText.
    destruct (currentIndex (doc_selector_combo (app s))) as [j|]; [ | discriminate Hcur ].
    cbn in Hcur. apply Nat.eqb_eq in Hcur. subst j. exact Hnth.
  - unfold bind at 1 in Hs'. unfold set_combo, modify in Hs'. cbn [fst snd app] in Hs'.
    destruct (signalsBlocked (doc_selector_combo (app s))).
    + subst s'. cbn.
      split; [reflexivity | split; [reflexivity | split; [reflexivity |]]].
      intros _. exact Hnth.
    + unfold currentText at 1 in Hs'. cbn [currentIndex items] in Hs'.
      rewrite Hnth in Hs'.
      rewrite selection_of_selected_ignored in Hs'; [ | exact Hsel ].
      subst s'. cbn.
      split; [reflexivity | split; [reflexivity | split; [reflexivity |]]].
      intros _. exact Hnth.
Qed.

(** What [_update_ui_state] does, for every state. *)
Lemma _update_ui_state_effect (w : World) (s : St) :
  let s' := exec (_update_ui_state w) s in
  but_combo (app s') = but_combo (app s)
  /\ calls s'
     = calls s
       ++ [settings_update_file_list (PyDict.keys (local_file_paths (app s)));
           upload_button_setEnabled
             (negb (Nat.eqb (length (local_file_paths (app s))) 0)
              && is_ai_configured (app s))]
  /\ items (doc_selector_combo (app s')) = PyDict.keys (uploaded_files (app s))
  /\ (truthy (selected_doc_basename (app s))
      && str_in (str_opt (selected_doc_basename (app s)))
                (PyDict.keys (uploaded_files (app s))) = true ->
      currentText (doc_selector_combo (app s')) = str_opt (selected_doc_basename (app s)))
  /\ (selected_doc_basename (app s) = None ->
      index_of (currentText (doc_selector_combo (app s)))
               (PyDict.keys (uploaded_files (app s))) = None ->
      PyDict.keys (uploaded_files (app s)) <> [] ->
      currentIndex (doc_selector_combo (app s')) = Some 0).
Proof.
  cbv zeta. unfold _update_ui_state.
  rewrite exec_bind. cbn [get fst snd]. rewrite exec_bind.
  set (c1 := settings_update_file_list (PyDict.keys (local_file_paths (app s)))).
  change (snd (call c1 s)) with (after_call c1 s).
  set (s1 := after_call c1 s).
  cbv beta zeta. rewrite exec_bind.
  destruct (update_document_list_selector w (PyDict.keys (uploaded_files (app s))) s1)
    as (Hbc & Hlog & Hitems & Hblk & Hidx & Hfresh).
  unfold exec in Hbc, Hlog, Hitems, Hblk, Hidx, Hfresh.
  change (app s1) with (app s) in Hfresh.
  set (s2 := snd (update_document_list w (PyDict.keys (uploaded_files (app s))) s1)) in *.
  cbv beta. rewrite exec_bind.
  set (c2 := upload_button_setEnabled
               (negb (Nat.eqb (length (local_file_paths (app s))) 0)
                && is_ai_configured (app s))).
  change (snd (call c2 s2)) with (after_call c2 s2).
  set (s3 := after_call c2 s2).
  cbv beta. rewrite exec_bind. cbn [get fst snd].
  change (app s3) with (app s2).
  assert (Hsel : selected_doc_basename (app s2) = selected_doc_basename (app s)).
  { exact (f_equal selected_doc_basename Hbc). }
  rewrite Hsel.
  assert (Hcalls : calls s3 = calls s ++ [c1; c2]).
  { unfold calls, s3, after_call. cbn [log]. rewrite Hlog. unfold s1, after_call.
    cbn [log]. rewrite !map_app. cbn [map fst]. rewrite <- app_assoc. reflexivity. }
  assert (Hdone : forall s4,
    but_combo (app s4) = but_combo (app s3) -> log s4 = log s3 ->
    items (doc_selector_combo (app s4)) = items (doc_selector_combo (app s3)) ->
    (truthy (selected_doc_basename (app s))
     && str_in (str_opt (selected_doc_basename (app s)))
               (PyDict.keys (uploaded_files (app s))) = true ->
     currentText (doc_selector_combo (app s4)) = str_opt (selected_doc_basename (app s))) ->
    (selected_doc_basename (app s) = None ->
     currentIndex (doc_selector_combo (app s4))
     = currentIndex (doc_selector_combo (app s2))) ->
    but_combo (app s4) = but_combo (app s)
    /\ calls s4 = calls s ++ [c1; c2]
    /\ items (doc_selector_combo (app s4)) = PyDict.keys (uploaded_files (app s))
    /\ (truthy (selected_doc_basename (app s))
        && str_in (str_opt (selected_doc_basename (app s)))
                  (PyDict.keys (uploaded_files (app s))) = true ->
        currentText (doc_selector_combo (app s4)) = str_opt (selected_doc_basename (app s)))
    /\ (selected_doc_basename (app s) = None ->
        index_of (currentText (doc_selector_combo (app s)))
                 (PyDict.keys (uploaded_files (app s))) = None ->
        PyDict.keys (uploaded_files (app s)) <> [] ->
        currentIndex (doc_selector_combo (app s4)) = Some 0)).
  { intros s4 H1 H2 H3 H4 H5.
    split; [rewrite H1; exact Hbc |].
    split; [unfold calls in *; rewrite H2; exact Hcalls |].
    split; [rewrite H3; exact Hitems |].
    split; [exact H4 |].
    intros Hnone Hi Hk. rewrite (H5 Hnone). apply Hfresh; assumption. }
  destruct (truthy (selected_doc_basename (app s))
            && str_in (str_opt (selected_doc_basename (app s)))
                      (PyDict.keys (uploaded_files (app s)))) eqn:Hc.
  - apply andb_true_iff in Hc. destruct Hc as [Htruthy Hin].
    destruct (selected_doc_basename (app s)) as [b|] eqn:Hb; [ | discriminate Htruthy ].
    cbn [str_opt get_or] in *.
    destruct (String.eqb_spec (currentText (doc_selector_combo (app s2))) b) as [Heq|Hne];
      cbn [negb].
    + apply Hdone; first [reflexivity | discriminate | (intros _; exact Heq)].
    + assert (Hsel3 : selected_doc_basename (app s3) = Some b) by exact Hsel.
      destruct (setCurrentText_selected w b s3 Hsel3) as (H1 & H2 & H3 & H4).
      assert (H4' : currentText
                      (doc_selector_combo
                         (app (exec (setCurrentText (handle_document_selection_change w) b)
                                    s3))) = b).
      { apply H4. change (app s3) with (app s2). rewrite Hitems. exact Hin. }
      apply Hdone; first [assumption | discriminate | (intros _; exact H4')].
  - destruct (PyDict.keys (uploaded_files (app s))) as [|n rest] eqn:Hkeys.
    + apply Hdone; first [reflexivity | discriminate | (intros _; reflexivity)].
    + destruct (currentIndex (doc_selector_combo (app s2))) eqn:Hcur.
      * apply Hdone; first [reflexivity | discriminate | (intros _; exact Hcur)].
      * exfalso. apply Hidx; [discriminate | reflexivity].
Qed.

(** X14. [_update_ui_state] changes nothing but the selector widget, for
    every state: the file maps, the selection, the session, the history and
    the flags are as before, no chat is started, and the only calls are the
    refresh of the file list of the settings view and the enabling of the
    upload button.  Afterwards the selector lists the uploaded documents,
    and shows the selected document whenever that is uploaded. *)
Theorem ui_refresh_touches_selector_only (w : World) (s : St) :
  let s' := exec (_update_ui_state w) s in
  but_combo (app s') = but_combo (app s)
  /\ calls s'
     = calls s
       ++ [settings_update_file_list (PyDict.keys (local_file_paths (app s)));
           upload_button_setEnabled
             (negb (Nat.eqb (length (local_file_paths (app s))) 0)
              && is_ai_configured (app s))]
  /\ items (doc_selector_combo (app s')) = PyDict.keys (uploaded_files (app s))
  /\ (truthy (selected_doc_basename (app s))
      && str_in (str_opt (selected_doc_basename (app s)))
                (PyDict.keys (uploaded_files (app s))) = true ->
      currentText (doc_selector_combo (app s')) = str_opt (selected_doc_basename (app s))).
Proof.
  destruct (_update_ui_state_effect w s) as (H1 & H2 & H3 & H4 & _).
  cbv zeta. split; [exact H1 | split; [exact H2 | split; [exact H3 | exact H4]]].
Qed.

(** ** Adding files: what is stored, what is answered, what is saved *)

Lemma added_paths_get (w : World) (paths : list string) :
  forall local k,
    PyDict.get k (added_paths w paths local)
    = match PyDict.get k local with
      | Some p => Some p
      | None => first_path w paths k
      end.
Proof.
  induction paths as [|path rest IH]; intros local k; cbn [added_paths first_path find].
  - destruct (PyDict.get k local); reflexivity.
  - fold (first_path w rest k).
    destruct (os_path_exists w path) eqn:Hex; cbn [andb].
    2:{ apply IH. }
    destruct (PyDict.mem (os_path_basename w path) local) eqn:Hmem; cbn [negb].
    + rewrite IH. destruct (PyDict.get k local) as [p|] eqn:Hget; [reflexivity |].
      destruct (String.eqb_spec (os_path_basename w path) k) as [Heq|Hne]; [ | reflexivity ].
      exfalso. unfold PyDict.mem in Hmem. rewrite Heq, Hget in Hmem. discriminate Hmem.
    + rewrite IH, get_set. rewrite (String.eqb_sym k).
      destruct (String.eqb_spec (os_path_basename w path) k) as [Heq|Hne].
      * unfold PyDict.mem in Hmem. rewrite <- Heq.
        destruct (PyDict.get (os_path_basename w path) local);
          [discriminate Hmem | reflexivity].
      * reflexivity.
Qed.

Lemma add_warnings_all (w : World) (paths : list string) :
  forall local, Forall (fun c => is_any_warning c = true) (add_warnings w paths local).
Proof.
  induction paths as [|path rest IH]; intros local; cbn [add_warnings]; [constructor |].
  destruct (negb (os_path_exists w path)); [constructor; [reflexivity | apply IH] |].
  destruct (PyDict.mem _ local); [constructor; [reflexivity | apply IH] | apply IH].
Qed.

Lemma add_warnings_missing (w : World) (paths : list string) :
  forall local,
    length (filter (is_warning "File Not Found") (add_warnings w paths local))
    = length (filter (fun p => negb (os_path_exists w p)) paths).
Proof.
  induction paths as [|path rest IH]; intros local; cbn [add_warnings filter]; [reflexivity |].
  destruct (negb (os_path_exists w path)).
  - cbn [filter is_warning]. cbn [String.eqb Ascii.eqb Bool.eqb]. cbn [length]. f_equal. apply IH.
  - destruct (PyDict.mem _ local); [ | apply IH ].
    cbn [filter is_warning]. cbn [String.eqb Ascii.eqb Bool.eqb]. apply IH.
Qed.

Lemma add_warnings_duplicate (w : World) (paths : list string) :
  forall local,
    length (filter (is_warning "Duplicate File") (add_warnings w paths local))
    + length (added_paths w paths local)
    = length (filter (os_path_exists w) paths) + length local.
Proof.
  induction paths as [|path rest IH]; intros local;
    cbn [add_warnings added_paths filter]; [reflexivity |].
  destruct (os_path_exists w path); cbn [negb andb].
  - destruct (PyDict.mem (os_path_basename w path) local) eqn:Hmem; cbn [negb].
    + cbn [filter is_warning]. cbn [String.eqb Ascii.eqb Bool.eqb]. cbn [length].
      pose proof (IH local). lia.
    + pose proof (IH (PyDict.set (os_path_basename w path) path local)) as H.
      rewrite (length_set_new _ _ _ Hmem) in H. cbn [length]. lia.
  - cbn [filter is_warning]. cbn [String.eqb Ascii.eqb Bool.eqb]. apply IH.
Qed.

Lemma set_local_file_paths_same (a : App) :
  set_local_file_paths (local_file_paths a) a = a.
Proof. destruct a. reflexivity. Qed.

(** The loop of [add_files]: the state it leaves, its count, its dialogs. *)
Lemma add_file_loop_exact (w : World) (paths : list string) :
  forall s added,
    let r := for_each paths added (add_file w) s in
    app (snd r)
    = set_local_file_paths (added_paths w paths (local_file_paths (app s))) (app s)
    /\ calls (snd r) = calls s ++ add_warnings w paths (local_file_paths (app s))
    /\ fst r + length (local_file_paths (app s))
       = added + length (added_paths w paths (local_file_paths (app s))).
Proof.
  induction paths as [|path rest IH]; intros s added; cbv zeta.
  - cbn. rewrite set_local_file_paths_same, app_nil_r. repeat split; reflexivity.
  - cbn [for_each added_paths add_warnings]. rewrite bind_run.
    destruct (os_path_exists w path) eqn:Hex; cbn [andb negb].
    + destruct (PyDict.mem (os_path_basename w path) (local_file_paths (app s))) eqn:Hmem;
        cbn [negb].
      * rewrite (add_file_duplicate w path added s Hex Hmem). cbn [fst snd].
        match goal with
        | |- context [for_each rest added (add_file w) ?s1] =>
          destruct (IH s1 added) as (H1 & H2 & H3)
        end.
        cbn [app] in H1, H2, H3.
        split; [exact H1 |]. split; [ | exact H3 ].
        rewrite H2. unfold calls. cbn [log]. rewrite map_app, <- app_assoc. reflexivity.
      * rewrite (add_file_new w path added s Hex Hmem). cbn [fst snd].
        match goal with
        | |- context [for_each rest (S added) (add_file w) ?s1] =>
          destruct (IH s1 (S added)) as (H1 & H2 & H3)
        end.
        cbn [app local_file_paths set_local_file_paths] in H1, H2, H3.
        split; [rewrite H1; reflexivity |]. split; [exact H2 |].
        rewrite (length_set_new _ _ _ Hmem) in H3. lia.
    + rewrite (add_file_missing w path added s Hex). cbn [fst snd].
      match goal with
      | |- context [for_each rest added (add_file w) ?s1] =>
        destruct (IH s1 added) as (H1 & H2 & H3)
      end.
      cbn [app] in H1, H2, H3.
      split; [exact H1 |]. split; [ | exact H3 ].
      rewrite H2. unfold calls. cbn [log]. rewrite map_app, <- app_assoc. reflexivity.
Qed.

Lemma calls_update_status (message : string) (is_error processing : bool) (s : St) :
  calls (exec (update_status message is_error processing) s)
  = calls s ++ [show_status message is_error processing;
                set_controls_enabled (negb processing)].
Proof.
  unfold exec, update_status, bind, modify, call, calls. cbn.
  rewrite !map_app, <- app_assoc. reflexivity.
Qed.

(** The calls of [save_config] when [configparser] takes the values. *)
Definition save_calls (w : World) (a : App) : list Call :=
  match config_write_error w with
  | None => [write_config (values_of w a)]
  | Some failure =>
    [QMessageBox_critical "Config Save Error"
       ("Could not write settings to konenako_simple_config.ini."
        +++ nl +++ "Error: " +++ failure_text failure)]
  end.

Lemma save_config_taken (w : World) (s : St) :
  refused w (app s) = None ->
  exists saved,
    fst (save_config w s) = Ok saved
    /\ calls (exec (save_config w) s) = calls s ++ save_calls w (app s)
    /\ local_file_paths (app (exec (save_config w) s)) = local_file_paths (app s)
    /\ is_ai_configured (app (exec (save_config w) s)) = is_ai_configured (app s).
Proof.
  intros Htaken. unfold exec, save_config, save_calls, bind, get. rewrite Htaken.
  destruct (config_write_error w) as [failure|].
  - exists false. destruct (file_left failure);
      unfold modify, call, ret, calls; cbn -[String.append]; rewrite map_app;
      repeat split; reflexivity.
  - exists true. unfold modify, call, ret, calls. cbn. rewrite map_app.
    repeat split; reflexivity.
Qed.

(** What follows the loop of [add_files] when something was added. *)
Lemma add_files_rest (w : World) (message : string) (s : St) :
  let s' := exec (_ <-? save_config w ;;
                  _update_ui_state w ;;
                  update_status message false false) s in
  local_file_paths (app s') = local_file_paths (app s)
  /\ match refused w (app s) with
     | Some _ => s' = s
     | None =>
       calls s'
       = calls s ++ save_calls w (app s)
         ++ [settings_update_file_list (PyDict.keys (local_file_paths (app s)));
             upload_button_setEnabled
               (negb (Nat.eqb (length (local_file_paths (app s))) 0)
                && is_ai_configured (app s));
             show_status message false false;
             set_controls_enabled true]
     end.
Proof.
  cbv zeta. split.
  - apply (preserves_elim (local_is (local_file_paths (app s)))); [ | reflexivity ].
    unfold or_leave, save_config. keep.
  - destruct (refused w (app s)) as [value|] eqn:Htaken.
    + destruct (save_config_refused w s value Htaken) as (e & Hsave & _).
      unfold or_leave. rewrite exec_bind, Hsave. reflexivity.
    + destruct (save_config_taken w s Htaken) as (saved & Hsaved & Hcalls & Hlocal & Hai).
      unfold or_leave. rewrite exec_bind, Hsaved. cbv beta iota. rewrite exec_bind.
      fold (exec (save_config w) s).
      rewrite calls_update_status.
      fold (exec (_update_ui_state w) (exec (save_config w) s)).
      destruct (_update_ui_state_effect w (exec (save_config w) s)) as (_ & Hui & _).
      cbv zeta in Hui. rewrite Hui, Hcalls, Hlocal, Hai.
      rewrite <- !app_assoc. reflexivity.
Qed.

Lemma count_warnings (f : Call -> bool) (before after : list Call) :
  Forall (fun c => is_any_warning c = false) after ->
  (forall c, f c = true -> is_any_warning c = true) ->
  length (filter f (before ++ after)) = length (filter f before).
Proof.
  intros Hafter Hf. rewrite filter_app, length_app.
  assert (E : filter f after = []).
  { induction Hafter as [|c l Hc _ IH]; [reflexivity |].
    cbn [filter]. destruct (f c) eqn:Hfc; [ | exact IH ].
    rewrite (Hf c Hfc) in Hc. discriminate Hc. }
  rewrite E. cbn. lia.
Qed.

Lemma is_warning_any (title : string) (c : Call) :
  is_warning title c = true -> is_any_warning c = true.
Proof. destruct c; cbn; intros H; first [reflexivity | discriminate H]. Qed.

Lemma existsb_warnings (f : Call -> bool) (l : list Call) :
  Forall (fun c => is_any_warning c = true) l ->
  (forall c, f c = true -> is_any_warning c = false) ->
  existsb f l = false.
Proof.
  intros Hl Hf. induction Hl as [|c l Hc _ IH]; [reflexivity |].
  cbn [existsb]. rewrite IH, orb_false_r.
  destruct (f c) eqn:Hfc; [ | reflexivity ].
  rewrite (Hf c Hfc) in Hc. discriminate Hc.
Qed.

(** C10. [add_files], started with an empty call log.  A busy main window
    rejects the call with one warning and changes nothing.  An idle one
    goes through the whole list:
    - the registry afterwards: a basename that was there keeps its path,
      and a new basename gets the first listed path that exists and bears
      it, so that neither a path of the registry nor one stored earlier in
      the same call is overwritten;
    - every listed path is answered: each missing path by one warning "File
      Not Found", and each existing path either by one more entry of the
      registry or by one warning "Duplicate File";
    - the config file is written or the file list refreshed only if the
      registry has grown;
    - if it has grown, [save_config] is tried: when [configparser] refuses
      a value, which it does for a path with a stray [%], the [ValueError]
      ends the call, and its only calls are the warnings of the loop: no
      write, no refresh, no status; otherwise the file list is refreshed
      and, when the file can be written, the config is saved. *)
Theorem add_files_skips_and_keeps (w : World) (paths : list string) (a : App) :
  let s' := exec (add_files w paths) (start a) in
  let local' := local_file_paths (app s') in
  let added := length local' - length (local_file_paths a) in
  (is_processing a = true ->
   app s' = a /\ calls s' = [QMessageBox_warning "Busy" "Cannot add files now."])
  /\ (is_processing a = false ->
      (forall k, PyDict.get k local'
                 = match PyDict.get k (local_file_paths a) with
                   | Some p => Some p
                   | None => first_path w paths k
                   end)
      /\ count_calls (is_warning "File Not Found") s'
         = length (filter (fun p => negb (os_path_exists w p)) paths)
      /\ count_calls (is_warning "Duplicate File") s' + added
         = length (filter (os_path_exists w) paths)
      /\ (called is_write_config s' \/ called is_ui_refresh s' -> 0 < added)
      /\ (0 < added ->
          match refused w (set_local_file_paths local' a) with
          | Some _ => Forall (fun c => is_any_warning c = true) (calls s')
          | None =>
            called is_ui_refresh s'
            /\ (config_write_error w = None -> called is_write_config s')
          end)).
Proof.
  cbv zeta. split.
  { intros Hbusy. unfold exec, add_files, bind, get, call, calls. cbn [start app fst snd].
    rewrite Hbusy. cbn. split; reflexivity. }
  intros Hidle.
  unfold add_files. rewrite exec_bind. cbn [get fst snd start app]. rewrite Hidle.
  rewrite exec_bind.
  destruct (add_file_loop_exact w paths (start a) 0) as (Happ & Hcalls & Hcount).
  cbv zeta in Happ, Hcalls, Hcount. cbn [start app log calls map List.app] in Happ, Hcalls, Hcount.
  set (r := for_each paths 0 (add_file w) (start a)) in *.
  pose proof (add_warnings_all w paths (local_file_paths a)) as Hall.
  pose proof (add_warnings_missing w paths (local_file_paths a)) as Hmissing.
  pose proof (add_warnings_duplicate w paths (local_file_paths a)) as Hduplicate.
  assert (Hlocal1 : local_file_paths (app (snd r)) = added_paths w paths (local_file_paths a))
    by (rewrite Happ; reflexivity).
  destruct (Nat.ltb_spec 0 (fst r)) as [Hpos|Hzero].
  - (* something was added *)
    match goal with
    | |- context [update_status ?m false false] =>
      destruct (add_files_rest w m (snd r)) as [Hlocal Hrest]; cbv zeta in Hlocal, Hrest
    end.
    rewrite Hlocal, Hlocal1.
    assert (Hsame : set_local_file_paths (added_paths w paths (local_file_paths a)) a
                    = app (snd r)) by (symmetry; exact Happ).
    rewrite Hsame.
    split; [intros k; apply added_paths_get |].
    destruct (refused w (app (snd r))) as [value|].
    + rewrite Hrest. unfold count_calls. rewrite Hcalls, Hmissing.
      split; [reflexivity |]. split; [lia |]. split; [intros _; lia |].
      intros _. exact Hall.
    + unfold count_calls, called. rewrite Hrest, Hcalls.
      assert (Hafter : forall l,
        Forall (fun c => is_any_warning c = false)
               (save_calls w (app (snd r)) ++ l) <->
        Forall (fun c => is_any_warning c = false) l).
      { intros l. unfold save_calls. destruct (config_write_error w).
        - split; [intros H; inversion H; assumption | intros H; constructor; [reflexivity | exact H]].
        - split; [intros H; inversion H; assumption | intros H; constructor; [reflexivity | exact H]]. }
      rewrite !(count_warnings _ (add_warnings w paths (local_file_paths a)));
        try (intros c; apply is_warning_any);
        try (apply Hafter; repeat constructor).
      rewrite Hmissing.
      split; [reflexivity |]. split; [lia |]. split; [intros _; lia |].
      intros _. split.
      * rewrite !existsb_app. cbn. rewrite !orb_true_r. reflexivity.
      * intros Hwrite. unfold save_calls. rewrite Hwrite.
        rewrite !existsb_app. cbn. apply orb_true_r.
  - (* nothing was added *)
    assert (Hnone : fst r = 0) by lia.
    unfold exec, ret. cbn [snd]. rewrite Hlocal1.
    split; [intros k; apply added_paths_get |].
    unfold count_calls, called. rewrite Hcalls, Hmissing.
    split; [reflexivity |]. split; [lia |].
    split.
    + intros [H|H]; exfalso;
        rewrite (existsb_warnings _ _ Hall) in H; try discriminate H;
        intros c Hc; destruct c; first [reflexivity | discriminate Hc].
    + intros Hgrown. exfalso. lia.
Qed.

Lemma add_files_skips_and_keeps_witness :
  is_processing (app lab_ready) = false
  /\ (let s' := exec (add_files lab lab_two_of_a_name) (start (app lab_ready)) in
      let local' := local_file_paths (app s') in
      (forall k, PyDict.get k local'
                 = match PyDict.get k (local_file_paths (app lab_ready)) with
                   | Some p => Some p
                   | None => first_path lab lab_two_of_a_name k
                   end)
      /\ count_calls (is_warning "File Not Found") s'
         = length (filter (fun p => negb (os_path_exists lab p)) lab_two_of_a_name)).
Proof.
  assert (Hidle : is_processing (app lab_ready) = false) by (vm_compute; reflexivity).
  split; [exact Hidle |].
  pose proof (proj2 (add_files_skips_and_keeps lab lab_two_of_a_name (app lab_ready)) Hidle)
    as H.
  exact (conj (proj1 H) (proj1 (proj2 H))).
Defined.

(** In [lab]: of two listed files of the same name the first is stored and
    the second answered by a warning; and a file with a [%] in its name is
    stored, after which [save_config] raises: nothing is written, shown or
    refreshed. *)
Example add_files_two_of_a_name :
  (let s' := exec (add_files lab lab_two_of_a_name) (start (app lab_ready)) in
   local_file_paths (app s') = [("L1.pdf", "/docs/L1.pdf"); ("A.pdf", "/docs/A.pdf")]
   /\ filter is_any_warning (calls s')
      = [QMessageBox_warning "File Not Found" "Skipping missing file: /docs/missing.pdf";
         QMessageBox_warning "Duplicate File" "'L1.pdf' is already in the list."])
  /\ (let s' := exec (add_files lab_percent ["/docs/Lecture%201.pdf"])
                     (start (app lab_ready)) in
      local_file_paths (app s') = [("Lecture%201.pdf", "/docs/Lecture%201.pdf")]
      /\ refused lab_percent (app s')
         = Some (lab_json_dumps [("Lecture%201.pdf", "/docs/Lecture%201.pdf")])
      /\ calls s' = []
      /\ disk (app s') = disk (app lab_ready)).
Proof.
  split; [split; vm_compute; reflexivity |].
  do 3 (split; [vm_compute; reflexivity |]). vm_compute. reflexivity.
Qed.

(** ** The selection, the session and the file maps along every run *)

Lemma consistent_modify (f : App -> App) :
  (forall a, files_consistent a -> files_consistent (f a)) ->
  preserves consistent (modify f).
Proof. intros Hf s H. apply Hf, H. Qed.

#[local] Hint Extern 1 (preserves consistent (modify _)) =>
  (apply consistent_modify; let H := fresh in intros ? H; exact H) : keep.

Lemma selection_ok_call (c : Call) : preserves selection_ok (call c).
Proof. intros s H. exact H. Qed.

Lemma selection_ok_modify (f : App -> App) :
  (forall a, selection_uploaded a /\ session_has_document a ->
             selection_uploaded (f a) /\ session_has_document (f a)) ->
  preserves selection_ok (modify f).
Proof. intros Hf s H. apply Hf, H. Qed.

Lemma selection_ok_combo (f : ComboBox -> ComboBox) : preserves selection_ok (set_combo f).
Proof. intros s H. exact H. Qed.

Lemma selection_ok_session_none :
  preserves selection_ok (modify (set_current_chat_session None)).
Proof.
  intros s [H1 H2]. split; [exact H1 |]. intros H. exfalso. apply H. reflexivity.
Qed.

Lemma selection_ok_uploaded_set (k : string) (v : File) :
  preserves selection_ok
    (modify (fun a => set_uploaded_files (PyDict.set k v (uploaded_files a)) a)).
Proof.
  intros s [H1 H2]. split; [ | exact H2 ].
  intros b Hb. cbn. rewrite mem_set. rewrite (H1 b Hb). apply orb_true_r.
Qed.

#[local] Hint Resolve selection_ok_call selection_ok_combo selection_ok_session_none
  selection_ok_uploaded_set : keep.
#[local] Hint Extern 1 (preserves selection_ok (modify _)) =>
  (apply selection_ok_modify; let H := fresh in intros ? H; exact H) : keep.

Lemma selection_ok_update_status (message : string) (is_error processing : bool) :
  preserves selection_ok (update_status message is_error processing).
Proof. unfold update_status. keep. Qed.
#[local] Hint Resolve selection_ok_update_status : keep.

Lemma selection_ok_save_config (w : World) : preserves selection_ok (save_config w).
Proof. unfold save_config. keep. Qed.
#[local] Hint Resolve selection_ok_save_config : keep.

Lemma selection_ok_blockSignals (b : bool) : preserves selection_ok (blockSignals b).
Proof. unfold blockSignals. keep. Qed.
#[local] Hint Resolve selection_ok_blockSignals : keep.

Lemma selection_ok_setCurrentIndex (h : string -> M unit) (i : nat) :
  (forall t, preserves selection_ok (h t)) -> preserves selection_ok (setCurrentIndex h i).
Proof. intros Hh. unfold setCurrentIndex. keep. Qed.

Lemma selection_ok_setCurrentText (h : string -> M unit) (t : string) :
  (forall t, preserves selection_ok (h t)) -> preserves selection_ok (setCurrentText h t).
Proof. intros Hh. unfold setCurrentText. keep. Qed.

Lemma selection_ok_start_thread (wk : Worker) : preserves selection_ok (start_thread wk).
Proof. unfold start_thread. keep. Qed.
#[local] Hint Resolve selection_ok_start_thread : keep.

Lemma selection_ok__start_ai_chat_turn (message : string) (initial : bool) :
  preserves selection_ok (_start_ai_chat_turn message initial).
Proof. unfold _start_ai_chat_turn. keep. Qed.
#[local] Hint Resolve selection_ok__start_ai_chat_turn : keep.

(** A new session is created only for a selected document. *)
Lemma selection_ok_start_new_chat (w : World) (gm : GenerativeModel) (selected : string)
    (s : St) :
  selection_ok s ->
  selected_doc_basename (app s) <> None ->
  selection_ok (exec (start_new_chat w gm selected) s).
Proof.
  intros [H1 H2] Hsel.
  unfold start_new_chat. do 3 rewrite exec_bind. cbn [get fst snd].
  destruct (model_start_chat w gm) as [u|e].
  - rewrite exec_bind.
    apply (preserves_elim selection_ok); [keep |].
    unfold update_status, bind, modify, call. cbn.
    split; [exact H1 |]. intros _. exact Hsel.
  - apply (preserves_elim selection_ok); [keep |].
    unfold update_status, bind, modify, call. cbn.
    split; [exact H1 | exact H2].
Qed.

Lemma selection_ok_selection_change (t : M unit) (h : string -> M unit) (b : string) :
  preserves selection_ok t ->
  (forall b', preserves selection_ok (h b')) ->
  preserves selection_ok (selection_change t h b).
Proof.
  intros Ht Hh s Hs. unfold selection_change. rewrite exec_bind. cbn [get fst snd].
  destruct (is_processing (app s) || negb (truthy (Some b))
            || opt_str_eqb (Some b) (selected_doc_basename (app s))); [exact Hs |].
  destruct (PyDict.mem b (uploaded_files (app s))) eqn:Hup; cbn [negb].
  - do 2 rewrite exec_bind.
    apply (preserves_elim selection_ok); [keep |].
    unfold modify. cbn. split.
    + intros b' Hb'. injection Hb' as <-. exact Hup.
    + intros H. exfalso. apply H. reflexivity.
  - apply (preserves_elim selection_ok); [ | exact Hs ].
    keep.
Qed.

Lemma selection_ok_try_start (w : World) (h : string -> M unit) :
  (forall b, preserves selection_ok (h b)) ->
  preserves selection_ok (try_start_chat_session w h).
Proof.
  intros Hh s Hs. unfold try_start_chat_session. rewrite exec_bind. cbn [get fst snd].
  destruct (is_ai_configured (app s)); [ | exact Hs ].
  destruct (model (app s)) as [gm|]; [ | exact Hs ].
  destruct (truthy (selected_doc_basename (app s))) eqn:Htruthy; cbn [negb].
  - destruct (negb (PyDict.mem (str_opt (selected_doc_basename (app s)))
                      (uploaded_files (app s)))).
    + apply (preserves_elim selection_ok); [keep | exact Hs].
    + destruct (current_chat_session (app s)).
      * apply (preserves_elim selection_ok); [keep | exact Hs].
      * apply selection_ok_start_new_chat; [exact Hs |].
        intros Hnone. rewrite Hnone in Htruthy. discriminate Htruthy.
  - apply (preserves_elim selection_ok); [ | exact Hs ].
    destruct (PyDict.keys (uploaded_files (app s))); [keep |].
    apply selection_ok_setCurrentText, Hh.
Qed.

Lemma selection_ok_selection (w : World) (depth : nat) :
  (forall b, preserves selection_ok (handle_document_selection_change_ w depth b))
  /\ preserves selection_ok (_try_start_chat_session_ w depth).
Proof.
  induction depth as [|depth [IHh IHt]]; split; intros; simpl.
  - apply preserves_ret.
  - apply preserves_ret.
  - apply selection_ok_selection_change; assumption.
  - apply selection_ok_try_start; assumption.
Qed.

Lemma selection_ok_handle_document_selection_change (w : World) (b : string) :
  preserves selection_ok (handle_document_selection_change w b).
Proof. apply selection_ok_selection. Qed.

Lemma selection_ok__try_start_chat_session (w : World) :
  preserves selection_ok (_try_start_chat_session w).
Proof. apply selection_ok_selection. Qed.
#[local] Hint Resolve selection_ok_handle_document_selection_change
  selection_ok__try_start_chat_session : keep.

Lemma selection_ok_update_document_list (w : World) (names : list string) :
  preserves selection_ok (update_document_list w names).
Proof.
  unfold update_document_list. keep.
Qed.
#[local] Hint Resolve selection_ok_update_document_list : keep.

Lemma selection_ok__update_ui_state (w : World) : preserves selection_ok (_update_ui_state w).
Proof.
  unfold _update_ui_state. keep.
Qed.
#[local] Hint Resolve selection_ok__update_ui_state : keep.

Lemma selection_ok__attempt_backend_deletion (w : World) (l : list File) :
  preserves selection_ok (_attempt_backend_deletion w l).
Proof. unfold _attempt_backend_deletion. keep. Qed.
#[local] Hint Resolve selection_ok__attempt_backend_deletion : keep.

Lemma selection_ok_initialize_ai (w : World) : preserves selection_ok (initialize_ai w).
Proof. unfold initialize_ai, initialize_ai_failed. keep. Qed.
#[local] Hint Resolve selection_ok_initialize_ai : keep.

Lemma selection_ok_apply_and_save_settings (w : World) (settings : Config) :
  preserves selection_ok (apply_and_save_settings w settings).
Proof. unfold apply_and_save_settings. keep. Qed.

Lemma selection_ok_add_files (w : World) (paths : list string) :
  preserves selection_ok (add_files w paths).
Proof. unfold add_files, add_file. keep. Qed.

Lemma remove_file_loop_none (names : list string) :
  forall s r,
    fst (fst (for_each names r remove_file s)) = fst r ->
    snd (for_each names r remove_file s) = s.
Proof.
  induction names as [|n rest IH]; intros s r H.
  - reflexivity.
  - cbn [for_each] in *. rewrite bind_run in *.
    destruct (remove_file_step n r s) as (_ & _ & _ & _ & Hcount).
    cbv zeta in Hcount.
    destruct (remove_file_loop rest (snd (remove_file n r s)) (fst (remove_file n r s)))
      as (_ & _ & _ & _ & _ & _ & Hle).
    cbv zeta in Hle.
    destruct (PyDict.mem n (local_file_paths (app s))) eqn:Hmem.
    + exfalso. lia.
    + rewrite (remove_file_absent n r s Hmem) in *. cbn [fst snd] in *.
      apply IH, H.
Qed.

Lemma remove_file_loop_other (names : list string) (k : string) :
  str_in k names = false ->
  forall s r,
    PyDict.mem k (uploaded_files (app (snd (for_each names r remove_file s))))
    = PyDict.mem k (uploaded_files (app s)).
Proof.
  induction names as [|n rest IH]; intros Hk s r.
  - reflexivity.
  - cbn [str_in existsb] in Hk. apply orb_false_iff in Hk. destruct Hk as [Hne Hk].
    cbn [for_each]. rewrite bind_run. rewrite (IH Hk).
    destruct (remove_file_step n r s) as (_ & _ & _ & Hup & _). cbv zeta in Hup.
    rewrite Hup. rewrite String.eqb_sym in Hne. rewrite Hne. reflexivity.
Qed.

Lemma selection_ok_remove_files (w : World) (names : list string) :
  preserves selection_ok (remove_files w names).
Proof.
  intros s [H1 H2]. unfold remove_files. rewrite exec_bind. cbn [get fst snd].
  destruct (is_processing (app s)); [exact (conj H1 H2) |].
  rewrite exec_bind.
  destruct (remove_file_loop names s (0, [])) as (_ & Hbut & _).
  cbv zeta in Hbut.
  pose proof (remove_file_loop_none names s (0, [])) as Hnone.
  pose proof (fun k Hk => remove_file_loop_other names k Hk s (0, [])) as Hother.
  set (res := for_each names (0, []) remove_file s) in *.
  assert (Hsel : selected_doc_basename (app (snd res)) = selected_doc_basename (app s))
    by exact (f_equal selected_doc_basename Hbut).
  assert (Hses : current_chat_session (app (snd res)) = current_chat_session (app s))
    by exact (f_equal current_chat_session Hbut).
  cbv beta zeta.
  destruct (Nat.ltb 0 (fst (fst res))) eqn:Hpos.
  2:{ apply Nat.ltb_ge in Hpos. unfold exec, ret. cbn [snd].
      rewrite Hnone; [exact (conj H1 H2) | cbn [fst]; lia]. }
  unfold files_removed. rewrite exec_bind. cbn [get fst snd]. rewrite Hsel.
  destruct (selected_doc_basename (app s)) as [sel|] eqn:Hs.
  - destruct (str_in sel names) eqn:Hin.
    + rewrite exec_bind. apply (preserves_elim selection_ok); [keep |].
      unfold bind, modify, call. cbn. split.
      * intros b Hb. discriminate Hb.
      * intros H. exfalso. apply H. reflexivity.
    + rewrite exec_bind. apply (preserves_elim selection_ok); [keep |].
      unfold ret. cbn [snd]. split.
      * intros b Hb. rewrite Hsel in Hb. injection Hb as <-.
        rewrite (Hother sel Hin). apply H1. exact Hs.
      * intros _. rewrite Hsel. discriminate.
  - rewrite exec_bind. apply (preserves_elim selection_ok); [keep |].
    unfold ret. cbn [snd]. split.
    + intros b Hb. rewrite Hsel in Hb. discriminate Hb.
    + intros Hc. rewrite Hses in Hc. exfalso. apply (H2 Hc). exact Hs.
Qed.

Lemma selection_ok_clear_all_files (w : World) : preserves selection_ok (clear_all_files w).
Proof.
  intros s Hs. unfold clear_all_files. rewrite exec_bind. cbn [get fst snd].
  destruct (is_processing (app s)); [exact Hs |].
  destruct (local_file_paths (app s)); [exact Hs |].
  cbv zeta. do 4 rewrite exec_bind.
  apply (preserves_elim selection_ok); [keep |].
  unfold modify. cbn. split.
  - intros b Hb. discriminate Hb.
  - intros H. exfalso. apply H. reflexivity.
Qed.

Lemma selection_ok_upload_files_to_ai (w : World) :
  preserves selection_ok (upload_files_to_ai w).
Proof. unfold upload_files_to_ai. keep. Qed.

Lemma selection_ok__handle_upload_finished (w : World) (refs : list File) :
  preserves selection_ok (_handle_upload_finished w refs).
Proof. unfold _handle_upload_finished. keep. Qed.

Lemma selection_ok_handle_user_message (user_text : string) :
  preserves selection_ok (handle_user_message user_text).
Proof. unfold handle_user_message. keep. Qed.

Lemma selection_ok__on_thread_finished : preserves selection_ok _on_thread_finished.
Proof. unfold _on_thread_finished. keep. Qed.

Lemma selection_ok_deliver (w : World) (wk : Worker) (sg : Signal) :
  preserves selection_ok (deliver w wk sg).
Proof.
  pose proof selection_ok__on_thread_finished.
  pose proof (selection_ok__handle_upload_finished w).
  unfold deliver, _handle_upload_error, _handle_ai_result, _handle_ai_error.
  destruct wk, sg; keep.
Qed.

Lemma selection_ok_handle (w : World) (e : Event) : preserves selection_ok (handle w e).
Proof.
  destruct e; cbn [handle].
  - apply selection_ok_add_files.
  - apply selection_ok_remove_files.
  - apply selection_ok_clear_all_files.
  - apply selection_ok_upload_files_to_ai.
  - apply selection_ok_apply_and_save_settings.
  - apply selection_ok_handle_document_selection_change.
  - apply selection_ok_handle_user_message.
  - apply preserves_bind; [apply preserves_get | intro a].
    destruct (worker a); [apply selection_ok_deliver | apply preserves_ret].
Qed.

Lemma consistent_deliver (w : World) (wk : Worker) (sg : Signal) :
  preserves consistent (deliver w wk sg).
Proof.
  pose proof (keep__handle_upload_finished w).
  unfold deliver, _handle_upload_error, _handle_ai_result, _handle_ai_error,
    _on_thread_finished.
  destruct wk, sg; keep.
Qed.

Lemma consistent_handle (w : World) (e : Event) : preserves consistent (handle w e).
Proof.
  destruct e; cbn [handle].
  - apply keep_add_files.
  - apply keep_remove_files.
  - apply keep_clear_all_files.
  - unfold upload_files_to_ai. keep.
  - unfold apply_and_save_settings. keep.
  - keep.
  - unfold handle_user_message. keep.
  - apply preserves_bind; [apply preserves_get | intro a].
    destruct (worker a); [apply consistent_deliver | apply preserves_ret].
Qed.

Lemma lifecycle_handle (w : World) (e : Event) : preserves lifecycle (handle w e).
Proof.
  intros s (H1 & H2 & H3).
  pose proof (consistent_handle w e s H1) as Hc.
  pose proof (selection_ok_handle w e s (conj H2 H3)) as [Hs1 Hs2].
  exact (conj Hc (conj Hs1 Hs2)).
Qed.

Lemma lifecycle_startup (w : World) (d : Disk) :
  lifecycle (exec (startup w) (start (init_app d))).
Proof.
  unfold startup. rewrite exec_bind.
  assert (H0 : lifecycle (exec (load_config w) (start (init_app d)))).
  { unfold exec, load_config, load_config_failed. unfold bind at 1. cbn [get start app disk init_app].
    assert (Hl : forall s : St,
      uploaded_files (app s) = [] -> selected_doc_basename (app s) = None ->
      current_chat_session (app s) = None -> lifecycle s).
    { intros s Hu Hsel Hses. split; [ | split ].
      - intros k Hk. rewrite Hu in Hk. discriminate Hk.
      - intros b Hb. rewrite Hsel in Hb. discriminate Hb.
      - intros H. exfalso. apply H, Hses. }
    destruct d as [|e|f].
    - apply Hl; reflexivity.
    - apply Hl; reflexivity.
    - destruct (read_ini w f) as [[[[[api_key model_name] language] temperature] registry]|e];
        [ | apply Hl; reflexivity ].
      destruct registry; apply Hl; reflexivity. }
  set (s := snd (load_config w (start (init_app d)))).
  change (exec (load_config w) (start (init_app d))) with s in H0.
  clearbody s. destruct H0 as (H1 & H2 & H3). cbv beta.
  assert (Hm : forall m : M unit,
    preserves consistent m -> preserves selection_ok m -> lifecycle (exec m s)).
  { intros m Hc Hs. pose proof (Hc s H1) as Hc'.
    pose proof (Hs s (conj H2 H3)) as [Hs1 Hs2]. exact (conj Hc' (conj Hs1 Hs2)). }
  apply Hm; keep.
Qed.

(** X15. From start-up on, whatever was saved on the disk, through every
    sequence of commands, selector changes and worker signals, each in any
    world: the uploaded files are among the local files, the selected
    document is an uploaded file, and a chat session exists only while a
    document is selected.  So a live session is always bound to a document
    that is uploaded and listed. *)
Theorem session_bound_to_uploaded_document (w0 : World) (d : Disk)
    (evs : list (World * Event)) :
  Forall lifecycle (exec (startup w0) (start (init_app d))
                    :: run_events evs (exec (startup w0) (start (init_app d)))).
Proof.
  pose proof (lifecycle_startup w0 d) as H0.
  revert H0. generalize (exec (startup w0) (start (init_app d))).
  intros s H. constructor; [exact H |].
  revert s H. induction evs as [|[w e] evs IH]; intros s H; cbn [run_events].
  - constructor.
  - pose proof (lifecycle_handle w e s H) as H'.
    constructor; [exact H' | apply IH, H'].
Qed.

(** ** The completion of an upload *)

Lemma set_uploaded_files_same (a : App) : set_uploaded_files (uploaded_files a) a = a.
Proof. destruct a. reflexivity. Qed.

Lemma recorded_mem (local : dict string) (refs : list File) :
  forall uploaded k,
    PyDict.mem k (recorded local refs uploaded)
    = PyDict.mem k uploaded
      || existsb (fun f => (k =? display_name f)%string && is_requested local f) refs.
Proof.
  induction refs as [|f rest IH]; intros uploaded k; cbn [recorded existsb].
  - rewrite orb_false_r. reflexivity.
  - destruct (is_requested local f); rewrite IH.
    + rewrite mem_set, andb_true_r.
      destruct (k =? display_name f)%string, (PyDict.mem k uploaded); reflexivity.
    + rewrite andb_false_r. reflexivity.
Qed.

Lemma record_reference_requested (w : World) (f : File) (count : nat) (s : St) :
  is_requested (local_file_paths (app s)) f = true ->
  record_reference w f count s
  = (S count,
     {| app := set_uploaded_files (PyDict.set (display_name f) f (uploaded_files (app s)))
                 (app s);
        log := log s |}).
Proof.
  unfold is_requested. intros H. unfold record_reference, bind, get. cbv zeta.
  rewrite H. reflexivity.
Qed.

Lemma record_reference_other (w : World) (f : File) (count : nat) (s : St) :
  is_requested (local_file_paths (app s)) f = false ->
  record_reference w f count s
  = (count,
     {| app := app s;
        log := log s
               ++ map (fun c => (c, app s))
                      (if is_ai_configured (app s) then deletion_calls w [f] else []) |}).
Proof.
  unfold is_requested. intros H. unfold record_reference. cbv zeta.
  unfold bind at 1. cbn [get]. rewrite H.
  unfold bind. rewrite _attempt_backend_deletion_run. reflexivity.
Qed.

(** The loop of [_handle_upload_finished]. *)
Lemma upload_finished_loop (w : World) (refs : list File) :
  forall count s,
    let r := for_each refs count (record_reference w) s in
    app (snd r)
    = set_uploaded_files (recorded (local_file_paths (app s)) refs (uploaded_files (app s)))
        (app s)
    /\ filter is_thread_start (calls (snd r)) = filter is_thread_start (calls s)
    /\ (forall c, In c (calls s) -> In c (calls (snd r)))
    /\ (forall f, In f refs -> is_requested (local_file_paths (app s)) f = false ->
                  is_ai_configured (app s) = true ->
                  In (call_delete_file (name f)) (calls (snd r))).
Proof.
  induction refs as [|f rest IH]; intros count s; cbv zeta.
  - cbn [for_each recorded]. unfold ret. cbn [snd].
    rewrite set_uploaded_files_same.
    split; [reflexivity | split; [reflexivity | split; [auto |]]].
    intros f [].
  - cbn [for_each recorded]. rewrite bind_run.
    destruct (is_requested (local_file_paths (app s)) f) eqn:Hreq.
    + rewrite (record_reference_requested w f count s Hreq). cbn [fst snd].
      match goal with
      | |- context [for_each rest ?c (record_reference w) ?s1] =>
        destruct (IH c s1) as (Happ & Hthr & Hincl & Hdel)
      end.
      cbv zeta in Happ, Hthr, Hincl, Hdel.
      cbn [app local_file_paths uploaded_files set_uploaded_files is_ai_configured]
        in Happ, Hdel.
      split; [exact Happ | split; [exact Hthr | split; [exact Hincl |]]].
      intros f' [<-|Hin] Hf' Hconf.
      * rewrite Hreq in Hf'. discriminate Hf'.
      * apply Hdel; assumption.
    + rewrite (record_reference_other w f count s Hreq). cbn [fst snd].
      match goal with
      | |- context [for_each rest ?c (record_reference w) ?s1] =>
        destruct (IH c s1) as (Happ & Hthr & Hincl & Hdel)
      end.
      cbv zeta in Happ, Hthr, Hincl, Hdel.
      cbn [app] in Happ, Hdel.
      assert (Hcalls : forall l,
        calls {| app := app s; log := log s ++ map (fun c => (c, app s)) l |}
        = calls s ++ l).
      { intros l. unfold calls. cbn [log]. rewrite map_app, map_map. cbn [fst].
        rewrite map_id. reflexivity. }
      rewrite Hcalls in Hthr, Hincl.
      split; [exact Happ | split; [ | split ]].
      * rewrite Hthr, filter_app.
        destruct (is_ai_configured (app s)); [ | cbn; apply app_nil_r ].
        unfold deletion_calls. cbn [map filter].
        destruct (deletion_fails w f); cbn; apply app_nil_r.
      * intros c Hc. apply Hincl. apply in_or_app. left. exact Hc.
      * intros f' [<-|Hin] Hf' Hconf.
        -- apply Hincl. apply in_or_app. right. rewrite Hconf.
           unfold deletion_calls. cbn [map]. left. reflexivity.
        -- apply Hdel; assumption.
Qed.

Lemma _handle_upload_finished_parts (w : World) (refs : list File) :
  _handle_upload_finished w refs
  = (n <- for_each refs 0 (record_reference w) ;; upload_finished_rest w n).
Proof. reflexivity. Qed.

Lemma stable_in_calls (c : Call) : stable (fun s => In c (calls s)).
Proof.
  constructor; intros; intros s H; try exact H.
  unfold exec, call, calls in *. cbn [snd log]. rewrite map_app.
  apply in_or_app. left. exact H.
Qed.
#[local] Hint Resolve stable_in_calls : keep.

(** X16. [_handle_upload_finished] records a reference under its display
    name exactly when that name is not empty and is in the local list, a
    later reference replacing an earlier one of the same name; it never
    touches the local list; and when the AI is configured it asks the
    backend to delete every reference it does not record. *)
Theorem upload_completion_records_requested_only (w : World) (refs : list File) (s : St) :
  let s' := exec (_handle_upload_finished w refs) s in
  uploaded_files (app s')
  = recorded (local_file_paths (app s)) refs (uploaded_files (app s))
  /\ local_file_paths (app s') = local_file_paths (app s)
  /\ (forall k, PyDict.mem k (uploaded_files (app s'))
                = PyDict.mem k (uploaded_files (app s))
                  || existsb (fun f => (k =? display_name f)%string
                                       && is_requested (local_file_paths (app s)) f) refs)
  /\ (forall f, In f refs -> is_requested (local_file_paths (app s)) f = false ->
                is_ai_configured (app s) = true ->
                In (call_delete_file (name f)) (calls s')).
Proof.
  cbv zeta. rewrite _handle_upload_finished_parts. rewrite exec_bind.
  destruct (upload_finished_loop w refs 0 s) as (Happ & _ & _ & Hdel).
  cbv zeta in Happ, Hdel.
  set (r := for_each refs 0 (record_reference w) s) in *.
  assert (Hup : uploaded_files (app (snd r))
                = recorded (local_file_paths (app s)) refs (uploaded_files (app s)))
    by (rewrite Happ; reflexivity).
  assert (Hloc : local_file_paths (app (snd r)) = local_file_paths (app s))
    by (rewrite Happ; reflexivity).
  assert (Hu : uploaded_is (uploaded_files (app (snd r)))
                 (exec (upload_finished_rest w (fst r)) (snd r))).
  { apply preserves_elim; [unfold upload_finished_rest; keep | reflexivity]. }
  assert (Hl : local_is (local_file_paths (app (snd r)))
                 (exec (upload_finished_rest w (fst r)) (snd r))).
  { apply preserves_elim; [unfold upload_finished_rest; keep | reflexivity]. }
  unfold uploaded_is in Hu. unfold local_is in Hl. rewrite Hu, Hl, Hup, Hloc.
  split; [reflexivity | split; [reflexivity | split]].
  - intros k. apply recorded_mem.
  - intros f Hin Hreq Hconf.
    apply (preserves_elim (fun s => In (call_delete_file (name f)) (calls s)));
      [unfold upload_finished_rest; keep |].
    apply Hdel; assumption.
Qed.

(** ** No chat starts by itself after the first upload *)

Lemma index_of_not_mem {V : Type} (x : string) (d : dict V) :
  PyDict.mem x d = false -> index_of x (PyDict.keys d) = None.
Proof.
  unfold PyDict.mem, PyDict.keys. induction d as [|[k v] d IH]; cbn; intros H.
  - reflexivity.
  - destruct (x =? k)%string; [discriminate H |]. rewrite (IH H). reflexivity.
Qed.

Lemma currentText_empty (c : ComboBox) : items c = [] -> currentText c = "".
Proof.
  intros H. unfold currentText. rewrite H.
  destruct (currentIndex c) as [[|i]|]; reflexivity.
Qed.

Lemma no_empty_name_recorded (local : dict string) (refs : list File) :
  existsb (fun f => ("" =? display_name f)%string && is_requested local f) refs = false.
Proof.
  induction refs as [|f rest IH]; cbn [existsb]; [reflexivity |].
  rewrite IH, orb_false_r. unfold is_requested, truthy.
  destruct (String.eqb_spec "" (display_name f)) as [<-|Hne]; reflexivity.
Qed.

(** With no document selected, [_try_start_chat_session] sets the selector
    to the first uploaded document; when the selector shows it already,
    nothing happens. *)
Lemma try_start_first_shown (w : World) (s : St) :
  truthy (selected_doc_basename (app s)) = false ->
  items (doc_selector_combo (app s)) = PyDict.keys (uploaded_files (app s)) ->
  currentIndex (doc_selector_combo (app s)) = Some 0 ->
  PyDict.keys (uploaded_files (app s)) <> [] ->
  _try_start_chat_session w s = (tt, s).
Proof.
  intros Hsel Hitems Hcur Hkeys. unfold _try_start_chat_session.
  cbn [_try_start_chat_session_]. unfold try_start_chat_session. unfold bind at 1.
  cbn [get].
  destruct (is_ai_configured (app s)); [ | reflexivity ].
  destruct (model (app s)); [ | reflexivity ].
  rewrite Hsel. cbn [negb].
  destruct (PyDict.keys (uploaded_files (app s))) as [|first rest] eqn:Hk;
    [contradiction |].
  unfold setCurrentText, findText. unfold bind at 1. cbn [get]. rewrite Hitems.
  cbn [index_of]. rewrite String.eqb_refl.
  unfold setCurrentIndex. unfold bind at 1. cbn [get]. rewrite Hitems, Hcur.
  cbn. reflexivity.
Qed.

(** X17. The completion of an upload in a state with no uploaded file, no
    selection and an empty selector, as after start-up: the references are
    recorded and the selector is filled, but no document becomes selected,
    no session is created and no chat worker is started.  The selector
    already shows the first document when [_try_start_chat_session] sets its
    text to it, so the signal that would select the document is not
    emitted. *)
Theorem first_upload_starts_no_chat (w : World) (refs : list File) (s : St) :
  selected_doc_basename (app s) = None ->
  uploaded_files (app s) = [] ->
  items (doc_selector_combo (app s)) = [] ->
  let s' := exec (_handle_upload_finished w refs) s in
  selected_doc_basename (app s') = None
  /\ current_chat_session (app s') = current_chat_session (app s)
  /\ worker (app s') = worker (app s)
  /\ is_processing (app s') = false
  /\ uploaded_files (app s') = recorded (local_file_paths (app s)) refs []
  /\ filter is_thread_start (calls s') = filter is_thread_start (calls s).
Proof.
  intros Hsel Hup Hitems. cbv zeta.
  rewrite _handle_upload_finished_parts. rewrite exec_bind.
  destruct (upload_finished_loop w refs 0 s) as (Happ & Hthr & _ & _).
  cbv zeta in Happ, Hthr. rewrite Hup in Happ.
  set (r := for_each refs 0 (record_reference w) s) in *.
  set (U := recorded (local_file_paths (app s)) refs []) in *.
  unfold upload_finished_rest. rewrite exec_bind. cbn [get fst snd]. cbv zeta.
  rewrite exec_bind.
  match goal with
  | |- context [snd (?m (snd r))] => set (s2 := snd (m (snd r)))
  end.
  assert (Hs2 : app s2 = set_is_processing false (app (snd r))
                /\ filter is_thread_start (calls s2) = filter is_thread_start (calls s)).
  { assert (Hst : forall msg e,
      app (snd (update_status msg e false (snd r))) = set_is_processing false (app (snd r))
      /\ filter is_thread_start (calls (snd (update_status msg e false (snd r))))
         = filter is_thread_start (calls s)).
    { intros msg e. split; [reflexivity |].
      unfold update_status, bind, modify, call, calls. cbn [fst snd log app].
      rewrite !map_app, !filter_app. cbn. rewrite !app_nil_r. exact Hthr. }
    unfold s2. destruct (Nat.ltb 0 (fst r)); [apply Hst |].
    destruct (Nat.eqb _ _ && Nat.ltb 0 _); apply Hst. }
  destruct Hs2 as [Happ2 Hthr2]. clearbody s2. cbv beta.
  rewrite exec_bind.
  destruct (_update_ui_state_effect w s2) as (Hbc & Hcalls & Hitems3 & _ & Hfresh).
  cbv zeta in Hbc, Hcalls, Hitems3, Hfresh. unfold exec in Hbc, Hcalls, Hitems3, Hfresh.
  set (s3 := snd (_update_ui_state w s2)) in *. cbv beta.
  assert (Hu2 : uploaded_files (app s2) = U) by (rewrite Happ2, Happ; reflexivity).
  assert (Hsel2 : selected_doc_basename (app s2) = None)
    by (rewrite Happ2, Happ; exact Hsel).
  assert (Hcombo2 : doc_selector_combo (app s2) = doc_selector_combo (app s))
    by (rewrite Happ2, Happ; reflexivity).
  assert (Hu3 : uploaded_files (app s3) = U)
    by (rewrite <- Hu2; exact (f_equal uploaded_files Hbc)).
  assert (Hsel3 : selected_doc_basename (app s3) = None)
    by (rewrite <- Hsel2; exact (f_equal selected_doc_basename Hbc)).
  assert (Hses3 : current_chat_session (app s3) = current_chat_session (app s)).
  { pose proof (f_equal current_chat_session Hbc) as H. cbn in H. rewrite H.
    rewrite Happ2, Happ. reflexivity. }
  assert (Hw3 : worker (app s3) = worker (app s)).
  { pose proof (f_equal worker Hbc) as H. cbn in H. rewrite H.
    rewrite Happ2, Happ. reflexivity. }
  assert (Hp3 : is_processing (app s3) = false).
  { pose proof (f_equal is_processing Hbc) as H. cbn in H. rewrite H.
    rewrite Happ2. reflexivity. }
  assert (Hthr3 : filter is_thread_start (calls s3) = filter is_thread_start (calls s)).
  { rewrite Hcalls, filter_app. cbn. rewrite app_nil_r. exact Hthr2. }
  destruct (PyDict.keys U) as [|first rest] eqn:Hkeys.
  - (* nothing was recorded *)
    unfold exec, _try_start_chat_session. cbn [_try_start_chat_session_].
    unfold try_start_chat_session. unfold bind at 1 2 3 4 5 6. cbn [get].
    destruct (is_ai_configured (app s3));
      [ | repeat split; assumption ].
    destruct (model (app s3)); [ | repeat split; assumption ].
    rewrite Hsel3, Hu3, Hkeys. cbn [truthy negb].
    unfold update_status, bind, modify, call, calls. cbn [fst snd log app].
    cbn [selected_doc_basename current_chat_session worker is_processing uploaded_files
         set_is_processing].
    rewrite !map_app, !filter_app. cbn [map fst filter is_thread_start].
    rewrite !app_nil_r.
    repeat split; assumption.
  - unfold exec. rewrite try_start_first_shown.
    + cbn [snd]. repeat split; assumption.
    + rewrite Hsel3. reflexivity.
    + rewrite Hu3, Hkeys. rewrite Hitems3, Hu2. exact Hkeys.
    + apply Hfresh.
      * exact Hsel2.
      * rewrite Hcombo2, (currentText_empty _ Hitems), Hu2.
        apply index_of_not_mem. unfold U. rewrite recorded_mem.
        rewrite no_empty_name_recorded. reflexivity.
      * rewrite Hu2, Hkeys. discriminate.
    + rewrite Hu3, Hkeys. discriminate.
Qed.

Lemma first_upload_starts_no_chat_witness :
  uploaded_files (app (exec (_handle_upload_finished lab [lab_file "L1.pdf" "ACTIVE"])
                            lab_added))
  = [("L1.pdf", lab_file "L1.pdf" "ACTIVE")]
  /\ selected_doc_basename (app lab_added) = None
  /\ uploaded_files (app lab_added) = []
  /\ items (doc_selector_combo (app lab_added)) = []
  /\ (let s' := exec (_handle_upload_finished lab [lab_file "L1.pdf" "ACTIVE"]) lab_added in
      selected_doc_basename (app s') = None
      /\ current_chat_session (app s') = current_chat_session (app lab_added)).
Proof.
  split; [vm_compute; reflexivity |].
  assert (Hsel : selected_doc_basename (app lab_added) = None) by (vm_compute; reflexivity).
  assert (Hup : uploaded_files (app lab_added) = []) by (vm_compute; reflexivity).
  assert (Hitems : items (doc_selector_combo (app lab_added)) = [])
    by (vm_compute; reflexivity).
  split; [exact Hsel |]. split; [exact Hup |]. split; [exact Hitems |].
  pose proof (first_upload_starts_no_chat lab [lab_file "L1.pdf" "ACTIVE"] lab_added
                Hsel Hup Hitems) as H.
  exact (conj (proj1 H) (proj1 (proj2 H))).
Defined.

(** ** Escaping in the chat display *)

Lemma append_assoc (a b c : string) : (a +++ b) +++ c = a +++ (b +++ c).
Proof. induction a as [|x a IH]; cbn; [reflexivity | rewrite IH; reflexivity]. Qed.

Lemma escape_html_cons (c : ascii) (text : string) :
  escape_html (String c text) = escape_char c +++ escape_html text.
Proof.
  unfold escape_html, escape_char. cbn [replace_char].
  destruct (Ascii.eqb c "&") eqn:E1.
  { apply Ascii.eqb_eq in E1. subst c. reflexivity. }
  cbn [replace_char].
  destruct (Ascii.eqb c "<") eqn:E2.
  { apply Ascii.eqb_eq in E2. subst c. reflexivity. }
  cbn [replace_char].
  destruct (Ascii.eqb c ">") eqn:E3.
  { apply Ascii.eqb_eq in E3. subst c. reflexivity. }
  cbn [replace_char].
  destruct (Ascii.eqb c newline) eqn:E4; reflexivity.
Qed.

Lemma escape_html_each (text : string) : escape_html text = escape_each text.
Proof.
  induction text as [|c text IH]; [reflexivity |].
  rewrite escape_html_cons, IH. reflexivity.
Qed.

Lemma unescape_escape_char (c : ascii) (rest : string) :
  unescape_html (escape_char c +++ rest) = String c (unescape_html rest).
Proof.
  unfold escape_char.
  destruct (Ascii.eqb c "&") eqn:E1.
  { apply Ascii.eqb_eq in E1. subst c. reflexivity. }
  destruct (Ascii.eqb c "<") eqn:E2.
  { apply Ascii.eqb_eq in E2. subst c. reflexivity. }
  destruct (Ascii.eqb c ">") eqn:E3.
  { apply Ascii.eqb_eq in E3. subst c. reflexivity. }
  destruct (Ascii.eqb c newline) eqn:E4.
  { apply Ascii.eqb_eq in E4. subst c. reflexivity. }
  cbn [String.append unescape_html]. rewrite E1, E2. reflexivity.
Qed.

Lemma only_line_breaks_escape_char (c : ascii) (rest : string) :
  only_line_breaks (escape_char c +++ rest) = only_line_breaks rest.
Proof.
  unfold escape_char.
  destruct (Ascii.eqb c "&") eqn:E1.
  { apply Ascii.eqb_eq in E1. subst c. reflexivity. }
  destruct (Ascii.eqb c "<") eqn:E2.
  { apply Ascii.eqb_eq in E2. subst c. reflexivity. }
  destruct (Ascii.eqb c ">") eqn:E3.
  { apply Ascii.eqb_eq in E3. subst c. reflexivity. }
  destruct (Ascii.eqb c newline) eqn:E4.
  { apply Ascii.eqb_eq in E4. subst c. reflexivity. }
  cbn [String.append only_line_breaks]. rewrite E2, E3. reflexivity.
Qed.

(** X18. The escaping of [ChatWidget.add_message].  The four replacements,
    in their order, amount to one pass that turns [&], [<], [>] and a
    line feed into [&amp;], [&lt;], [&gt;] and [<br>] and keeps every other
    character: what a replacement inserts is not escaped again.  The
    escaped text can be read back, so two different texts are never shown
    alike; and its only markup is line breaks.  Whatever the role, the text
    of a message reaches the display in escaped form only. *)
Theorem chat_text_is_escaped (text : string) :
  escape_html text = escape_each text
  /\ unescape_html (escape_html text) = text
  /\ only_line_breaks (escape_html text) = true
  /\ (forall sender_role, exists before after,
        forall text', formatted_message sender_role text'
                      = before +++ escape_html text' +++ after).
Proof.
  split; [apply escape_html_each |].
  split; [ | split ].
  - rewrite escape_html_each. induction text as [|c text IH]; [reflexivity |].
    cbn [escape_each]. rewrite unescape_escape_char, IH. reflexivity.
  - rewrite escape_html_each. induction text as [|c text IH]; [reflexivity |].
    cbn [escape_each]. rewrite only_line_breaks_escape_char. exact IH.
  - intros sender_role.
    pose (start := fun color prefix : string =>
      "<div style=" +++ dquote +++ "margin-bottom: 8px;" +++ dquote +++ "><b style="
        +++ dquote +++ "color:" +++ color +++ ";" +++ dquote +++ ">" +++ prefix
        +++ "</b><br><span style=" +++ dquote +++ "color:" +++ color +++ ";" +++ dquote
        +++ ">").
    assert (Hplain : forall color prefix esc,
      "<div style=" +++ dquote +++ "margin-bottom: 8px;" +++ dquote +++ "><b style="
        +++ dquote +++ "color:" +++ color +++ ";" +++ dquote +++ ">" +++ prefix
        +++ "</b><br><span style=" +++ dquote +++ "color:" +++ color +++ ";" +++ dquote
        +++ ">" +++ esc +++ "</span></div>"
      = start color prefix +++ esc +++ "</span></div>").
    { intros color prefix esc. unfold start. rewrite !append_assoc. reflexivity. }
    unfold formatted_message. cbv zeta.
    destruct (sender_role =? ROLE_AI)%string.
    { exists (start AI_MSG_COLOR (robot_face +++ " AI Tutor:")), "</span></div>".
      intros text'. apply Hplain. }
    destruct (sender_role =? ROLE_USER)%string.
    { exists (start USER_MSG_COLOR (bust +++ " You:")), "</span></div>".
      intros text'. apply Hplain. }
    destruct (sender_role =? ROLE_SYSTEM)%string.
    { exists (start SYSTEM_MSG_COLOR (information +++ " System:") +++ "<i>"),
             ("</i>" +++ "</span></div>").
      intros text'. cbv beta iota. rewrite Hplain. rewrite !append_assoc. reflexivity. }
    exists (start "#000000" (sender_role +++ ":")), "</span></div>".
    intros text'. apply Hplain.
Qed.
